(** * Expense tracker (src/app.py): a shallow embedding of the route handlers

    The Flask application keeps three SQLite tables (users, categories,
    expenses) and serves a handful of views.  This development embeds the
    views that carry logic -- the bootstrap [init_db], the two guards, the
    filtered listing with its totals, and the add / edit / delete handlers --
    as total functions over an explicit store, and proves the properties the
    specification states about them.

    Conventions of the embedding:
    - a Python [str] is a [string]; a character is its code point, so the
      model covers text whose code points are below 256;
    - a Python [float] is an IEEE-754 binary64 value, [spec_float] with
      precision 53 and maximal exponent 1024, with the operations of
      [SpecFloat];
    - a Python [int] is a [Z]; SQLite integers are the 64-bit signed range;
    - a view takes the request context and the store and returns the new
      store, the flashed messages and either a response or the exception
      that escapes the view (after which the transaction is rolled back). *)

From Stdlib Require Import ZArith NArith List String Ascii Bool Lia.
From Stdlib Require Import Permutation Sorted.
From Stdlib Require Import Floats.SpecFloat.
Import ListNotations.

Local Open Scope string_scope.
Local Open Scope list_scope.
Local Open Scope Z_scope.

(* ================================================================== *)
(** * Python built-ins used by the handlers *)
(* ================================================================== *)

Module Py.

Definition code (c : ascii) : Z := Z.of_N (N_of_ascii c).

(** [str.isspace] on one character: the code points below 256 that Python
    classifies as whitespace. *)
Definition isspace (c : ascii) : bool :=
  let n := code c in
  ((9 <=? n) && (n <=? 13)) || ((28 <=? n) && (n <=? 32))
  || (n =? 133) || (n =? 160).

(** The C-level [Py_ISSPACE] used by the number parsers. *)
Definition c_isspace (c : ascii) : bool :=
  let n := code c in
  ((9 <=? n) && (n <=? 13)) || (n =? 32).

Definition is_empty (s : string) : bool :=
  match s with EmptyString => true | String _ _ => false end.

Section Strip.
Variable ws : ascii -> bool.

Fixpoint lstrip_by (s : string) : string :=
  match s with
  | EmptyString => EmptyString
  | String c r => if ws c then lstrip_by r else s
  end.

Fixpoint rstrip_by (s : string) : string :=
  match s with
  | EmptyString => EmptyString
  | String c r =>
      let r' := rstrip_by r in
      if ws c && is_empty r' then EmptyString else String c r'
  end.

Definition strip_by (s : string) : string := rstrip_by (lstrip_by s).
End Strip.

(** [s.strip()] *)
Definition strip (s : string) : string := strip_by isspace s.

(** Decimal digits (category Nd): the only ones below 256 are ASCII. *)
Definition is_decimal (c : ascii) : bool :=
  (48 <=? code c) && (code c <=? 57).

(** Characters for which [str.isdigit] holds: the decimal digits and the
    superscripts two, three and one (U+00B2, U+00B3, U+00B9). *)
Definition isdigit_char (c : ascii) : bool :=
  is_decimal c || (code c =? 178) || (code c =? 179) || (code c =? 185).

Fixpoint all_chars (p : ascii -> bool) (s : string) : bool :=
  match s with
  | EmptyString => true
  | String c r => p c && all_chars p r
  end.

(** [s.isdigit()]: at least one character, and all of them digits. *)
Definition isdigit (s : string) : bool :=
  negb (is_empty s) && all_chars isdigit_char s.

(** [bool(s)] for a string. *)
Definition truthy (s : string) : bool := negb (is_empty s).

(** ** Number syntax shared by [int] and [float] *)

(** Before parsing, spaces above ASCII become a plain space; every other
    character is kept (a non-ASCII one can never be part of a number). *)
Definition ascii_space (c : ascii) : ascii :=
  if (127 <=? code c) && isspace c then " "%char else c.

Fixpoint map_chars (f : ascii -> ascii) (s : string) : string :=
  match s with
  | EmptyString => EmptyString
  | String c r => String (f c) (map_chars f r)
  end.

(** Underscores are removed; each must sit between two decimal digits. *)
Fixpoint drop_underscores (prev : ascii) (s : string) : option string :=
  match s with
  | EmptyString => if (prev =? "_")%char then None else Some EmptyString
  | String c r =>
      if (c =? "_")%char then
        if is_decimal prev then drop_underscores c r else None
      else if (prev =? "_")%char && negb (is_decimal c) then None
      else option_map (String c) (drop_underscores c r)
  end.

(** The longest prefix of decimal digits, as a number together with the
    count of digits read, and the rest of the string. *)
Fixpoint span_digits (acc : N) (cnt : nat) (s : string) : N * nat * string :=
  match s with
  | String c r =>
      if is_decimal c
      then span_digits (10 * acc + Z.to_N (code c - 48))%N (S cnt) r
      else (acc, cnt, s)
  | EmptyString => (acc, cnt, s)
  end.

Definition parse_sign (s : string) : bool * string :=
  match s with
  | String c r =>
      if (c =? "-")%char then (true, r)
      else if (c =? "+")%char then (false, r)
      else (false, s)
  | EmptyString => (false, s)
  end.

(** [int(s)] in base ten.  A literal of more than 4300 digits, leading
    zeros counted and underscores not, is refused like a malformed one
    (the default of [sys.int_max_str_digits]). *)
Definition int (s : string) : option Z :=
  let t := strip_by c_isspace (map_chars ascii_space s) in
  let (neg, body) := parse_sign t in
  match drop_underscores "000"%char body with
  | None => None
  | Some d =>
      match span_digits 0 0 d with
      | (n, S k, EmptyString) =>
          if Z.of_nat (S k) <=? 4300
          then Some (if neg then - Z.of_N n else Z.of_N n)
          else None
      | _ => None
      end
  end.

(** ** Floats *)

Definition float := spec_float.
Definition prec : Z := 53.
Definition emax : Z := 1024.

Definition fzero : float := S754_zero false.
Definition fadd : float -> float -> float := SFadd prec emax.
(** [x <= y] on floats: false as soon as one side is a NaN. *)
Definition fle : float -> float -> bool := SFleb.
Definition is_nan (x : float) : bool :=
  match x with S754_nan => true | _ => false end.

(** The binary64 value nearest to [(-1)^neg * m * 10^e], ties to even;
    too large a value becomes an infinity, too small a one a zero. *)
Definition float_of_decimal (neg : bool) (m : N) (e : Z) : float :=
  match m with
  | N0 => S754_zero neg
  | Npos p =>
      match e with
      | Zneg k =>
          let '(q, e', l) :=
            SFdiv_core_binary prec emax (Zpos p) 0 (10 ^ Zpos k) 0 in
          binary_round_aux prec emax neg q e' l
      | _ => binary_normalize prec emax
               (cond_Zopp neg (Zpos p * 10 ^ e)) 0 neg
      end
  end.

Definition to_lower (c : ascii) : ascii :=
  if (65 <=? code c) && (code c <=? 90)
  then ascii_of_N (Z.to_N (code c + 32)) else c.

(** Does [s] start with [p], letter case ignored?  Returns the rest. *)
Fixpoint match_nocase (p s : string) : option string :=
  match p with
  | EmptyString => Some s
  | String a p' =>
      match s with
      | String c r =>
          if (to_lower c =? a)%char then match_nocase p' r else None
      | EmptyString => None
      end
  end.

(** The decimal literal accepted by [strtod]: digits with an optional
    point, then an optional exponent.  [None] when there is no digit;
    otherwise the value and what is left of the string. *)
Definition strtod (s : string) : option (float * string) :=
  let (neg, s1) := parse_sign s in
  let '(ip, ni, s2) := span_digits 0 0 s1 in
  let '(m, nf, s3) :=
    match s2 with
    | String c r =>
        if (c =? ".")%char then
          let '(m, n, r') := span_digits ip 0 r in (m, n, r')
        else (ip, O, s2)
    | EmptyString => (ip, O, s2)
    end in
  match (ni + nf)%nat with
  | O => None
  | S _ =>
      let '(ex, s4) :=
        match s3 with
        | String c r =>
            if (to_lower c =? "e")%char then
              let (eneg, r1) := parse_sign r in
              match span_digits 0 0 r1 with
              | (_, O, _) => (0, s3)
              | (n, S _, r2) => ((if eneg then - Z.of_N n else Z.of_N n), r2)
              end
            else (0, s3)
        | EmptyString => (0, s3)
        end in
      Some (float_of_decimal neg m (ex - Z.of_nat nf), s4)
  end.

Definition parse_inf_or_nan (s : string) : option (float * string) :=
  let (neg, s1) := parse_sign s in
  match match_nocase "inf" s1 with
  | Some r =>
      match match_nocase "inity" r with
      | Some r' => Some (S754_infinity neg, r')
      | None => Some (S754_infinity neg, r)
      end
  | None =>
      match match_nocase "nan" s1 with
      | Some r => Some (S754_nan, r)
      | None => None
      end
  end.

(** [float(s)]: [None] stands for [ValueError]. *)
Definition float_of_str (s : string) : option float :=
  let t := strip_by c_isspace (map_chars ascii_space s) in
  match drop_underscores "000"%char t with
  | None => None
  | Some d =>
      let parsed :=
        match strtod d with
        | Some r => Some r
        | None => parse_inf_or_nan d
        end in
      match parsed with
      | Some (x, EmptyString) => Some x
      | _ => None
      end
  end.

End Py.

(* ================================================================== *)
(** * The persistent store *)
(* ================================================================== *)

(** Exceptions that can escape a view. *)
Inductive exn := ValueError | OverflowError | IntegrityError.

Inductive res (A : Type) :=
| Ok (a : A)
| Raise (e : exn).
Arguments Ok {A} a.
Arguments Raise {A} e.

Definition bind {A B} (r : res A) (k : A -> res B) : res B :=
  match r with Ok a => k a | Raise e => Raise e end.

Notation "x <- r ;; k" := (bind r (fun x => k))
  (at level 61, r at next level, right associativity).

(** Rows of the three tables, with the columns of the schema. *)
Record User := {
  u_id : Z;
  u_username : string;
  u_password : string;
  u_role : string
}.

Record Category := {
  c_id : Z;
  c_name : string
}.

Record Expense := {
  e_id : Z;
  e_user_id : Z;
  e_category_id : Z;
  e_amount : Py.float;
  e_description : string;
  e_expense_date : string;
  e_is_essential : Z
}.

(** The database: each table in rowid order, and the AUTOINCREMENT
    counters that SQLite keeps in [sqlite_sequence]. *)
Record Store := {
  tbl_users : list User;
  tbl_categories : list Category;
  tbl_expenses : list Expense;
  seq_users : Z;
  seq_categories : Z;
  seq_expenses : Z
}.

Definition empty_store : Store :=
  {| tbl_users := []; tbl_categories := []; tbl_expenses := [];
     seq_users := 0; seq_categories := 0; seq_expenses := 0 |}.

(** The integers SQLite can hold; binding any other raises. *)
Definition in_int64 (n : Z) : bool :=
  (- 2 ^ 63 <=? n) && (n <? 2 ^ 63).

Definition bind_int (n : Z) : res Z :=
  if in_int64 n then Ok n else Raise OverflowError.

(** The rowid an AUTOINCREMENT table hands out next. *)
Definition new_rowid (ids : list Z) (seq : Z) : Z :=
  Z.max (fold_right Z.max 0 ids) seq + 1.

(** [INSERT OR IGNORE INTO categories(name) VALUES (?)]: a name already
    present leaves the table alone; the counter advances either way. *)
Definition insert_or_ignore_category (name : string) (st : Store) : Store :=
  let rid := new_rowid (map c_id (tbl_categories st)) (seq_categories st) in
  {| tbl_users := tbl_users st;
     tbl_categories :=
       if existsb (fun c => c_name c =? name)%string (tbl_categories st)
       then tbl_categories st
       else tbl_categories st ++ [ {| c_id := rid; c_name := name |} ];
     tbl_expenses := tbl_expenses st;
     seq_users := seq_users st;
     seq_categories := rid;
     seq_expenses := seq_expenses st |}.

(** [INSERT OR IGNORE INTO users(username, password, role) VALUES (?,?,?)] *)
Definition insert_or_ignore_user (username password role : string)
    (st : Store) : Store :=
  let rid := new_rowid (map u_id (tbl_users st)) (seq_users st) in
  {| tbl_users :=
       if existsb (fun u => u_username u =? username)%string (tbl_users st)
       then tbl_users st
       else tbl_users st ++
              [ {| u_id := rid; u_username := username;
                   u_password := password; u_role := role |} ];
     tbl_categories := tbl_categories st;
     tbl_expenses := tbl_expenses st;
     seq_users := rid;
     seq_categories := seq_categories st;
     seq_expenses := seq_expenses st |}.

Definition default_categories : list string :=
  ["Food"; "Transport"; "Rent"; "Shopping"; "Bills"; "Other"].

(** [init_db]: the tables exist in every store of the model, so only the
    seeding is left. *)
Definition init_db (st : Store) : Store :=
  let st1 :=
    fold_left (fun s c => insert_or_ignore_category c s)
              default_categories st in
  let st2 := insert_or_ignore_user "student" "student123" "user" st1 in
  insert_or_ignore_user "admin" "admin123" "admin" st2.

Definition category_exists (cid : Z) (st : Store) : bool :=
  existsb (fun c => c_id c =? cid) (tbl_categories st).

Definition user_exists (uid : Z) (st : Store) : bool :=
  existsb (fun u => u_id u =? uid) (tbl_users st).

(** The constraints of a row of [expenses] that the handlers can break:
    NOT NULL on the amount (a NaN is stored as NULL), the CHECK on the
    amount, and the two foreign keys. *)
Definition expense_row_ok (uid cid : Z) (amt : Py.float) (st : Store) : bool :=
  negb (Py.is_nan amt) && Py.fle Py.fzero amt
  && user_exists uid st && category_exists cid st.

(** [INSERT INTO expenses(user_id, category_id, amount, description,
    expense_date, is_essential) VALUES (?, ?, ?, ?, ?, ?)] *)
Definition insert_expense (uid : option Z) (cid : Z) (amt : Py.float)
    (desc date : string) (ess : Z) (st : Store) : res Store :=
  cid' <- bind_int cid ;;
  match uid with
  | None => Raise IntegrityError
  | Some u =>
      u' <- bind_int u ;;
      if expense_row_ok u' cid' amt st then
        let rid := new_rowid (map e_id (tbl_expenses st)) (seq_expenses st) in
        Ok {| tbl_users := tbl_users st;
              tbl_categories := tbl_categories st;
              tbl_expenses := tbl_expenses st ++
                [ {| e_id := rid; e_user_id := u'; e_category_id := cid';
                     e_amount := amt; e_description := desc;
                     e_expense_date := date; e_is_essential := ess |} ];
              seq_users := seq_users st;
              seq_categories := seq_categories st;
              seq_expenses := rid |}
      else Raise IntegrityError
  end.

(** [SELECT ... FROM expenses WHERE id = ?] followed by [fetchone()] *)
Definition select_expense (eid : Z) (st : Store) : res (option Expense) :=
  i <- bind_int eid ;;
  Ok (find (fun e => e_id e =? i) (tbl_expenses st)).

Definition set_expense_fields (cid : Z) (amt : Py.float) (desc date : string)
    (ess : Z) (e : Expense) : Expense :=
  {| e_id := e_id e; e_user_id := e_user_id e; e_category_id := cid;
     e_amount := amt; e_description := desc; e_expense_date := date;
     e_is_essential := ess |}.

(** [UPDATE expenses SET category_id = ?, amount = ?, description = ?,
    expense_date = ?, is_essential = ? WHERE id = ?] *)
Definition update_expense (cid : Z) (amt : Py.float) (desc date : string)
    (ess : Z) (eid : Z) (st : Store) : res Store :=
  cid' <- bind_int cid ;;
  i <- bind_int eid ;;
  if existsb (fun e => (e_id e =? i)
                       && negb (expense_row_ok (e_user_id e) cid' amt st))
             (tbl_expenses st)
  then Raise IntegrityError
  else
    Ok {| tbl_users := tbl_users st;
          tbl_categories := tbl_categories st;
          tbl_expenses :=
            map (fun e => if e_id e =? i
                          then set_expense_fields cid' amt desc date ess e
                          else e)
                (tbl_expenses st);
          seq_users := seq_users st;
          seq_categories := seq_categories st;
          seq_expenses := seq_expenses st |}.

(** [DELETE FROM expenses WHERE id = ?] *)
Definition delete_expense_row (eid : Z) (st : Store) : res Store :=
  i <- bind_int eid ;;
  Ok {| tbl_users := tbl_users st;
        tbl_categories := tbl_categories st;
        tbl_expenses :=
          filter (fun e => negb (e_id e =? i)) (tbl_expenses st);
        seq_users := seq_users st;
        seq_categories := seq_categories st;
        seq_expenses := seq_expenses st |}.

(** [INSERT INTO categories(name) VALUES (?)] *)
Definition insert_category (name : string) (st : Store) : res Store :=
  if existsb (fun c => c_name c =? name)%string (tbl_categories st)
  then Raise IntegrityError
  else Ok (insert_or_ignore_category name st).

(** ** ORDER BY *)

Section OrderBy.
Context {A : Type}.
Variable before : A -> A -> bool.

Fixpoint insert_row (x : A) (l : list A) : list A :=
  match l with
  | [] => [x]
  | y :: r => if before x y then x :: l else y :: insert_row x r
  end.

Definition order_by (l : list A) : list A := fold_right insert_row [] l.
End OrderBy.

(** [SELECT id, name FROM categories ORDER BY name] *)
Definition select_categories (st : Store) : list Category :=
  order_by (fun a b => (c_name a <=? c_name b)%string) (tbl_categories st).

(** ** The listing query *)

(** One row of [expenses e JOIN categories c JOIN users u]. *)
Definition Joined : Type := Expense * Category * User.

Definition joined (st : Store) : list Joined :=
  flat_map (fun e =>
    flat_map (fun c =>
      if c_id c =? e_category_id e then
        flat_map (fun u =>
          if u_id u =? e_user_id e then [(e, c, u)] else [])
          (tbl_users st)
      else [])
      (tbl_categories st))
    (tbl_expenses st).

(** A clause of the WHERE part with the parameter bound to its [?].
    The owner parameter is [None] when the session has no user id
    (SQL NULL, which equals nothing). *)
Inductive Clause :=
| UserIdEq (p : option Z)      (* e.user_id = ? *)
| CategoryIdEq (p : Z)         (* e.category_id = ? *)
| DateGe (p : string)          (* e.expense_date >= ? *)
| DateLe (p : string)          (* e.expense_date <= ? *)
| EssentialEq (p : Z).         (* e.is_essential = ? *)

Definition clause_holds (e : Expense) (cl : Clause) : bool :=
  match cl with
  | UserIdEq None => false
  | UserIdEq (Some n) => e_user_id e =? n
  | CategoryIdEq n => e_category_id e =? n
  | DateGe s => (s <=? e_expense_date e)%string
  | DateLe s => (e_expense_date e <=? s)%string
  | EssentialEq n => e_is_essential e =? n
  end.

Definition clause_bindable (cl : Clause) : bool :=
  match cl with
  | UserIdEq (Some n) | CategoryIdEq n | EssentialEq n => in_int64 n
  | _ => true
  end.

(** [ORDER BY e.expense_date DESC, e.id DESC] *)
Definition listing_before (a b : Joined) : bool :=
  let ea := fst (fst a) in
  let eb := fst (fst b) in
  (e_expense_date eb <? e_expense_date ea)%string
  || ((e_expense_date ea =? e_expense_date eb)%string
      && (e_id eb <=? e_id ea)).

(** The columns the listing selects. *)
Record Row := {
  r_id : Z;
  r_amount : Py.float;
  r_description : string;
  r_expense_date : string;
  r_is_essential : Z;
  r_category_name : string;
  r_owner : string
}.

Definition select_columns (j : Joined) : Row :=
  let '(e, c, u) := j in
  {| r_id := e_id e; r_amount := e_amount e;
     r_description := e_description e;
     r_expense_date := e_expense_date e;
     r_is_essential := e_is_essential e;
     r_category_name := c_name c; r_owner := u_username u |}.

(** The joined rows that satisfy every clause, most recent first. *)
Definition listing_joined (where_clauses : list Clause) (st : Store)
    : list Joined :=
  order_by listing_before
    (filter (fun j => forallb (clause_holds (fst (fst j))) where_clauses)
            (joined st)).

(** Running the query: every integer parameter has to fit SQLite's
    integers; the result is the selected columns of each joined row. *)
Definition select_listing_joined (where_clauses : list Clause) (st : Store)
    : res (list Joined) :=
  if forallb clause_bindable where_clauses
  then Ok (listing_joined where_clauses st)
  else Raise OverflowError.

Definition select_listing (where_clauses : list Clause) (st : Store)
    : res (list Row) :=
  js <- select_listing_joined where_clauses st ;;
  Ok (map select_columns js).

(* ================================================================== *)
(** * Requests, sessions and responses *)
(* ================================================================== *)

Inductive Method := GET | POST.

(** [request.args] and [request.form]: [get] answers with the first value
    sent under the key. *)
Definition MultiDict : Type := list (string * string).

Fixpoint multi_get (d : MultiDict) (k : string) : option string :=
  match d with
  | [] => None
  | (k', v) :: r => if (k' =? k)%string then Some v else multi_get r k
  end.

Definition get_or (d : MultiDict) (k default : string) : string :=
  match multi_get d k with Some v => v | None => default end.

Record Request := {
  method : Method;
  path : string;
  args : MultiDict;
  form : MultiDict
}.

(** The three keys [login] stores in the session. *)
Record Session := {
  s_user_id : option Z;
  s_username : option string;
  s_role : option string
}.

Record Ctx := {
  session : Session;
  request : Request
}.

(** The targets of [url_for]. *)
Inductive Endpoint :=
| ep_index
| ep_login (next : string)
| ep_expenses
| ep_categories.

(** The templates, each with the values handed to it. *)
Inductive Page :=
| expenses_html (expenses : list Row) (categories : list Category)
    (total : Py.float) (totals_by_category : list (string * Py.float))
    (filters : string * string * string * string) (admin : bool)
| add_expense_html (categories : list Category) (form : MultiDict)
| edit_expense_html (categories : list Category) (expense : Expense)
    (form : Expense + MultiDict)
| categories_html (categories : list Category).

Inductive Result :=
| Redirect (target : Endpoint)
| Render (page : Page)
| Raised (e : exn).

(** What a view leaves behind: the store, the messages passed to [flash]
    (text and category) and the result. *)
Record Outcome := {
  out_store : Store;
  out_flashes : list (string * string);
  out_result : Result
}.

Definition View : Type := Ctx -> Store -> Outcome.

(** An exception leaves the view before any commit. *)
Definition crash (st : Store) (e : exn) : Outcome :=
  {| out_store := st; out_flashes := []; out_result := Raised e |}.

(** ** Auth helpers *)

Definition current_user_id (ctx : Ctx) : option Z := s_user_id (session ctx).

Definition role_is_admin (r : option string) : bool :=
  match r with Some s => (s =? "admin")%string | None => false end.

Definition is_admin (ctx : Ctx) : bool := role_is_admin (s_role (session ctx)).

Definition login_required (view_func : View) : View :=
  fun ctx st =>
    match s_user_id (session ctx) with
    | None =>
        {| out_store := st;
           out_flashes := [("Please log in to continue.", "warning")];
           out_result := Redirect (ep_login (path (request ctx))) |}
    | Some _ => view_func ctx st
    end.

Definition admin_required (view_func : View) : View :=
  fun ctx st =>
    if negb (role_is_admin (s_role (session ctx))) then
      {| out_store := st;
         out_flashes := [("Admin access required.", "danger")];
         out_result := Redirect ep_index |}
    else view_func ctx st.

(** [ensure_db_ready] runs [init_db] before every request. *)
Definition before_request (view_func : View) : View :=
  fun ctx st => view_func ctx (init_db st).

(* ================================================================== *)
(** * The views *)
(* ================================================================== *)

(** ** Listing *)

(** [d[k] = d.get(k, 0.0) + amt] on a dict that keeps insertion order. *)
Fixpoint dict_get (d : list (string * Py.float)) (k : string)
    : option Py.float :=
  match d with
  | [] => None
  | (k', v) :: r => if (k' =? k)%string then Some v else dict_get r k
  end.

Fixpoint dict_set (d : list (string * Py.float)) (k : string) (v : Py.float)
    : list (string * Py.float) :=
  match d with
  | [] => [(k, v)]
  | (k', v') :: r =>
      if (k' =? k)%string then (k', v) :: r else (k', v') :: dict_set r k v
  end.

Definition totals_step (acc : Py.float * list (string * Py.float)) (r : Row)
    : Py.float * list (string * Py.float) :=
  let '(total, totals_by_category) := acc in
  let amt := r_amount r in
  let cname := r_category_name r in
  (Py.fadd total amt,
   dict_set totals_by_category cname
     (Py.fadd (match dict_get totals_by_category cname with
               | Some v => v
               | None => Py.fzero
               end) amt)).

Definition compute_totals (rows : list Row)
    : Py.float * list (string * Py.float) :=
  fold_left totals_step rows (Py.fzero, []).

(** The [int(...)] of a filter value that is about to become a parameter. *)
Definition int_param (s : string) : res Z :=
  match Py.int s with Some n => Ok n | None => Raise ValueError end.

Definition build_where (ctx : Ctx) : res (list Clause) :=
  let category_id := Py.strip (get_or (args (request ctx)) "category_id" "") in
  let date_from := Py.strip (get_or (args (request ctx)) "from" "") in
  let date_to := Py.strip (get_or (args (request ctx)) "to" "") in
  let essential := Py.strip (get_or (args (request ctx)) "essential" "") in
  let w0 := if negb (is_admin ctx) then [UserIdEq (current_user_id ctx)]
            else [] in
  w1 <- (if Py.isdigit category_id
         then n <- int_param category_id ;; Ok (w0 ++ [CategoryIdEq n])
         else Ok w0) ;;
  let w2 := if Py.truthy date_from then w1 ++ [DateGe date_from] else w1 in
  let w3 := if Py.truthy date_to then w2 ++ [DateLe date_to] else w2 in
  if (essential =? "0")%string || (essential =? "1")%string
  then n <- int_param essential ;; Ok (w3 ++ [EssentialEq n])
  else Ok w3.

(** The rows of the listing: the clauses are built, then the query runs. *)
Definition listing_rows (ctx : Ctx) (st : Store) : res (list Row) :=
  w <- build_where ctx ;; select_listing w st.

Definition expenses_view : View :=
  fun ctx st =>
    let category_id := Py.strip (get_or (args (request ctx)) "category_id" "") in
    let date_from := Py.strip (get_or (args (request ctx)) "from" "") in
    let date_to := Py.strip (get_or (args (request ctx)) "to" "") in
    let essential := Py.strip (get_or (args (request ctx)) "essential" "") in
    match listing_rows ctx st with
    | Raise e => crash st e
    | Ok rows =>
        let '(total, totals_by_category) := compute_totals rows in
        {| out_store := st;
           out_flashes := [];
           out_result :=
             Render (expenses_html rows (select_categories st) total
                       totals_by_category
                       (category_id, date_from, date_to, essential)
                       (is_admin ctx)) |}
    end.

Definition expenses : View := login_required expenses_view.

(** ** Add and edit *)

(** The validation both forms share; the messages in the order the
    checks are made. *)
Definition validate (category_id amount description expense_date : string)
    : list string :=
  (if negb (Py.isdigit category_id)
   then ["Please select a valid category."] else [])
  ++ (match Py.float_of_str amount with
      | Some amount_f =>
          if Py.fle amount_f Py.fzero
          then ["Amount must be greater than 0."] else []
      | None => ["Please enter a valid number for amount."]
      end)
  ++ (if negb (Py.truthy description)
      then ["Description is required."] else [])
  ++ (if negb (Py.truthy expense_date)
      then ["Date is required (YYYY-MM-DD)."] else []).

Definition float_param (s : string) : res Py.float :=
  match Py.float_of_str s with Some x => Ok x | None => Raise ValueError end.

Definition essential_flag (f : MultiDict) : Z :=
  match multi_get f "is_essential" with
  | Some v => if (v =? "on")%string then 1 else 0
  | None => 0
  end.

Definition add_expense_view : View :=
  fun ctx st =>
    let categories := select_categories st in
    match method (request ctx) with
    | POST =>
        let f := form (request ctx) in
        let category_id := Py.strip (get_or f "category_id" "") in
        let amount := Py.strip (get_or f "amount" "") in
        let description := Py.strip (get_or f "description" "") in
        let expense_date := Py.strip (get_or f "expense_date" "") in
        let is_essential := essential_flag f in
        let errors := validate category_id amount description expense_date in
        match errors with
        | _ :: _ =>
            {| out_store := st;
               out_flashes := map (fun e => (e, "warning")) errors;
               out_result := Render (add_expense_html categories f) |}
        | [] =>
            match (cid <- int_param category_id ;;
                   amt <- float_param amount ;;
                   insert_expense (current_user_id ctx) cid amt
                     description expense_date is_essential st) with
            | Raise e => crash st e
            | Ok st' =>
                {| out_store := st';
                   out_flashes := [("Expense added successfully.", "success")];
                   out_result := Redirect ep_expenses |}
            end
        end
    | GET =>
        {| out_store := st; out_flashes := [];
           out_result := Render (add_expense_html categories []) |}
    end.

Definition add_expense : View := login_required add_expense_view.

(** The owner test of edit and delete: [not is_admin() and
    int(expense["user_id"]) != int(current_user_id())].  The views run
    behind [login_required], so the session has a user id there. *)
Definition not_permitted (ctx : Ctx) (owner : Z) : bool :=
  negb (is_admin ctx)
  && match current_user_id ctx with
     | Some uid => negb (owner =? uid)
     | None => true
     end.

Definition edit_expense_view (expense_id : Z) : View :=
  fun ctx st =>
    match select_expense expense_id st with
    | Raise e => crash st e
    | Ok None =>
        {| out_store := st;
           out_flashes := [("Expense not found.", "danger")];
           out_result := Redirect ep_expenses |}
    | Ok (Some expense) =>
        if not_permitted ctx (e_user_id expense) then
          {| out_store := st;
             out_flashes :=
               [("You do not have permission to edit this item.", "danger")];
             out_result := Redirect ep_expenses |}
        else
          let categories := select_categories st in
          match method (request ctx) with
          | POST =>
              let f := form (request ctx) in
              let category_id := Py.strip (get_or f "category_id" "") in
              let amount := Py.strip (get_or f "amount" "") in
              let description := Py.strip (get_or f "description" "") in
              let expense_date := Py.strip (get_or f "expense_date" "") in
              let is_essential := essential_flag f in
              let errors :=
                validate category_id amount description expense_date in
              match errors with
              | _ :: _ =>
                  {| out_store := st;
                     out_flashes := map (fun e => (e, "warning")) errors;
                     out_result :=
                       Render (edit_expense_html categories expense (inr f)) |}
              | [] =>
                  match (cid <- int_param category_id ;;
                         amt <- float_param amount ;;
                         update_expense cid amt description expense_date
                           is_essential expense_id st) with
                  | Raise e => crash st e
                  | Ok st' =>
                      {| out_store := st';
                         out_flashes := [("Expense updated.", "success")];
                         out_result := Redirect ep_expenses |}
                  end
              end
          | GET =>
              {| out_store := st; out_flashes := [];
                 out_result :=
                   Render (edit_expense_html categories expense
                             (inl expense)) |}
          end
    end.

Definition edit_expense (expense_id : Z) : View :=
  login_required (edit_expense_view expense_id).

(** ** Delete *)

Definition delete_expense_view (expense_id : Z) : View :=
  fun ctx st =>
    match select_expense expense_id st with
    | Raise e => crash st e
    | Ok None =>
        {| out_store := st;
           out_flashes := [("Expense not found.", "danger")];
           out_result := Redirect ep_expenses |}
    | Ok (Some exp) =>
        if not_permitted ctx (e_user_id exp) then
          {| out_store := st;
             out_flashes :=
               [("You do not have permission to delete this item.", "danger")];
             out_result := Redirect ep_expenses |}
        else
          match delete_expense_row expense_id st with
          | Raise e => crash st e
          | Ok st' =>
              {| out_store := st';
                 out_flashes := [("Expense deleted.", "info")];
                 out_result := Redirect ep_expenses |}
          end
    end.

Definition delete_expense (expense_id : Z) : View :=
  login_required (delete_expense_view expense_id).

(** ** Categories (administrators only) *)

Definition categories_view : View :=
  fun ctx st =>
    match method (request ctx) with
    | POST =>
        let name := Py.strip (get_or (form (request ctx)) "name" "") in
        if negb (Py.truthy name) then
          {| out_store := st;
             out_flashes := [("Category name is required.", "warning")];
             out_result := Redirect ep_categories |}
        else
          match insert_category name st with
          | Ok st' =>
              {| out_store := st';
                 out_flashes := [("Category added.", "success")];
                 out_result := Redirect ep_categories |}
          | Raise _ =>
              {| out_store := st;
                 out_flashes := [("That category already exists.", "warning")];
                 out_result := Redirect ep_categories |}
          end
    | GET =>
        {| out_store := st; out_flashes := [];
           out_result := Render (categories_html (select_categories st)) |}
    end.

Definition categories : View := login_required (admin_required categories_view).

(* ================================================================== *)
(** * Vocabulary of the statements *)
(* ================================================================== *)

(** The sum of a list of amounts, added in list order from [0.0]. *)
Definition fsum (l : list Py.float) : Py.float := fold_left Py.fadd l Py.fzero.

(** The distinct elements of a list, each at its first occurrence. *)
Fixpoint first_seen (l : list string) : list string :=
  match l with
  | [] => []
  | x :: r => x :: filter (fun y => negb (y =? x)%string) (first_seen r)
  end.

(** Rows of one category. *)
Definition of_category (cname : string) (rows : list Row) : list Row :=
  filter (fun r => (r_category_name r =? cname)%string) rows.

(** The order of the listing on the selected columns: later date first,
    and within a date the larger identifier first. *)
Definition listed_before (a b : Row) : Prop :=
  (r_expense_date b ?= r_expense_date a)%string = Lt
  \/ (r_expense_date a = r_expense_date b /\ r_id b <= r_id a).

(** The same request with every value of one query parameter left out. *)
Definition omit_arg (k : string) (ctx : Ctx) : Ctx :=
  {| session := session ctx;
     request :=
       {| method := method (request ctx);
          path := path (request ctx);
          args := filter (fun kv => negb (fst kv =? k)%string)
                         (args (request ctx));
          form := form (request ctx) |} |}.

(** A store in which the bootstrap has run: the six default category
    names and the two default user names are present.  No view removes or
    renames a category or a user, so the store stays so afterwards. *)
Definition seeded (st : Store) : bool :=
  forallb (fun n => existsb (fun c => c_name c =? n)%string (tbl_categories st))
          default_categories
  && existsb (fun u => u_username u =? "student")%string (tbl_users st)
  && existsb (fun u => u_username u =? "admin")%string (tbl_users st).

(** The reading of "parses as a positive integer" used to test the
    specification's wording against the code. *)
Definition parses_as_positive_int (s : string) : bool :=
  match Py.int s with Some n => 0 <? n | None => false end.

(** The clauses a request contributes besides the category one: the
    owner clause, and the clauses of the dates and of the essential flag. *)
Definition owner_clauses (ctx : Ctx) : list Clause :=
  if negb (is_admin ctx) then [UserIdEq (current_user_id ctx)] else [].

Definition other_clauses (ctx : Ctx) : list Clause :=
  let date_from := Py.strip (get_or (args (request ctx)) "from" "") in
  let date_to := Py.strip (get_or (args (request ctx)) "to" "") in
  let essential := Py.strip (get_or (args (request ctx)) "essential" "") in
  (if Py.truthy date_from then [DateGe date_from] else [])
  ++ (if Py.truthy date_to then [DateLe date_to] else [])
  ++ (if (essential =? "0")%string then [EssentialEq 0]
      else if (essential =? "1")%string then [EssentialEq 1] else []).

(** ** Sample data *)

Module Sample.

Definition student : Session :=
  {| s_user_id := Some 1; s_username := Some "student"; s_role := Some "user" |}.

Definition admin : Session :=
  {| s_user_id := Some 2; s_username := Some "admin"; s_role := Some "admin" |}.

Definition get (s : Session) (p : string) (a : MultiDict) : Ctx :=
  {| session := s;
     request := {| method := GET; path := p; args := a; form := [] |} |}.

Definition post (s : Session) (p : string) (f : MultiDict) : Ctx :=
  {| session := s;
     request := {| method := POST; path := p; args := []; form := f |} |}.

Definition lunch : MultiDict :=
  [("category_id", "1"); ("amount", "12.50"); ("description", "Lunch");
   ("expense_date", "2024-01-01")].

Definition bus : MultiDict :=
  [("category_id", "2"); ("amount", "3"); ("description", "Bus");
   ("expense_date", "2024-01-02"); ("is_essential", "on")].

Definition fresh : Store := init_db empty_store.

(** The student's lunch, then the administrator's bus ticket. *)
Definition one_expense : Store :=
  out_store (add_expense (post student "/expenses/add" lunch) fresh).

Definition two_expenses : Store :=
  out_store (add_expense (post admin "/expenses/add" bus) one_expense).

End Sample.

(* ================================================================== *)
(** * Accounts: login, logout, register *)
(* ================================================================== *)

(** Where these views redirect: an endpoint, the login page without a
    [next], or the address given in the query string. *)
Inductive Target :=
| to_endpoint (e : Endpoint)
| to_login
| to_url (u : string).

Inductive AuthPage :=
| login_html (username : option string)
| register_html.

Inductive AuthResult :=
| AuthRedirect (target : Target)
| AuthRender (page : AuthPage).

(** These views also write the session. *)
Record AuthOutcome := {
  auth_store : Store;
  auth_session : Session;
  auth_flashes : list (string * string);
  auth_result : AuthResult
}.

Definition AuthView : Type := Ctx -> Store -> AuthOutcome.

(** [SELECT id, username, role FROM users WHERE username = ? AND
    password = ?] followed by [fetchone()] *)
Definition select_user (username password : string) (st : Store)
    : option User :=
  find (fun u => (u_username u =? username)%string
                 && (u_password u =? password)%string)
       (tbl_users st).

(** [next_url or url_for("expenses")] *)
Definition after_login (next_url : option string) : Target :=
  match next_url with
  | Some u => if Py.truthy u then to_url u else to_endpoint ep_expenses
  | None => to_endpoint ep_expenses
  end.

Definition login : AuthView :=
  fun ctx st =>
    match method (request ctx) with
    | POST =>
        let username := Py.strip (get_or (form (request ctx)) "username" "") in
        let password := get_or (form (request ctx)) "password" "" in
        if negb (Py.truthy username) || negb (Py.truthy password) then
          {| auth_store := st; auth_session := session ctx;
             auth_flashes :=
               [("Please enter both username and password.", "warning")];
             auth_result := AuthRender (login_html (Some username)) |}
        else
          match select_user username password st with
          | None =>
              {| auth_store := st; auth_session := session ctx;
                 auth_flashes := [("Invalid login details.", "danger")];
                 auth_result := AuthRender (login_html (Some username)) |}
          | Some user =>
              {| auth_store := st;
                 auth_session :=
                   {| s_user_id := Some (u_id user);
                      s_username := Some (u_username user);
                      s_role := Some (u_role user) |};
                 auth_flashes :=
                   [(String.append "Logged in as "
                       (String.append (u_username user)
                          (String.append " ("
                             (String.append (u_role user) ")."))),
                     "success")];
                 auth_result :=
                   AuthRedirect
                     (after_login (multi_get (args (request ctx)) "next")) |}
          end
    | GET =>
        {| auth_store := st; auth_session := session ctx;
           auth_flashes := [];
           auth_result := AuthRender (login_html None) |}
    end.

(** [session.clear()] *)
Definition cleared : Session :=
  {| s_user_id := None; s_username := None; s_role := None |}.

Definition logout : AuthView :=
  fun ctx st =>
    {| auth_store := st; auth_session := cleared;
       auth_flashes := [("You have been logged out.", "info")];
       auth_result := AuthRedirect (to_endpoint ep_index) |}.

(** [INSERT INTO users (username, password, role) VALUES (?, ?, ?)] *)
Definition insert_user (username password role : string) (st : Store)
    : res Store :=
  if existsb (fun u => u_username u =? username)%string (tbl_users st)
  then Raise IntegrityError
  else if negb ((role =? "user")%string || (role =? "admin")%string)
  then Raise IntegrityError
  else Ok (insert_or_ignore_user username password role st).

Definition register : AuthView :=
  fun ctx st =>
    match method (request ctx) with
    | POST =>
        let username := Py.strip (get_or (form (request ctx)) "username" "") in
        let password := Py.strip (get_or (form (request ctx)) "password" "") in
        if negb (Py.truthy username) || negb (Py.truthy password) then
          {| auth_store := st; auth_session := session ctx;
             auth_flashes :=
               [("Username and password are required.", "warning")];
             auth_result := AuthRender register_html |}
        else
          match insert_user username password "user" st with
          | Raise _ =>
              {| auth_store := st; auth_session := session ctx;
                 auth_flashes := [("Username already exists.", "danger")];
                 auth_result := AuthRender register_html |}
          | Ok st' =>
              {| auth_store := st'; auth_session := session ctx;
                 auth_flashes :=
                   [("Account created successfully. Please log in.",
                     "success")];
                 auth_result := AuthRedirect to_login |}
          end
    | GET =>
        {| auth_store := st; auth_session := session ctx;
           auth_flashes := [];
           auth_result := AuthRender register_html |}
    end.

(** The request of the same client once a view has written the session. *)
Definition with_session (s : Session) (ctx : Ctx) : Ctx :=
  {| session := s; request := request ctx |}.

(** The listing asked for without any query parameter. *)
Definition listing_request (s : Session) : Ctx :=
  {| session := s;
     request := {| method := GET; path := "/expenses"; args := [];
                   form := [] |} |}.

(** A login form sent with the given [next] in the query string. *)
Definition login_request (s : Session) (username password : string)
    (a : MultiDict) : Ctx :=
  {| session := s;
     request := {| method := POST; path := "/login"; args := a;
                   form := [("username", username);
                            ("password", password)] |} |}.

(** A string of [n] copies of one character. *)
Fixpoint repeat_char (c : ascii) (n : nat) : string :=
  match n with
  | O => EmptyString
  | S k => String c (repeat_char c k)
  end.

(** The categories a page was given. *)
Definition page_categories (p : Page) : list Category :=
  match p with
  | expenses_html _ cats _ _ _ _ => cats
  | add_expense_html cats _ => cats
  | edit_expense_html cats _ _ => cats
  | categories_html cats => cats
  end.

(** ** The constraints of the schema *)

(** What the schema promises of a store: primary keys and the UNIQUE
    columns have no duplicate, roles pass their CHECK, every expense
    passes the NOT NULL, CHECK and foreign-key constraints, and no rowid
    exceeds its AUTOINCREMENT counter. *)
Record wf_store (st : Store) : Prop := {
  wf_user_ids : NoDup (map u_id (tbl_users st));
  wf_usernames : NoDup (map u_username (tbl_users st));
  wf_roles :
    Forall (fun u => u_role u = "user" \/ u_role u = "admin") (tbl_users st);
  wf_category_ids : NoDup (map c_id (tbl_categories st));
  wf_category_names : NoDup (map c_name (tbl_categories st));
  wf_expense_ids : NoDup (map e_id (tbl_expenses st));
  wf_expense_rows :
    Forall (fun e => expense_row_ok (e_user_id e) (e_category_id e)
                       (e_amount e) st = true)
           (tbl_expenses st);
  wf_seq_users : Forall (fun u => u_id u <= seq_users st) (tbl_users st);
  wf_seq_categories :
    Forall (fun c => c_id c <= seq_categories st) (tbl_categories st);
  wf_seq_expenses :
    Forall (fun e => e_id e <= seq_expenses st) (tbl_expenses st)
}.

(** The same constraints as a test that can be run on a given store. *)
Fixpoint nodupb {A : Type} (eqb : A -> A -> bool) (l : list A) : bool :=
  match l with
  | [] => true
  | x :: r => negb (existsb (eqb x) r) && nodupb eqb r
  end.

Definition wf_storeb (st : Store) : bool :=
  nodupb Z.eqb (map u_id (tbl_users st))
  && nodupb String.eqb (map u_username (tbl_users st))
  && forallb (fun u => (u_role u =? "user")%string
                       || (u_role u =? "admin")%string) (tbl_users st)
  && nodupb Z.eqb (map c_id (tbl_categories st))
  && nodupb String.eqb (map c_name (tbl_categories st))
  && nodupb Z.eqb (map e_id (tbl_expenses st))
  && forallb (fun e => expense_row_ok (e_user_id e) (e_category_id e)
                         (e_amount e) st) (tbl_expenses st)
  && forallb (fun u => u_id u <=? seq_users st) (tbl_users st)
  && forallb (fun c => c_id c <=? seq_categories st) (tbl_categories st)
  && forallb (fun e => e_id e <=? seq_expenses st) (tbl_expenses st).

(** An amount the validation lets through and SQLite stores: a positive
    number or the positive infinity. *)
Definition positive_amount (x : Py.float) : Prop :=
  x = S754_infinity false \/ exists m e, x = S754_finite false m e.

(* ================================================================== *)
(** * Lemmas on the building blocks *)
(* ================================================================== *)

(** ** Strings *)

Lemma string_compare_refl (s : string) : (s ?= s)%string = Eq.
Proof.
  induction s as [|c s IH]; simpl; [reflexivity|].
  unfold Ascii.compare. now rewrite N.compare_refl.
Qed.

Lemma string_compare_eq (s t : string) : (s ?= t)%string = Eq <-> s = t.
Proof.
  split; [apply String.compare_eq_iff | intros ->; apply string_compare_refl].
Qed.

Lemma string_compare_lt_trans (s t u : string) :
  (s ?= t)%string = Lt -> (t ?= u)%string = Lt -> (s ?= u)%string = Lt.
Proof.
  revert t u.
  induction s as [|a s IH]; intros [|b t] [|c u]; simpl; try congruence.
  unfold Ascii.compare.
  destruct (N.compare_spec (N_of_ascii a) (N_of_ascii b)) as [Hab|Hab|Hab];
    destruct (N.compare_spec (N_of_ascii b) (N_of_ascii c)) as [Hbc|Hbc|Hbc];
    try congruence; intros H1 H2.
  - rewrite Hab, Hbc, N.compare_refl. eauto.
  - rewrite Hab. now apply N.compare_lt_iff in Hbc as ->.
  - rewrite <- Hbc. now apply N.compare_lt_iff in Hab as ->.
  - assert (Hac : (N_of_ascii a < N_of_ascii c)%N) by lia.
    now apply N.compare_lt_iff in Hac as ->.
Qed.

Lemma string_ltb_lt (s t : string) : (s <? t)%string = true <-> (s ?= t)%string = Lt.
Proof.
  unfold String.ltb. destruct (s ?= t)%string; split; congruence.
Qed.

(** ** ORDER BY: a sorted rearrangement *)

Section OrderByFacts.
Context {A : Type}.
Variable before : A -> A -> bool.
Hypothesis before_total : forall a b, before a b = true \/ before b a = true.
Hypothesis before_trans :
  forall a b c, before a b = true -> before b c = true -> before a c = true.

Local Abbreviation R := (fun a b : A => before a b = true).

Lemma insert_row_perm (x : A) (l : list A) :
  Permutation (insert_row before x l) (x :: l).
Proof.
  induction l as [|y r IH]; simpl; [reflexivity|].
  destruct (before x y); [reflexivity|].
  rewrite IH. apply perm_swap.
Qed.

Lemma order_by_perm (l : list A) : Permutation (order_by before l) l.
Proof.
  induction l as [|x r IH]; simpl; [reflexivity|].
  rewrite insert_row_perm. now constructor.
Qed.

Lemma order_by_In (l : list A) (x : A) : In x (order_by before l) <-> In x l.
Proof.
  split; apply Permutation_in;
    [apply order_by_perm | symmetry; apply order_by_perm].
Qed.

Lemma insert_row_sorted (x : A) (l : list A) :
  StronglySorted R l -> StronglySorted R (insert_row before x l).
Proof.
  induction 1 as [|y r Hs IH Hy]; simpl.
  - repeat constructor.
  - destruct (before x y) eqn:Hxy.
    + constructor; [now constructor|].
      constructor; [exact Hxy|].
      rewrite Forall_forall in Hy |- *. intros z Hz.
      eapply before_trans; [exact Hxy | now apply Hy].
    + constructor; [exact IH|].
      rewrite Forall_forall in Hy |- *. intros z Hz.
      apply (Permutation_in _ (insert_row_perm x r)) in Hz.
      destruct Hz as [<-|Hz]; [|now apply Hy].
      destruct (before_total x y) as [H|H]; [congruence|exact H].
Qed.

Lemma order_by_sorted (l : list A) : StronglySorted R (order_by before l).
Proof.
  induction l as [|x r IH]; simpl; [constructor|].
  now apply insert_row_sorted.
Qed.

(** Inserting in front of a list whose head comes after. *)
Lemma insert_row_head (x : A) (l : list A) :
  Forall (R x) l -> insert_row before x l = x :: l.
Proof.
  destruct 1 as [|y r Hy _]; simpl; [reflexivity|].
  now rewrite Hy.
Qed.

Lemma filter_insert_row (p : A -> bool) (x : A) (l : list A) :
  StronglySorted R l ->
  filter p (insert_row before x l)
  = if p x then insert_row before x (filter p l) else filter p l.
Proof.
  induction 1 as [|y r Hs IH Hy]; simpl.
  - now destruct (p x).
  - destruct (before x y) eqn:Hxy; simpl.
    + destruct (p x) eqn:Hpx; [|reflexivity].
      destruct (p y) eqn:Hpy; simpl; [now rewrite Hxy|].
      symmetry. apply insert_row_head.
      rewrite Forall_forall in Hy |- *. intros z Hz.
      apply filter_In in Hz as [Hz _].
      eapply before_trans; [exact Hxy | now apply Hy].
    + rewrite IH.
      destruct (p y) eqn:Hpy; destruct (p x) eqn:Hpx; simpl;
        rewrite ?Hxy; reflexivity.
Qed.

Lemma filter_order_by (p : A -> bool) (l : list A) :
  filter p (order_by before l) = order_by before (filter p l).
Proof.
  induction l as [|x r IH]; simpl; [reflexivity|].
  rewrite filter_insert_row by apply order_by_sorted.
  rewrite IH. now destruct (p x).
Qed.
End OrderByFacts.

Lemma listing_before_total (a b : Joined) :
  listing_before a b = true \/ listing_before b a = true.
Proof.
  unfold listing_before, String.ltb.
  set (da := e_expense_date (fst (fst a))).
  set (db := e_expense_date (fst (fst b))).
  rewrite (String.compare_antisym db da).
  destruct (da ?= db)%string eqn:Hc; simpl; auto.
  apply string_compare_eq in Hc. rewrite Hc, !String.eqb_refl. simpl.
  destruct (Z.leb_spec (e_id (fst (fst b))) (e_id (fst (fst a))));
    destruct (Z.leb_spec (e_id (fst (fst a))) (e_id (fst (fst b))));
    auto; lia.
Qed.

Lemma listing_before_spec (a b : Joined) :
  listing_before a b = true <->
  ((e_expense_date (fst (fst b)) ?= e_expense_date (fst (fst a)))%string = Lt
   \/ (e_expense_date (fst (fst a)) = e_expense_date (fst (fst b))
       /\ e_id (fst (fst b)) <= e_id (fst (fst a)))).
Proof.
  unfold listing_before.
  rewrite orb_true_iff, andb_true_iff, string_ltb_lt, String.eqb_eq, Z.leb_le.
  reflexivity.
Qed.

Lemma listing_before_trans (a b c : Joined) :
  listing_before a b = true -> listing_before b c = true ->
  listing_before a c = true.
Proof.
  rewrite !listing_before_spec.
  intros [H1|[E1 L1]] [H2|[E2 L2]].
  - left. eapply string_compare_lt_trans; eassumption.
  - left. now rewrite <- E2.
  - left. now rewrite E1.
  - right. split; [congruence|lia].
Qed.

(** ** The listing view, taken apart *)

Lemma expenses_render ctx st rows cats total tbc filters adm :
  out_result (expenses ctx st)
    = Render (expenses_html rows cats total tbc filters adm) ->
  exists uid w,
    s_user_id (session ctx) = Some uid
    /\ build_where ctx = Ok w
    /\ listing_rows ctx st = Ok rows
    /\ rows = map select_columns (listing_joined w st)
    /\ compute_totals rows = (total, tbc).
Proof.
  unfold expenses, login_required.
  destruct (s_user_id (session ctx)) as [uid|] eqn:Huid; simpl; [|discriminate].
  unfold expenses_view.
  destruct (listing_rows ctx st) as [rows'|e] eqn:Hrows; simpl; [|discriminate].
  destruct (compute_totals rows') as [total' tbc'] eqn:Htot; simpl.
  intros [= <- _ <- <- _ _].
  exists uid.
  unfold listing_rows in Hrows.
  destruct (build_where ctx) as [w|e]; simpl in Hrows; [|discriminate].
  exists w. repeat split; try assumption.
  unfold select_listing, select_listing_joined in Hrows.
  destruct (forallb clause_bindable w); simpl in Hrows; congruence.
Qed.

Lemma build_where_owner_first ctx w :
  is_admin ctx = false -> build_where ctx = Ok w ->
  exists rest, w = UserIdEq (current_user_id ctx) :: rest.
Proof.
  intros Hadm. unfold build_where. rewrite Hadm. simpl.
  set (cat := Py.strip (get_or (args (request ctx)) "category_id" "")).
  set (df := Py.strip (get_or (args (request ctx)) "from" "")).
  set (dt := Py.strip (get_or (args (request ctx)) "to" "")).
  set (es := Py.strip (get_or (args (request ctx)) "essential" "")).
  destruct (Py.isdigit cat); simpl;
    [destruct (int_param cat); simpl; [|discriminate]|];
    destruct (Py.truthy df), (Py.truthy dt);
    destruct ((es =? "0")%string || (es =? "1")%string);
    simpl; try (destruct (int_param es); simpl; [|discriminate]);
    intros [= <-]; eexists; reflexivity.
Qed.

Lemma joined_In (st : Store) (e : Expense) (c : Category) (u : User) :
  In (e, c, u) (joined st) <->
  In e (tbl_expenses st) /\ In c (tbl_categories st) /\ In u (tbl_users st)
  /\ c_id c = e_category_id e /\ u_id u = e_user_id e.
Proof.
  unfold joined. rewrite in_flat_map. split.
  - intros (e' & He & H). apply in_flat_map in H as (c' & Hc & H).
    destruct (Z.eqb_spec (c_id c') (e_category_id e')); [|contradiction].
    apply in_flat_map in H as (u' & Hu & H).
    destruct (Z.eqb_spec (u_id u') (e_user_id e')); [|contradiction].
    destruct H as [[= -> -> ->]|[]]. auto.
  - intros (He & Hc & Hu & Ec & Eu).
    exists e. split; [assumption|]. apply in_flat_map.
    exists c. split; [assumption|]. rewrite Ec, Z.eqb_refl.
    apply in_flat_map. exists u. split; [assumption|].
    rewrite Eu, Z.eqb_refl. now left.
Qed.

Lemma listing_joined_In (w : list Clause) (st : Store) (j : Joined) :
  In j (listing_joined w st) <->
  In j (joined st) /\ forallb (clause_holds (fst (fst j))) w = true.
Proof.
  unfold listing_joined. rewrite order_by_In, filter_In. reflexivity.
Qed.

Lemma listing_joined_sorted (w : list Clause) (st : Store) :
  StronglySorted (fun a b => listing_before a b = true) (listing_joined w st).
Proof.
  apply order_by_sorted.
  - apply listing_before_total.
  - apply listing_before_trans.
Qed.

Lemma StronglySorted_map {A B : Type} (f : A -> B)
    (R : A -> A -> Prop) (S : B -> B -> Prop) (l : list A) :
  (forall a b, R a b -> S (f a) (f b)) ->
  StronglySorted R l -> StronglySorted S (map f l).
Proof.
  intros HRS. induction 1 as [|x r Hs IH Hx]; simpl; constructor.
  - exact IH.
  - rewrite Forall_forall in Hx |- *. intros y Hy.
    apply in_map_iff in Hy as (a & <- & Ha). auto.
Qed.

(* ================================================================== *)
(** * The filtered listing *)
(* ================================================================== *)

(** C1.  When the session's role is not administrator, the owner clause
    [e.user_id = ?] bound to the session's user id is the first clause of
    every WHERE part the view builds, whatever the query parameters are,
    and every row the listing returns is the projection of an expense
    whose [user_id] is the session's user id, joined with that very
    user. *)
Theorem listing_restricted_to_owner
    ctx st rows cats total tbc filters adm :
  is_admin ctx = false ->
  out_result (expenses ctx st)
    = Render (expenses_html rows cats total tbc filters adm) ->
  exists uid w js,
    current_user_id ctx = Some uid
    /\ build_where ctx = Ok (UserIdEq (Some uid) :: w)
    /\ rows = map select_columns js
    /\ Forall (fun j : Joined =>
                 let '(e, c, u) := j in
                 In e (tbl_expenses st) /\ In u (tbl_users st)
                 /\ e_user_id e = uid /\ u_id u = uid) js.
Proof.
  intros Hadm Hres.
  apply expenses_render in Hres as (uid & w & Huid & Hw & _ & Hrows & _).
  destruct (build_where_owner_first ctx w Hadm Hw) as (rest & ->).
  unfold current_user_id in *. rewrite Huid in Hw, Hrows.
  exists uid, rest, (listing_joined (UserIdEq (Some uid) :: rest) st).
  repeat split; try assumption.
  apply Forall_forall. intros [[e c] u] Hj.
  apply listing_joined_In in Hj as [Hj Hcl].
  apply joined_In in Hj as (He & _ & Hu & _ & Eu).
  simpl in Hcl. apply andb_true_iff in Hcl as [Hown _].
  apply Z.eqb_eq in Hown. repeat split; try assumption. congruence.
Qed.

Lemma listing_restricted_to_owner_witness :
  exists uid w js,
    current_user_id (Sample.get Sample.student "/expenses" [("category_id", "1")])
      = Some uid
    /\ build_where (Sample.get Sample.student "/expenses" [("category_id", "1")])
       = Ok (UserIdEq (Some uid) :: w)
    /\ [ {| r_id := 1;
            r_amount := S754_finite false 7036874417766400 (-49);
            r_description := "Lunch"; r_expense_date := "2024-01-01";
            r_is_essential := 0; r_category_name := "Food";
            r_owner := "student" |} ] = map select_columns js
    /\ Forall (fun j : Joined =>
                 let '(e, c, u) := j in
                 In e (tbl_expenses Sample.two_expenses)
                 /\ In u (tbl_users Sample.two_expenses)
                 /\ e_user_id e = uid /\ u_id u = uid) js.
Proof.
  eapply (listing_restricted_to_owner
            (Sample.get Sample.student "/expenses" [("category_id", "1")])
            Sample.two_expenses).
  - reflexivity.
  - vm_compute. reflexivity.
Defined.

(** C8.  The rows of the listing are in descending order of expense date,
    and among rows of one date in descending order of identifier: every
    row comes before all the rows that follow it, for every combination
    of query parameters. *)
Theorem listing_most_recent_first
    ctx st rows cats total tbc filters adm :
  out_result (expenses ctx st)
    = Render (expenses_html rows cats total tbc filters adm) ->
  StronglySorted listed_before rows.
Proof.
  intros Hres.
  apply expenses_render in Hres as (uid & w & _ & _ & _ & -> & _).
  apply StronglySorted_map
    with (R := fun a b => listing_before a b = true);
    [|apply listing_joined_sorted].
  intros [[ea ca] ua] [[eb cb] ub] H.
  apply listing_before_spec in H. exact H.
Qed.

Lemma listing_most_recent_first_witness :
  StronglySorted listed_before
    [ {| r_id := 2;
         r_amount := S754_finite false 6755399441055744 (-51);
         r_description := "Bus"; r_expense_date := "2024-01-02";
         r_is_essential := 1; r_category_name := "Transport";
         r_owner := "admin" |};
      {| r_id := 1;
         r_amount := S754_finite false 7036874417766400 (-49);
         r_description := "Lunch"; r_expense_date := "2024-01-01";
         r_is_essential := 0; r_category_name := "Food";
         r_owner := "student" |} ].
Proof.
  eapply (listing_most_recent_first
            (Sample.get Sample.admin "/expenses" []) Sample.two_expenses).
  vm_compute. reflexivity.
Defined.

(** ** Totals *)

Lemma fsum_snoc (l : list Py.float) (x : Py.float) :
  fsum (l ++ [x]) = Py.fadd (fsum l) x.
Proof. unfold fsum. now rewrite fold_left_app. Qed.

Lemma compute_totals_snoc (rows : list Row) (r : Row) :
  compute_totals (rows ++ [r]) = totals_step (compute_totals rows) r.
Proof. unfold compute_totals. now rewrite fold_left_app. Qed.

Lemma dict_get_set (d : list (string * Py.float)) (k k' : string) (v : Py.float) :
  dict_get (dict_set d k v) k'
  = if (k =? k')%string then Some v else dict_get d k'.
Proof.
  induction d as [|[k0 v0] d IH]; simpl.
  - reflexivity.
  - destruct (String.eqb_spec k0 k) as [->|Hk]; simpl.
    + now destruct (k =? k')%string.
    + rewrite IH. destruct (String.eqb_spec k0 k') as [->|Hk'];
        [|reflexivity].
      destruct (String.eqb_spec k k'); congruence.
Qed.

Lemma dict_get_keys (d : list (string * Py.float)) (k : string) :
  dict_get d k = None <-> ~ In k (map fst d).
Proof.
  induction d as [|[k0 v0] d IH]; simpl; [tauto|].
  destruct (String.eqb_spec k0 k) as [->|Hk].
  - split; [discriminate|tauto].
  - rewrite IH. tauto.
Qed.

Lemma dict_set_keys (d : list (string * Py.float)) (k : string) (v : Py.float) :
  map fst (dict_set d k v)
  = if existsb (fun k' => (k' =? k)%string) (map fst d)
    then map fst d else map fst d ++ [k].
Proof.
  induction d as [|[k0 v0] d IH]; simpl; [reflexivity|].
  destruct (String.eqb_spec k0 k) as [->|Hk]; simpl; [reflexivity|].
  rewrite IH. now destruct (existsb _ (map fst d)).
Qed.

Lemma first_seen_In (l : list string) (x : string) :
  In x (first_seen l) <-> In x l.
Proof.
  induction l as [|a l IH]; simpl; [tauto|].
  rewrite filter_In, IH.
  destruct (String.eqb_spec x a) as [->|Hx]; simpl; [tauto|].
  split; [tauto|]. intros [->|H]; [congruence|auto].
Qed.

Lemma first_seen_NoDup (l : list string) : NoDup (first_seen l).
Proof.
  induction l as [|a l IH]; simpl; constructor.
  - rewrite filter_In, String.eqb_refl. simpl. now intros [_ [=]].
  - now apply NoDup_filter.
Qed.

Lemma existsb_eqb_In (l : list string) (x : string) :
  existsb (fun y => (y =? x)%string) l = true <-> In x l.
Proof.
  rewrite existsb_exists. split.
  - intros (y & Hy & E). apply String.eqb_eq in E. now subst.
  - intros H. exists x. now rewrite String.eqb_refl.
Qed.

Lemma first_seen_snoc (l : list string) (x : string) :
  first_seen (l ++ [x])
  = if existsb (fun y => (y =? x)%string) l
    then first_seen l else first_seen l ++ [x].
Proof.
  induction l as [|a l IH]; simpl; [reflexivity|].
  rewrite IH.
  destruct (String.eqb_spec a x) as [->|Ha]; simpl.
  - destruct (existsb _ l); [reflexivity|].
    rewrite filter_app. simpl. rewrite String.eqb_refl. simpl.
    now rewrite app_nil_r.
  - destruct (existsb _ l); [reflexivity|].
    rewrite filter_app. simpl.
    destruct (String.eqb_spec x a); [congruence|reflexivity].
Qed.

Lemma compute_totals_total (rows : list Row) :
  fst (compute_totals rows) = fsum (map r_amount rows).
Proof.
  induction rows as [|r rows IH] using rev_ind; [reflexivity|].
  rewrite compute_totals_snoc, map_app.
  change (map r_amount [r]) with [r_amount r]. rewrite fsum_snoc, <- IH.
  now destruct (compute_totals rows) as [t d].
Qed.

Lemma compute_totals_keys (rows : list Row) :
  map fst (snd (compute_totals rows))
  = first_seen (map r_category_name rows).
Proof.
  induction rows as [|r rows IH] using rev_ind; [reflexivity|].
  rewrite compute_totals_snoc, map_app. simpl. rewrite first_seen_snoc.
  destruct (compute_totals rows) as [t d]. simpl in *.
  rewrite dict_set_keys, IH.
  destruct (existsb _ (map r_category_name rows)) eqn:E.
  - apply existsb_eqb_In, (proj2 (first_seen_In _ _)) in E.
    apply existsb_eqb_In in E. now rewrite E.
  - destruct (existsb _ (first_seen _)) eqn:E'; [|reflexivity].
    apply existsb_eqb_In, (proj1 (first_seen_In _ _)) in E'.
    apply existsb_eqb_In in E'. congruence.
Qed.

Lemma compute_totals_subtotal (rows : list Row) (cname : string) :
  dict_get (snd (compute_totals rows)) cname
  = if existsb (fun y => (y =? cname)%string) (map r_category_name rows)
    then Some (fsum (map r_amount (of_category cname rows)))
    else None.
Proof.
  induction rows as [|r rows IH] using rev_ind; [reflexivity|].
  rewrite compute_totals_snoc, map_app, existsb_app. simpl.
  unfold of_category in *. rewrite filter_app, map_app. simpl.
  destruct (compute_totals rows) as [t d]. simpl in *.
  rewrite dict_get_set, orb_false_r.
  destruct (String.eqb_spec (r_category_name r) cname) as [<-|Hne].
  - rewrite orb_true_r. simpl. rewrite fsum_snoc, IH.
    destruct (existsb _ (map r_category_name rows)) eqn:E; [reflexivity|].
    assert (Hnil : filter (fun r0 => (r_category_name r0 =? r_category_name r)%string) rows = []).
    { destruct (filter _ rows) as [|r0 l] eqn:F; [reflexivity|].
      assert (Hin : In r0 (r0 :: l)) by now left.
      rewrite <- F in Hin. apply filter_In in Hin as [Hin Hr0].
      apply String.eqb_eq in Hr0.
      assert (In (r_category_name r) (map r_category_name rows)).
      { rewrite <- Hr0. now apply in_map. }
      apply existsb_eqb_In in H. congruence. }
    now rewrite Hnil.
  - rewrite orb_false_r, app_nil_r. exact IH.
Qed.

(** C4.  On the page of the listing the grand total is the sum of the
    amounts of the rows shown, which are the rows of the filtered query;
    the keys of the per-category mapping are the category names of those
    rows in the order of their first occurrence, and each key maps to the
    sum of the amounts of its category's rows.  Sums are taken in row
    order from [0.0], in binary64 arithmetic.  With no row, the total is
    [0.0] and the mapping is empty. *)
Theorem totals_agree_with_rows
    ctx st rows cats total tbc filters adm :
  out_result (expenses ctx st)
    = Render (expenses_html rows cats total tbc filters adm) ->
  listing_rows ctx st = Ok rows
  /\ total = fsum (map r_amount rows)
  /\ map fst tbc = first_seen (map r_category_name rows)
  /\ (forall cname,
        dict_get tbc cname
        = if existsb (fun y => (y =? cname)%string) (map r_category_name rows)
          then Some (fsum (map r_amount (of_category cname rows)))
          else None)
  /\ (rows = [] -> total = Py.fzero /\ tbc = []).
Proof.
  intros Hres.
  apply expenses_render in Hres as (uid & w & _ & _ & Hrows & _ & Htot).
  split; [exact Hrows|].
  pose proof (compute_totals_total rows) as Ht.
  pose proof (compute_totals_keys rows) as Hk.
  pose proof (compute_totals_subtotal rows) as Hs.
  rewrite Htot in Ht, Hk, Hs. simpl in Ht, Hk, Hs.
  repeat split; try assumption.
  - subst rows. now injection Htot.
  - subst rows. now injection Htot.
Qed.

Lemma totals_agree_with_rows_witness :
  listing_rows (Sample.get Sample.admin "/expenses" []) Sample.two_expenses
  = Ok [ {| r_id := 2;
            r_amount := S754_finite false 6755399441055744 (-51);
            r_description := "Bus"; r_expense_date := "2024-01-02";
            r_is_essential := 1; r_category_name := "Transport";
            r_owner := "admin" |};
         {| r_id := 1;
            r_amount := S754_finite false 7036874417766400 (-49);
            r_description := "Lunch"; r_expense_date := "2024-01-01";
            r_is_essential := 0; r_category_name := "Food";
            r_owner := "student" |} ]
  /\ S754_finite false 8725724278030336 (-49)
     = fsum [S754_finite false 6755399441055744 (-51);
             S754_finite false 7036874417766400 (-49)].
Proof.
  destruct (totals_agree_with_rows
              (Sample.get Sample.admin "/expenses" []) Sample.two_expenses
              _ _ _ _ _ _ ltac:(vm_compute; reflexivity))
    as (H1 & H2 & _).
  split; [exact H1 | exact H2].
Defined.

(** ** The category parameter *)

Lemma build_where_parts (ctx : Ctx) :
  build_where ctx
  = let category_id :=
      Py.strip (get_or (args (request ctx)) "category_id" "") in
    if Py.isdigit category_id
    then n <- int_param category_id ;;
         Ok (owner_clauses ctx ++ CategoryIdEq n :: other_clauses ctx)
    else Ok (owner_clauses ctx ++ other_clauses ctx).
Proof.
  unfold build_where, owner_clauses, other_clauses. cbv zeta.
  set (cat := Py.strip (get_or (args (request ctx)) "category_id" "")).
  set (df := Py.strip (get_or (args (request ctx)) "from" "")).
  set (dt := Py.strip (get_or (args (request ctx)) "to" "")).
  set (es := Py.strip (get_or (args (request ctx)) "essential" "")).
  set (w0 := if negb (is_admin ctx) then _ else _).
  assert (Hes : forall w : list Clause,
    (if (es =? "0")%string || (es =? "1")%string
     then n <- int_param es ;; Ok (w ++ [EssentialEq n]) else Ok w)
    = Ok (w ++ (if (es =? "0")%string then [EssentialEq 0]
                else if (es =? "1")%string then [EssentialEq 1] else []))).
  { intros w.
    destruct (String.eqb_spec es "0") as [->|_]; [reflexivity|].
    destruct (String.eqb_spec es "1") as [->|_]; [reflexivity|].
    simpl. now rewrite app_nil_r. }
  destruct (Py.isdigit cat); simpl.
  - destruct (int_param cat) as [n|e]; simpl; [|reflexivity].
    rewrite Hes. f_equal.
    destruct (Py.truthy df), (Py.truthy dt); simpl;
      rewrite <- ?app_assoc; reflexivity.
  - rewrite Hes. f_equal.
    destruct (Py.truthy df), (Py.truthy dt); simpl;
      rewrite <- ?app_assoc; reflexivity.
Qed.

Lemma multi_get_omit_same (d : MultiDict) (k : string) :
  multi_get (filter (fun kv => negb (fst kv =? k)%string) d) k = None.
Proof.
  induction d as [|[k0 v0] d IH]; simpl; [reflexivity|].
  destruct (String.eqb_spec k0 k) as [->|Hk]; simpl; [exact IH|].
  destruct (String.eqb_spec k0 k); [contradiction|exact IH].
Qed.

Lemma multi_get_omit_other (d : MultiDict) (k k' : string) :
  k' <> k ->
  multi_get (filter (fun kv => negb (fst kv =? k)%string) d) k'
  = multi_get d k'.
Proof.
  intros Hne. induction d as [|[k0 v0] d IH]; simpl; [reflexivity|].
  destruct (String.eqb_spec k0 k) as [->|Hk]; simpl.
  - destruct (String.eqb_spec k k'); [congruence|exact IH].
  - now rewrite IH.
Qed.

Lemma omit_category_parts (ctx : Ctx) :
  owner_clauses (omit_arg "category_id" ctx) = owner_clauses ctx
  /\ other_clauses (omit_arg "category_id" ctx) = other_clauses ctx
  /\ build_where (omit_arg "category_id" ctx)
     = Ok (owner_clauses ctx ++ other_clauses ctx).
Proof.
  assert (Ho : owner_clauses (omit_arg "category_id" ctx) = owner_clauses ctx)
    by reflexivity.
  assert (Hr : other_clauses (omit_arg "category_id" ctx) = other_clauses ctx).
  { unfold other_clauses, get_or, omit_arg. simpl.
    rewrite !multi_get_omit_other by discriminate. reflexivity. }
  repeat split; try assumption.
  rewrite build_where_parts, Ho, Hr. cbv zeta.
  unfold get_or, omit_arg. simpl. rewrite multi_get_omit_same. reflexivity.
Qed.

Lemma filter_andb {A : Type} (f g : A -> bool) (l : list A) :
  filter (fun a => f a && g a) l = filter g (filter f l).
Proof.
  induction l as [|a l IH]; simpl; [reflexivity|].
  destruct (f a); simpl; [|exact IH].
  destruct (g a); now rewrite IH.
Qed.

Lemma listing_joined_extra_clause (w1 w2 : list Clause) (n : Z) (st : Store) :
  listing_joined (w1 ++ CategoryIdEq n :: w2) st
  = filter (fun j => e_category_id (fst (fst j)) =? n)
           (listing_joined (w1 ++ w2) st).
Proof.
  unfold listing_joined.
  rewrite filter_order_by
    by (apply listing_before_total || apply listing_before_trans).
  rewrite <- filter_andb. f_equal. apply filter_ext. intros j.
  rewrite !forallb_app. simpl.
  destruct (forallb _ w1), (e_category_id (fst (fst j)) =? n),
    (forallb _ w2); reflexivity.
Qed.

Lemma select_listing_extra_clause (w1 w2 : list Clause) (n : Z) (st : Store) :
  in_int64 n = true ->
  select_listing_joined (w1 ++ CategoryIdEq n :: w2) st
  = js <- select_listing_joined (w1 ++ w2) st ;;
    Ok (filter (fun j => e_category_id (fst (fst j)) =? n) js).
Proof.
  intros Hn. unfold select_listing_joined.
  rewrite !forallb_app. simpl. rewrite Hn. simpl.
  destruct (forallb clause_bindable w1 && forallb clause_bindable w2); simpl;
    [|reflexivity].
  now rewrite listing_joined_extra_clause.
Qed.

Lemma no_category_clause (ctx : Ctx) (n : Z) :
  ~ In (CategoryIdEq n) (owner_clauses ctx ++ other_clauses ctx).
Proof.
  unfold owner_clauses, other_clauses. cbv zeta.
  rewrite !in_app_iff.
  repeat match goal with
         | |- context [if ?b then _ else _] => destruct b
         end; simpl; intuition discriminate.
Qed.

(** C5 (as the code has it).  The category clause is added only when
    the trimmed [category_id] is a non-empty string of digit characters
    ([str.isdigit]): a value that is not such a string contributes no
    clause, the clauses are built without an error and are those of the
    same request without the parameter, so the listing is the same.  The
    clause is added whenever the value is such a string that [int]
    accepts, with an integer value [n] that SQLite can hold -- "0" and
    zero-padded numbers are among them: the clause is
    [e.category_id = n], and the query returns the rows of the listing
    without the parameter whose category is [n]. *)
Theorem category_filter_for_digit_strings (ctx : Ctx) (st : Store) :
  let category_id := Py.strip (get_or (args (request ctx)) "category_id" "") in
  let ctx' := omit_arg "category_id" ctx in
  exists w',
    build_where ctx' = Ok w'
    /\ (forall n, ~ In (CategoryIdEq n) w')
    /\ (Py.isdigit category_id = false ->
        build_where ctx = Ok w'
        /\ listing_rows ctx st = listing_rows ctx' st)
    /\ (forall n,
          Py.isdigit category_id = true ->
          Py.int category_id = Some n ->
          in_int64 n = true ->
          exists w,
            build_where ctx = Ok w
            /\ In (CategoryIdEq n) w
            /\ select_listing_joined w st
               = js <- select_listing_joined w' st ;;
                 Ok (filter (fun j => e_category_id (fst (fst j)) =? n) js)).
Proof.
  intros category_id ctx'.
  destruct (omit_category_parts ctx) as (_ & _ & Hw').
  exists (owner_clauses ctx ++ other_clauses ctx).
  split; [exact Hw'|]. split; [intros n; apply no_category_clause|].
  pose proof (build_where_parts ctx) as Hw. cbv zeta in Hw.
  fold category_id in Hw. split.
  - intros Hd. rewrite Hd in Hw. split; [exact Hw|].
    unfold listing_rows. fold ctx' in Hw'. now rewrite Hw, Hw'.
  - intros n Hd Hint Hn. rewrite Hd in Hw.
    unfold int_param in Hw. rewrite Hint in Hw. simpl in Hw.
    eexists. split; [exact Hw|]. split.
    + apply in_app_iff. right. now left.
    + now apply select_listing_extra_clause.
Qed.

(** The request [?category_id=0] on the store with the student's lunch:
    "0" parses to the integer 0, which is not positive, yet the clause is
    applied and the listing differs from the one without the parameter. *)
Lemma category_zero_is_applied :
  Py.int "0" = Some 0
  /\ parses_as_positive_int "0" = false
  /\ listing_rows
       (Sample.get Sample.student "/expenses" [("category_id", "0")])
       Sample.one_expense
     = Ok []
  /\ listing_rows
       (omit_arg "category_id"
          (Sample.get Sample.student "/expenses" [("category_id", "0")]))
       Sample.one_expense
     = Ok [ {| r_id := 1;
               r_amount := S754_finite false 7036874417766400 (-49);
               r_description := "Lunch"; r_expense_date := "2024-01-01";
               r_is_essential := 0; r_category_name := "Food";
               r_owner := "student" |} ].
Proof. repeat split; vm_compute; reflexivity. Qed.

(* ================================================================== *)
(** * Bootstrap *)
(* ================================================================== *)

Lemma insert_or_ignore_category_present (name : string) (st : Store) :
  existsb (fun c => c_name c =? name)%string (tbl_categories st) = true ->
  tbl_categories (insert_or_ignore_category name st) = tbl_categories st.
Proof. intros H. unfold insert_or_ignore_category. simpl. now rewrite H. Qed.

Lemma insert_or_ignore_category_grows (name : string) (st : Store) :
  exists new,
    tbl_categories (insert_or_ignore_category name st)
    = tbl_categories st ++ new
    /\ existsb (fun c => c_name c =? name)%string
         (tbl_categories (insert_or_ignore_category name st)) = true.
Proof.
  unfold insert_or_ignore_category. simpl.
  destruct (existsb _ (tbl_categories st)) eqn:E.
  - exists []. now rewrite app_nil_r.
  - eexists. split; [reflexivity|].
    rewrite existsb_app. simpl. now rewrite String.eqb_refl, orb_true_r.
Qed.

Lemma insert_or_ignore_user_present (n p r : string) (st : Store) :
  existsb (fun u => u_username u =? n)%string (tbl_users st) = true ->
  tbl_users (insert_or_ignore_user n p r st) = tbl_users st.
Proof. intros H. unfold insert_or_ignore_user. simpl. now rewrite H. Qed.

Lemma insert_or_ignore_user_grows (n p r : string) (st : Store) :
  exists new,
    tbl_users (insert_or_ignore_user n p r st) = tbl_users st ++ new
    /\ existsb (fun u => u_username u =? n)%string
         (tbl_users (insert_or_ignore_user n p r st)) = true.
Proof.
  unfold insert_or_ignore_user. simpl.
  destruct (existsb _ (tbl_users st)) eqn:E.
  - exists []. now rewrite app_nil_r.
  - eexists. split; [reflexivity|].
    rewrite existsb_app. simpl. now rewrite String.eqb_refl, orb_true_r.
Qed.

Lemma seed_categories_present (names : list string) (st : Store) :
  forallb (fun n => existsb (fun c => c_name c =? n)%string (tbl_categories st))
          names = true ->
  tbl_categories
    (fold_left (fun s c => insert_or_ignore_category c s) names st)
  = tbl_categories st.
Proof.
  revert st. induction names as [|n names IH]; intros st H; simpl in *;
    [reflexivity|].
  apply andb_true_iff in H as [Hn Hrest].
  pose proof (insert_or_ignore_category_present n st Hn) as Heq.
  rewrite IH; [exact Heq|]. now rewrite Heq.
Qed.

Lemma seed_categories_frame (names : list string) (st : Store) :
  tbl_users (fold_left (fun s c => insert_or_ignore_category c s) names st)
  = tbl_users st
  /\ tbl_expenses (fold_left (fun s c => insert_or_ignore_category c s) names st)
     = tbl_expenses st.
Proof.
  revert st. induction names as [|n names IH]; intros st; simpl; [auto|].
  destruct (IH (insert_or_ignore_category n st)) as [-> ->]. auto.
Qed.

Lemma existsb_app_keeps {A : Type} (f : A -> bool) (l new : list A) :
  existsb f l = true -> existsb f (l ++ new) = true.
Proof. intros H. now rewrite existsb_app, H. Qed.

Lemma seed_categories_grows (names : list string) (st : Store) :
  exists new,
    tbl_categories
      (fold_left (fun s c => insert_or_ignore_category c s) names st)
    = tbl_categories st ++ new
    /\ forallb (fun n => existsb (fun c => c_name c =? n)%string
                           (tbl_categories st ++ new)) names = true.
Proof.
  revert st. induction names as [|n names IH]; intros st; simpl.
  - exists []. now rewrite app_nil_r.
  - destruct (insert_or_ignore_category_grows n st) as (new1 & E1 & P1).
    destruct (IH (insert_or_ignore_category n st)) as (new2 & E2 & P2).
    rewrite E1 in E2, P2, P1. rewrite <- app_assoc in E2, P2.
    exists (new1 ++ new2). split; [exact E2|].
    rewrite P2, andb_true_r.
    rewrite app_assoc. now apply existsb_app_keeps.
Qed.

(** Whatever the store, the bootstrap only appends rows and leaves the
    store seeded. *)
Lemma init_db_appends (st : Store) :
  exists us cs,
    tbl_users (init_db st) = tbl_users st ++ us
    /\ tbl_categories (init_db st) = tbl_categories st ++ cs
    /\ tbl_expenses (init_db st) = tbl_expenses st
    /\ seeded (init_db st) = true.
Proof.
  unfold init_db, seeded.
  set (st1 := fold_left _ default_categories st).
  destruct (seed_categories_grows default_categories st) as (cs & Ec & Pc).
  destruct (seed_categories_frame default_categories st) as (Eu & Ee).
  fold st1 in Ec, Eu, Ee.
  set (st2 := insert_or_ignore_user "student" "student123" "user" st1).
  destruct (insert_or_ignore_user_grows "student" "student123" "user" st1)
    as (us1 & Eu1 & Pu1).
  fold st2 in Eu1, Pu1.
  destruct (insert_or_ignore_user_grows "admin" "admin123" "admin" st2)
    as (us2 & Eu2 & Pu2).
  set (st3 := insert_or_ignore_user "admin" "admin123" "admin" st2) in *.
  assert (Hc : tbl_categories st3 = tbl_categories st ++ cs) by exact Ec.
  assert (He : tbl_expenses st3 = tbl_expenses st) by exact Ee.
  assert (Hs : existsb (fun u => u_username u =? "student")%string
                 (tbl_users st3) = true).
  { rewrite Eu2. now apply existsb_app_keeps. }
  exists (us1 ++ us2), cs.
  rewrite Hc, He, Pc, Pu2, Hs.
  repeat split. now rewrite Eu2, Eu1, Eu, app_assoc.
Qed.

(** C9.  On a store in which the bootstrap has already run -- one that
    holds the six default category names and the two default user names --
    running it again leaves the three tables exactly as they are: no
    category and no account is added a second time, and no existing row,
    in particular no password or role of a seed account, is altered. *)
Theorem init_db_again_keeps_tables (st : Store) :
  seeded st = true ->
  tbl_users (init_db st) = tbl_users st
  /\ tbl_categories (init_db st) = tbl_categories st
  /\ tbl_expenses (init_db st) = tbl_expenses st.
Proof.
  unfold seeded. intros H.
  apply andb_true_iff in H as [H Ha]. apply andb_true_iff in H as [Hc Hs].
  unfold init_db.
  set (st1 := fold_left _ default_categories st).
  pose proof (seed_categories_present default_categories st Hc) as Ec.
  destruct (seed_categories_frame default_categories st) as (Eu & Ee).
  fold st1 in Ec, Eu, Ee.
  set (st2 := insert_or_ignore_user "student" "student123" "user" st1).
  assert (Eu1 : tbl_users st2 = tbl_users st).
  { unfold st2. rewrite insert_or_ignore_user_present; rewrite Eu; auto. }
  rewrite insert_or_ignore_user_present by (rewrite Eu1; exact Ha).
  simpl. auto.
Qed.

Lemma init_db_again_keeps_tables_witness :
  tbl_users (init_db Sample.two_expenses) = tbl_users Sample.two_expenses
  /\ tbl_categories (init_db Sample.two_expenses)
     = tbl_categories Sample.two_expenses
  /\ tbl_expenses (init_db Sample.two_expenses)
     = tbl_expenses Sample.two_expenses.
Proof.
  apply (init_db_again_keeps_tables Sample.two_expenses).
  vm_compute. reflexivity.
Defined.

(** The counters of [sqlite_sequence] are not part of that: every run
    advances them, six steps for the categories and two for the users. *)
Example init_db_again_moves_counters :
  seq_categories Sample.fresh = 6
  /\ seq_categories (init_db Sample.fresh) = 12
  /\ seq_users (init_db Sample.fresh) = 4.
Proof. repeat split; vm_compute; reflexivity. Qed.

(* ================================================================== *)
(** * Guards *)
(* ================================================================== *)

(** C7 (as the code has it).  When the session's role is not
    administrator, [admin_required] answers without calling the view it
    wraps: the store is untouched, "Admin access required." is flashed,
    and the redirect goes to the index page [/], whatever the wrapped
    view is. *)
Theorem admin_required_redirects_to_index
    (view_func : View) (ctx : Ctx) (st : Store) :
  is_admin ctx = false ->
  admin_required view_func ctx st
  = {| out_store := st;
       out_flashes := [("Admin access required.", "danger")];
       out_result := Redirect ep_index |}.
Proof.
  unfold is_admin, admin_required. intros ->. reflexivity.
Qed.

Lemma admin_required_redirects_to_index_witness :
  admin_required categories_view
    (Sample.post Sample.student "/categories" [("name", "Travel")])
    Sample.fresh
  = {| out_store := Sample.fresh;
       out_flashes := [("Admin access required.", "danger")];
       out_result := Redirect ep_index |}.
Proof.
  apply (admin_required_redirects_to_index categories_view
           (Sample.post Sample.student "/categories" [("name", "Travel")])
           Sample.fresh).
  reflexivity.
Defined.

(** A member asking for the categories page is sent to the index page,
    not to the listing of expenses. *)
Lemma admin_guard_not_to_listing :
  is_admin (Sample.get Sample.student "/categories" []) = false
  /\ out_result (categories (Sample.get Sample.student "/categories" [])
                   Sample.fresh)
     = Redirect ep_index
  /\ out_result (categories (Sample.get Sample.student "/categories" [])
                   Sample.fresh)
     <> Redirect ep_expenses.
Proof.
  repeat split; try (vm_compute; reflexivity).
  vm_compute. discriminate.
Qed.

(* ================================================================== *)
(** * Edit and delete *)
(* ================================================================== *)

Lemma select_expense_after_init_db (eid : Z) (st : Store) :
  select_expense eid (init_db st) = select_expense eid st.
Proof.
  destruct (init_db_appends st) as (us & cs & _ & _ & He & _).
  unfold select_expense. now rewrite He.
Qed.

Lemma not_permitted_stranger (ctx : Ctx) (uid owner : Z) :
  current_user_id ctx = Some uid -> is_admin ctx = false ->
  owner <> uid -> not_permitted ctx owner = true.
Proof.
  intros Hu Ha Hne. unfold not_permitted. rewrite Hu, Ha. simpl.
  now apply negb_true_iff, Z.eqb_neq.
Qed.

(** C2.  A logged-in session that is neither administrator nor the owner
    of an existing expense gets, from edit (GET or POST) and from delete
    on that expense's id, the redirect to the listing with the
    "no permission" notice, and the store is returned as it was.  With
    the bootstrap that precedes every request taken in, the answer is
    the same and the table of expenses is unchanged. *)
Theorem stranger_cannot_edit_or_delete
    (expense_id uid : Z) (e : Expense) (ctx : Ctx) (st : Store) :
  current_user_id ctx = Some uid ->
  is_admin ctx = false ->
  select_expense expense_id st = Ok (Some e) ->
  e_user_id e <> uid ->
  edit_expense expense_id ctx st
  = {| out_store := st;
       out_flashes :=
         [("You do not have permission to edit this item.", "danger")];
       out_result := Redirect ep_expenses |}
  /\ delete_expense expense_id ctx st
     = {| out_store := st;
          out_flashes :=
            [("You do not have permission to delete this item.", "danger")];
          out_result := Redirect ep_expenses |}
  /\ out_result (before_request (edit_expense expense_id) ctx st)
     = Redirect ep_expenses
  /\ out_result (before_request (delete_expense expense_id) ctx st)
     = Redirect ep_expenses
  /\ tbl_expenses
       (out_store (before_request (edit_expense expense_id) ctx st))
     = tbl_expenses st
  /\ tbl_expenses
       (out_store (before_request (delete_expense expense_id) ctx st))
     = tbl_expenses st.
Proof.
  intros Hu Ha Hsel Hne.
  pose proof (not_permitted_stranger ctx uid (e_user_id e) Hu Ha Hne) as Hperm.
  assert (Hedit : forall s, select_expense expense_id s = Ok (Some e) ->
    edit_expense expense_id ctx s
    = {| out_store := s;
         out_flashes :=
           [("You do not have permission to edit this item.", "danger")];
         out_result := Redirect ep_expenses |}).
  { intros s Hs. unfold edit_expense, login_required.
    unfold current_user_id in Hu. rewrite Hu.
    unfold edit_expense_view. now rewrite Hs, Hperm. }
  assert (Hdel : forall s, select_expense expense_id s = Ok (Some e) ->
    delete_expense expense_id ctx s
    = {| out_store := s;
         out_flashes :=
           [("You do not have permission to delete this item.", "danger")];
         out_result := Redirect ep_expenses |}).
  { intros s Hs. unfold delete_expense, login_required.
    unfold current_user_id in Hu. rewrite Hu.
    unfold delete_expense_view. now rewrite Hs, Hperm. }
  assert (Hsel' : select_expense expense_id (init_db st) = Ok (Some e))
    by now rewrite select_expense_after_init_db.
  destruct (init_db_appends st) as (us & cs & _ & _ & He & _).
  unfold before_request.
  rewrite (Hedit st Hsel), (Hdel st Hsel),
    (Hedit _ Hsel'), (Hdel _ Hsel').
  simpl. repeat split; assumption.
Qed.

Lemma stranger_cannot_edit_or_delete_witness :
  edit_expense 2
    (Sample.post Sample.student "/expenses/2/edit" Sample.lunch)
    Sample.two_expenses
  = {| out_store := Sample.two_expenses;
       out_flashes :=
         [("You do not have permission to edit this item.", "danger")];
       out_result := Redirect ep_expenses |}
  /\ delete_expense 2
       (Sample.post Sample.student "/expenses/2/edit" Sample.lunch)
       Sample.two_expenses
     = {| out_store := Sample.two_expenses;
          out_flashes :=
            [("You do not have permission to delete this item.", "danger")];
          out_result := Redirect ep_expenses |}.
Proof.
  destruct (stranger_cannot_edit_or_delete 2 1
              {| e_id := 2; e_user_id := 2; e_category_id := 2;
                 e_amount := S754_finite false 6755399441055744 (-51);
                 e_description := "Bus"; e_expense_date := "2024-01-02";
                 e_is_essential := 1 |}
              (Sample.post Sample.student "/expenses/2/edit" Sample.lunch)
              Sample.two_expenses)
    as (H1 & H2 & _).
  - reflexivity.
  - reflexivity.
  - vm_compute. reflexivity.
  - simpl. lia.
  - split; [exact H1 | exact H2].
Defined.

Lemma Forall2_map_self {A : Type} (R : A -> A -> Prop) (f : A -> A)
    (l : list A) :
  (forall a, R a (f a)) -> Forall2 R l (map f l).
Proof. intros H. induction l; simpl; constructor; auto. Qed.

Lemma update_expense_ok cid amt desc date ess eid st st' :
  update_expense cid amt desc date ess eid st = Ok st' ->
  tbl_users st' = tbl_users st
  /\ tbl_categories st' = tbl_categories st
  /\ tbl_expenses st'
     = map (fun e => if e_id e =? eid
                     then set_expense_fields cid amt desc date ess e
                     else e)
           (tbl_expenses st).
Proof.
  unfold update_expense, bind_int.
  destruct (in_int64 cid); simpl; [|discriminate].
  destruct (in_int64 eid); simpl; [|discriminate].
  destruct (existsb _ (tbl_expenses st)); [discriminate|].
  intros [= <-]. simpl. auto.
Qed.

(** What a successful edit is: the view got past the permission test and
    the validation, and the UPDATE went through. *)
Lemma edit_expense_updated (expense_id : Z) (ctx : Ctx) (st : Store) :
  out_flashes (edit_expense expense_id ctx st)
    = [("Expense updated.", "success")] ->
  let f := form (request ctx) in
  exists cid amt,
    Py.int (Py.strip (get_or f "category_id" "")) = Some cid
    /\ Py.float_of_str (Py.strip (get_or f "amount" "")) = Some amt
    /\ update_expense cid amt
         (Py.strip (get_or f "description" ""))
         (Py.strip (get_or f "expense_date" ""))
         (essential_flag f) expense_id st
       = Ok (out_store (edit_expense expense_id ctx st)).
Proof.
  unfold edit_expense, login_required.
  destruct (s_user_id (session ctx)); simpl; [|discriminate].
  unfold edit_expense_view.
  destruct (select_expense expense_id st) as [[e|]|x]; simpl;
    try discriminate.
  destruct (not_permitted ctx (e_user_id e)); simpl; [discriminate|].
  destruct (method (request ctx)); simpl; [discriminate|].
  destruct (validate _ _ _ _); simpl; [|discriminate].
  unfold int_param, float_param.
  destruct (Py.int _) as [cid|]; simpl; [|discriminate].
  destruct (Py.float_of_str _) as [amt|]; simpl; [|discriminate].
  destruct (update_expense _ _ _ _ _ _ _) as [st'|x] eqn:Hup; simpl;
    [|discriminate].
  intros _. exists cid, amt. auto.
Qed.

(** C10.  After a successful edit ("Expense updated.") the table of
    expenses is the old one with, in the rows whose id is the edited one,
    the category, amount, description, date and essential flag replaced
    by the submitted values.  Row by row the identifier and the owner are
    the old ones, every row with another id is unchanged, and the tables
    of users and categories are unchanged. *)
Theorem edit_keeps_id_owner_and_other_rows
    (expense_id : Z) (ctx : Ctx) (st : Store) :
  out_flashes (edit_expense expense_id ctx st)
    = [("Expense updated.", "success")] ->
  let st' := out_store (edit_expense expense_id ctx st) in
  let f := form (request ctx) in
  (exists cid amt,
     Py.int (Py.strip (get_or f "category_id" "")) = Some cid
     /\ Py.float_of_str (Py.strip (get_or f "amount" "")) = Some amt
     /\ tbl_expenses st'
        = map (fun e =>
                 if e_id e =? expense_id
                 then {| e_id := e_id e; e_user_id := e_user_id e;
                         e_category_id := cid; e_amount := amt;
                         e_description :=
                           Py.strip (get_or f "description" "");
                         e_expense_date :=
                           Py.strip (get_or f "expense_date" "");
                         e_is_essential := essential_flag f |}
                 else e)
              (tbl_expenses st))
  /\ Forall2 (fun e e' =>
                e_id e' = e_id e /\ e_user_id e' = e_user_id e
                /\ (e_id e <> expense_id -> e' = e))
             (tbl_expenses st) (tbl_expenses st')
  /\ tbl_users st' = tbl_users st
  /\ tbl_categories st' = tbl_categories st.
Proof.
  intros Hok st' f.
  destruct (edit_expense_updated expense_id ctx st Hok)
    as (cid & amt & Hcid & Hamt & Hup).
  fold st' in Hup. fold f in Hcid, Hamt, Hup.
  apply update_expense_ok in Hup as (Hu & Hc & He).
  split; [exists cid, amt; auto|].
  split; [|auto].
  rewrite He. apply Forall2_map_self. intros e.
  destruct (Z.eqb_spec (e_id e) expense_id); simpl; auto.
  repeat split. contradiction.
Qed.

Lemma edit_keeps_id_owner_and_other_rows_witness :
  Forall2 (fun e e' =>
             e_id e' = e_id e /\ e_user_id e' = e_user_id e
             /\ (e_id e <> 1 -> e' = e))
    (tbl_expenses Sample.two_expenses)
    (tbl_expenses
       (out_store
          (edit_expense 1
             (Sample.post Sample.admin "/expenses/1/edit" Sample.bus)
             Sample.two_expenses))).
Proof.
  destruct (edit_keeps_id_owner_and_other_rows 1
              (Sample.post Sample.admin "/expenses/1/edit" Sample.bus)
              Sample.two_expenses)
    as (_ & H & _).
  - vm_compute. reflexivity.
  - exact H.
Defined.

(** The administrator's edit of the student's lunch: the owner stays the
    student, the other five columns take the submitted values, and the
    second row is untouched. *)
Example edit_overwrites_five_columns :
  tbl_expenses
    (out_store
       (edit_expense 1
          (Sample.post Sample.admin "/expenses/1/edit" Sample.bus)
          Sample.two_expenses))
  = [ {| e_id := 1; e_user_id := 1; e_category_id := 2;
         e_amount := S754_finite false 6755399441055744 (-51);
         e_description := "Bus"; e_expense_date := "2024-01-02";
         e_is_essential := 1 |};
      {| e_id := 2; e_user_id := 2; e_category_id := 2;
         e_amount := S754_finite false 6755399441055744 (-51);
         e_description := "Bus"; e_expense_date := "2024-01-02";
         e_is_essential := 1 |} ].
Proof. vm_compute. reflexivity. Qed.

(* ================================================================== *)
(** * Add *)
(* ================================================================== *)

Lemma truthy_false (s : string) : Py.truthy s = false <-> s = "".
Proof.
  destruct s; unfold Py.truthy; simpl; split; intros H;
    try discriminate H; reflexivity.
Qed.

(** An amount passes [amount_f <= 0] being false when it is a positive
    number, the positive infinity, or a NaN. *)
Lemma fle_zero_false (x : Py.float) :
  Py.fle x Py.fzero = false <->
  x = S754_nan \/ x = S754_infinity false
  \/ exists m e, x = S754_finite false m e.
Proof.
  destruct x as [s|s| |s m e]; try destruct s; simpl;
    (split; [intros H; try discriminate H; eauto
            | intros [H|[H|(m' & e' & H)]]; try discriminate H; reflexivity]).
Qed.

Lemma validate_rules (c a d e : string) :
  (validate c a d e = [] <->
     Py.isdigit c = true
     /\ (exists x, Py.float_of_str a = Some x /\ Py.fle x Py.fzero = false)
     /\ d <> "" /\ e <> "")
  /\ (In "Please select a valid category." (validate c a d e)
      <-> Py.isdigit c = false)
  /\ (In "Amount must be greater than 0." (validate c a d e)
      <-> exists x, Py.float_of_str a = Some x /\ Py.fle x Py.fzero = true)
  /\ (In "Please enter a valid number for amount." (validate c a d e)
      <-> Py.float_of_str a = None)
  /\ (In "Description is required." (validate c a d e) <-> d = "")
  /\ (In "Date is required (YYYY-MM-DD)." (validate c a d e) <-> e = "").
Proof.
  unfold validate, Py.truthy.
  destruct (Py.isdigit c);
    destruct (Py.float_of_str a) as [x|];
    [destruct (Py.fle x Py.fzero) eqn:Hle| |
     destruct (Py.fle x Py.fzero) eqn:Hle| ];
    destruct d as [|d0 d]; destruct e as [|e0 e]; simpl;
    repeat split; intros;
    repeat match goal with
           | H : _ \/ _ |- _ => destruct H
           | H : _ /\ _ |- _ => destruct H
           | H : exists _, _ |- _ => destruct H
           | H : False |- _ => destruct H
           | H : Some _ = Some _ |- _ => inversion H; subst; clear H
           end;
    try discriminate; try congruence; eauto 6.
Qed.



(** The amounts the specification lists: zero, a negative number and a
    word are rejected; "12.50" is accepted, the row is inserted and the
    owner's next listing shows it. *)
Example add_expense_amounts :
  validate "1" "0" "Lunch" "2024-01-01" = ["Amount must be greater than 0."]
  /\ validate "1" "-3" "Lunch" "2024-01-01"
     = ["Amount must be greater than 0."]
  /\ validate "1" "abc" "Lunch" "2024-01-01"
     = ["Please enter a valid number for amount."]
  /\ out_result (add_expense
                   (Sample.post Sample.student "/expenses/add" Sample.lunch)
                   Sample.fresh)
     = Redirect ep_expenses
  /\ listing_rows (Sample.get Sample.student "/expenses" [])
       Sample.one_expense
     = Ok [ {| r_id := 1;
               r_amount := S754_finite false 7036874417766400 (-49);
               r_description := "Lunch"; r_expense_date := "2024-01-01";
               r_is_essential := 0; r_category_name := "Food";
               r_owner := "student" |} ].
Proof. repeat split; vm_compute; reflexivity. Qed.


Lemma insert_expense_ok uid cid amt desc date ess st st' :
  insert_expense uid cid amt desc date ess st = Ok st' ->
  exists u,
    uid = Some u
    /\ tbl_expenses st'
       = tbl_expenses st ++
           [ {| e_id := new_rowid (map e_id (tbl_expenses st))
                          (seq_expenses st);
                e_user_id := u; e_category_id := cid; e_amount := amt;
                e_description := desc; e_expense_date := date;
                e_is_essential := ess |} ].
Proof.
  unfold insert_expense, bind_int.
  destruct (in_int64 cid); simpl; [|discriminate].
  destruct uid as [u|]; [|discriminate].
  destruct (in_int64 u); simpl; [|discriminate].
  destruct (expense_row_ok u cid amt st); [|discriminate].
  intros [= <-]. exists u. auto.
Qed.

(** What a successful add is: a POST that passed the validation and
    whose INSERT went through. *)
Lemma add_expense_added (ctx : Ctx) (st : Store) :
  out_result (add_expense ctx st) = Redirect ep_expenses ->
  let f := form (request ctx) in
  exists cid amt,
    method (request ctx) = POST
    /\ validate (Py.strip (get_or f "category_id" ""))
         (Py.strip (get_or f "amount" ""))
         (Py.strip (get_or f "description" ""))
         (Py.strip (get_or f "expense_date" "")) = []
    /\ Py.int (Py.strip (get_or f "category_id" "")) = Some cid
    /\ Py.float_of_str (Py.strip (get_or f "amount" "")) = Some amt
    /\ insert_expense (current_user_id ctx) cid amt
         (Py.strip (get_or f "description" ""))
         (Py.strip (get_or f "expense_date" ""))
         (essential_flag f) st
       = Ok (out_store (add_expense ctx st)).
Proof.
  unfold add_expense, login_required.
  destruct (s_user_id (session ctx)) eqn:Hu; simpl; [|discriminate].
  unfold add_expense_view.
  destruct (method (request ctx)); simpl; [discriminate|].
  destruct (validate _ _ _ _) eqn:Hv; simpl; [|discriminate].
  unfold int_param, float_param.
  destruct (Py.int _) as [cid|]; simpl; [|discriminate].
  destruct (Py.float_of_str _) as [amt|]; simpl; [|discriminate].
  destruct (insert_expense _ _ _ _ _ _ _) as [st'|x] eqn:Hins; simpl;
    [|discriminate].
  intros _. exists cid, amt. auto.
Qed.

(** C6 (as the code has it).  A successful add appends one row, and its
    essential flag is 1 exactly when the form carries [is_essential] with
    the value "on" (the first value, if the key is sent more than once);
    without the key, or with any other value, the flag is 0. *)
Theorem essential_flag_means_on (ctx : Ctx) (st : Store) :
  out_result (add_expense ctx st) = Redirect ep_expenses ->
  exists e,
    tbl_expenses (out_store (add_expense ctx st)) = tbl_expenses st ++ [e]
    /\ (e_is_essential e = 1
        <-> multi_get (form (request ctx)) "is_essential" = Some "on")
    /\ (e_is_essential e = 0
        <-> multi_get (form (request ctx)) "is_essential" <> Some "on").
Proof.
  intros Hok.
  destruct (add_expense_added ctx st Hok)
    as (cid & amt & _ & _ & _ & _ & Hins).
  apply insert_expense_ok in Hins as (u & _ & He).
  eexists. split; [exact He|]. simpl. unfold essential_flag.
  destruct (multi_get (form (request ctx)) "is_essential") as [v|].
  - destruct (String.eqb_spec v "on") as [->|Hv]; split; split;
      intros H; try congruence; try reflexivity; try discriminate.
  - split; split; intros H; try congruence; try discriminate.
Qed.

Lemma essential_flag_means_on_witness :
  exists e,
    tbl_expenses
      (out_store (add_expense
                    (Sample.post Sample.admin "/expenses/add" Sample.bus)
                    Sample.one_expense))
    = tbl_expenses Sample.one_expense ++ [e]
    /\ (e_is_essential e = 1
        <-> multi_get Sample.bus "is_essential" = Some "on")
    /\ (e_is_essential e = 0
        <-> multi_get Sample.bus "is_essential" <> Some "on").
Proof.
  apply (essential_flag_means_on
           (Sample.post Sample.admin "/expenses/add" Sample.bus)
           Sample.one_expense).
  vm_compute. reflexivity.
Defined.

(** The marker sent with the value "1": it is present in the form, the
    add succeeds, and the stored flag is 0. *)
Lemma essential_marker_with_other_value :
  multi_get
    [("category_id", "1"); ("amount", "12.50"); ("description", "Lunch");
     ("expense_date", "2024-01-01"); ("is_essential", "1")]
    "is_essential" = Some "1"
  /\ out_result
       (add_expense
          (Sample.post Sample.student "/expenses/add"
             [("category_id", "1"); ("amount", "12.50");
              ("description", "Lunch"); ("expense_date", "2024-01-01");
              ("is_essential", "1")])
          Sample.fresh)
     = Redirect ep_expenses
  /\ map e_is_essential
       (tbl_expenses
          (out_store
             (add_expense
                (Sample.post Sample.student "/expenses/add"
                   [("category_id", "1"); ("amount", "12.50");
                    ("description", "Lunch"); ("expense_date", "2024-01-01");
                    ("is_essential", "1")])
                Sample.fresh)))
     = [0].
Proof. repeat split; vm_compute; reflexivity. Qed.

(* ================================================================== *)
(** * The constraints of the schema are kept *)
(* ================================================================== *)

Lemma max_rowid_ge (ids : list Z) (x : Z) :
  In x ids -> x <= fold_right Z.max 0 ids.
Proof.
  induction ids as [|y ids IH]; simpl; [tauto|].
  intros [->|H]; [lia|]. specialize (IH H). lia.
Qed.

Lemma new_rowid_above (ids : list Z) (seq x : Z) :
  In x ids -> x < new_rowid ids seq.
Proof.
  intros H. apply max_rowid_ge in H. unfold new_rowid. lia.
Qed.

Lemma new_rowid_above_seq (ids : list Z) (seq : Z) :
  seq < new_rowid ids seq.
Proof. unfold new_rowid. lia. Qed.

Lemma new_rowid_fresh {A : Type} (key : A -> Z) (l : list A) (seq : Z) :
  ~ In (new_rowid (map key l) seq) (map key l).
Proof.
  intros H. apply (new_rowid_above _ seq) in H. lia.
Qed.

Lemma NoDup_snoc {A : Type} (l : list A) (x : A) :
  NoDup l -> ~ In x l -> NoDup (l ++ [x]).
Proof.
  intros Hl Hx.
  apply (Permutation_NoDup (Permutation_cons_append l x)).
  now constructor.
Qed.

Lemma existsb_false_not_In {A B : Type} (key : A -> B) (eqb : B -> B -> bool)
    (l : list A) (k : B) :
  (forall a b, eqb a b = true <-> a = b) ->
  existsb (fun a => eqb (key a) k) l = false -> ~ In k (map key l).
Proof.
  intros Heq H Hin. apply in_map_iff in Hin as (a & <- & Ha).
  assert (existsb (fun a0 => eqb (key a0) (key a)) l = true).
  { apply existsb_exists. exists a. split; [exact Ha|]. now apply Heq. }
  congruence.
Qed.

Lemma existsb_false_all {A : Type} (f : A -> bool) (l : list A) :
  existsb f l = false -> forall x, In x l -> f x = false.
Proof.
  intros H x Hx. destruct (f x) eqn:E; [|reflexivity].
  assert (existsb f l = true) by (apply existsb_exists; eauto).
  congruence.
Qed.

Lemma rows_ok_transfer (st st' : Store) (rows : list Expense) :
  (forall uid, user_exists uid st = true -> user_exists uid st' = true) ->
  (forall cid, category_exists cid st = true ->
               category_exists cid st' = true) ->
  Forall (fun e => expense_row_ok (e_user_id e) (e_category_id e)
                     (e_amount e) st = true) rows ->
  Forall (fun e => expense_row_ok (e_user_id e) (e_category_id e)
                     (e_amount e) st' = true) rows.
Proof.
  intros Hu Hc. apply Forall_impl. intros e. unfold expense_row_ok.
  rewrite !andb_true_iff. intros [[[Hn Hp] Hue] Hce]. auto.
Qed.

Lemma insert_or_ignore_category_wf (name : string) (st : Store) :
  wf_store st -> wf_store (insert_or_ignore_category name st).
Proof.
  intros [H1 H2 H3 H4 H5 H6 H7 H8 H9 H10].
  pose (rid := new_rowid (map c_id (tbl_categories st)) (seq_categories st)).
  assert (Hseq : Forall (fun c => c_id c <= rid) (tbl_categories st)).
  { apply Forall_forall. intros c Hc.
    apply (in_map c_id) in Hc.
    apply (new_rowid_above _ (seq_categories st)) in Hc. unfold rid. lia. }
  constructor; simpl; try assumption.
  - destruct (existsb _ (tbl_categories st)); [assumption|].
    rewrite map_app. simpl. apply NoDup_snoc; [assumption|].
    apply new_rowid_fresh.
  - destruct (existsb _ (tbl_categories st)) eqn:E; [assumption|].
    rewrite map_app. simpl. apply NoDup_snoc; [assumption|].
    apply (existsb_false_not_In c_name String.eqb); [|exact E].
    apply String.eqb_eq.
  - eapply rows_ok_transfer; [| |exact H7]; [auto|].
    intros cid. unfold category_exists. simpl.
    destruct (existsb (fun c => c_name c =? name)%string (tbl_categories st));
      [auto|].
    apply existsb_app_keeps.
  - destruct (existsb _ (tbl_categories st)); [exact Hseq|].
    apply Forall_app. split; [exact Hseq|].
    constructor; [|constructor]. simpl. fold rid. lia.
Qed.

Lemma insert_or_ignore_user_wf (n p r : string) (st : Store) :
  r = "user" \/ r = "admin" ->
  wf_store st -> wf_store (insert_or_ignore_user n p r st).
Proof.
  intros Hr [H1 H2 H3 H4 H5 H6 H7 H8 H9 H10].
  pose (rid := new_rowid (map u_id (tbl_users st)) (seq_users st)).
  assert (Hseq : Forall (fun u => u_id u <= rid) (tbl_users st)).
  { apply Forall_forall. intros u Hu.
    apply (in_map u_id) in Hu.
    apply (new_rowid_above _ (seq_users st)) in Hu. unfold rid. lia. }
  constructor; simpl; try assumption.
  - destruct (existsb _ (tbl_users st)); [assumption|].
    rewrite map_app. simpl. apply NoDup_snoc; [assumption|].
    apply new_rowid_fresh.
  - destruct (existsb _ (tbl_users st)) eqn:E; [assumption|].
    rewrite map_app. simpl. apply NoDup_snoc; [assumption|].
    apply (existsb_false_not_In u_username String.eqb); [|exact E].
    apply String.eqb_eq.
  - destruct (existsb _ (tbl_users st)); [assumption|].
    apply Forall_app. split; [assumption|].
    constructor; [exact Hr|constructor].
  - eapply rows_ok_transfer; [| |exact H7]; [|auto].
    intros uid. unfold user_exists. simpl.
    destruct (existsb (fun u => u_username u =? n)%string (tbl_users st));
      [auto|].
    apply existsb_app_keeps.
  - destruct (existsb _ (tbl_users st)); [exact Hseq|].
    apply Forall_app. split; [exact Hseq|].
    constructor; [|constructor]. simpl. fold rid. lia.
Qed.

Lemma nodupb_NoDup {A : Type} (eqb : A -> A -> bool) (l : list A) :
  (forall a b, eqb a b = true <-> a = b) ->
  nodupb eqb l = true -> NoDup l.
Proof.
  intros Heq. induction l as [|x r IH]; simpl; [constructor|].
  rewrite andb_true_iff, negb_true_iff. intros [Hx Hr].
  constructor; [|now apply IH].
  intros Hin. pose proof (existsb_false_all _ _ Hx x Hin) as Hf.
  assert (eqb x x = true) by now apply Heq. congruence.
Qed.

Lemma wf_storeb_sound (st : Store) : wf_storeb st = true -> wf_store st.
Proof.
  unfold wf_storeb. rewrite !andb_true_iff.
  intros [[[[[[[[[H1 H2] H3] H4] H5] H6] H7] H8] H9] H10].
  constructor.
  - eapply nodupb_NoDup; [apply Z.eqb_eq|exact H1].
  - eapply nodupb_NoDup; [apply String.eqb_eq|exact H2].
  - apply Forall_forall. intros u Hu.
    rewrite forallb_forall in H3. specialize (H3 u Hu).
    apply orb_true_iff in H3 as [H|H]; apply String.eqb_eq in H; auto.
  - eapply nodupb_NoDup; [apply Z.eqb_eq|exact H4].
  - eapply nodupb_NoDup; [apply String.eqb_eq|exact H5].
  - eapply nodupb_NoDup; [apply Z.eqb_eq|exact H6].
  - apply Forall_forall. rewrite forallb_forall in H7. exact H7.
  - apply Forall_forall. intros u Hu.
    rewrite forallb_forall in H8. now apply Z.leb_le, H8.
  - apply Forall_forall. intros c Hc.
    rewrite forallb_forall in H9. now apply Z.leb_le, H9.
  - apply Forall_forall. intros e He.
    rewrite forallb_forall in H10. now apply Z.leb_le, H10.
Qed.


(** X1.  The bootstrap keeps the constraints of the schema: from a
    store that satisfies them -- the empty one of the first run does --
    [init_db] gives a store that satisfies them too, and that holds the
    default categories and accounts. *)
Theorem init_db_keeps_schema (st : Store) :
  wf_store st -> wf_store (init_db st) /\ seeded (init_db st) = true.
Proof.
  intros Hwf. split.
  - unfold init_db.
    apply insert_or_ignore_user_wf; [now right|].
    apply insert_or_ignore_user_wf; [now left|].
    revert st Hwf. generalize default_categories.
    induction l as [|c l IH]; intros st Hwf; simpl; [exact Hwf|].
    apply IH. now apply insert_or_ignore_category_wf.
  - destruct (init_db_appends st) as (_ & _ & _ & _ & _ & H). exact H.
Qed.

Lemma init_db_keeps_schema_witness :
  wf_store (init_db empty_store) /\ seeded (init_db empty_store) = true.
Proof.
  apply (init_db_keeps_schema empty_store).
  apply wf_storeb_sound. vm_compute. reflexivity.
Defined.

Lemma insert_expense_wf uid cid amt desc date ess st st' :
  wf_store st ->
  insert_expense uid cid amt desc date ess st = Ok st' -> wf_store st'.
Proof.
  intros [H1 H2 H3 H4 H5 H6 H7 H8 H9 H10].
  unfold insert_expense, bind_int.
  destruct (in_int64 cid); simpl; [|discriminate].
  destruct uid as [u|]; [|discriminate].
  destruct (in_int64 u); simpl; [|discriminate].
  destruct (expense_row_ok u cid amt st) eqn:Hok; [|discriminate].
  intros [= <-].
  pose (rid := new_rowid (map e_id (tbl_expenses st)) (seq_expenses st)).
  assert (Hseq : Forall (fun e => e_id e <= rid) (tbl_expenses st)).
  { apply Forall_forall. intros e He.
    apply (in_map e_id) in He.
    apply (new_rowid_above _ (seq_expenses st)) in He. unfold rid. lia. }
  constructor; simpl; try assumption.
  - rewrite map_app. simpl. apply NoDup_snoc; [assumption|].
    apply new_rowid_fresh.
  - apply Forall_app. split.
    + eapply rows_ok_transfer; [| |exact H7]; auto.
    + constructor; [|constructor]. exact Hok.
  - apply Forall_app. split; [exact Hseq|].
    constructor; [|constructor]. simpl. fold rid. lia.
Qed.

Lemma update_expense_wf cid amt desc date ess eid st st' :
  wf_store st ->
  update_expense cid amt desc date ess eid st = Ok st' -> wf_store st'.
Proof.
  intros [H1 H2 H3 H4 H5 H6 H7 H8 H9 H10].
  unfold update_expense, bind_int.
  destruct (in_int64 cid); simpl; [|discriminate].
  destruct (in_int64 eid); simpl; [|discriminate].
  destruct (existsb _ (tbl_expenses st)) eqn:Hex; [discriminate|].
  intros [= <-].
  set (upd := fun e => if e_id e =? eid
                       then set_expense_fields cid amt desc date ess e
                       else e).
  assert (Hid : forall e, e_id (upd e) = e_id e).
  { intros e. unfold upd. now destruct (e_id e =? eid). }
  assert (Hids : map e_id (map upd (tbl_expenses st))
                 = map e_id (tbl_expenses st)).
  { rewrite map_map. apply map_ext. exact Hid. }
  constructor; simpl; try assumption.
  - fold upd. now rewrite Hids.
  - fold upd. apply Forall_forall. intros e' He'.
    apply in_map_iff in He' as (e & <- & He).
    rewrite Forall_forall in H7. specialize (H7 e He).
    unfold upd. destruct (e_id e =? eid) eqn:Eid; [|exact H7].
    simpl.
    pose proof (existsb_false_all _ _ Hex e He) as Hf. simpl in Hf.
    rewrite Eid in Hf. simpl in Hf. now apply negb_false_iff in Hf.
  - fold upd. apply Forall_forall. intros e' He'.
    apply in_map_iff in He' as (e & <- & He).
    rewrite Hid. rewrite Forall_forall in H10. now apply H10.
Qed.

Lemma delete_expense_row_wf eid st st' :
  wf_store st -> delete_expense_row eid st = Ok st' -> wf_store st'.
Proof.
  intros [H1 H2 H3 H4 H5 H6 H7 H8 H9 H10].
  unfold delete_expense_row, bind_int.
  destruct (in_int64 eid); simpl; [|discriminate].
  intros [= <-].
  constructor; simpl; try assumption.
  - clear - H6. induction (tbl_expenses st) as [|e l IH]; simpl;
      [constructor|].
    inversion H6 as [|? ? Hn Hl]; subst.
    destruct (negb (e_id e =? eid)); simpl; [|now apply IH].
    constructor; [|now apply IH].
    intros Hin. apply Hn. apply in_map_iff in Hin as (e0 & E0 & Hin).
    apply filter_In in Hin as [Hin _]. rewrite <- E0. now apply in_map.
  - apply Forall_forall. intros e He. apply filter_In in He as [He _].
    rewrite Forall_forall in H7. now apply H7.
  - apply Forall_forall. intros e He. apply filter_In in He as [He _].
    rewrite Forall_forall in H10. now apply H10.
Qed.

(** X2.  Whatever the request, Add Expense leaves a store that satisfies
    the constraints of the schema, if it found one. *)
Theorem add_expense_keeps_schema (ctx : Ctx) (st : Store) :
  wf_store st -> wf_store (out_store (add_expense ctx st)).
Proof.
  intros Hwf. unfold add_expense, login_required.
  destruct (s_user_id (session ctx)); simpl; [|exact Hwf].
  unfold add_expense_view.
  destruct (method (request ctx)); simpl; [exact Hwf|].
  destruct (validate _ _ _ _); simpl; [|exact Hwf].
  destruct (int_param _) as [cid|x]; simpl; [|exact Hwf].
  destruct (float_param _) as [amt|x]; simpl; [|exact Hwf].
  destruct (insert_expense _ _ _ _ _ _ _) as [st'|x] eqn:Hins; simpl;
    [|exact Hwf].
  eapply insert_expense_wf; eassumption.
Qed.

Lemma add_expense_keeps_schema_witness :
  wf_store
    (out_store (add_expense
                  (Sample.post Sample.student "/expenses/add" Sample.lunch)
                  (init_db empty_store))).
Proof.
  apply (add_expense_keeps_schema
           (Sample.post Sample.student "/expenses/add" Sample.lunch)
           (init_db empty_store)).
  apply wf_storeb_sound. vm_compute. reflexivity.
Defined.

(** X3.  Whatever the request and the id, Edit Expense leaves a store
    that satisfies the constraints of the schema, if it found one. *)
Theorem edit_expense_keeps_schema (expense_id : Z) (ctx : Ctx) (st : Store) :
  wf_store st -> wf_store (out_store (edit_expense expense_id ctx st)).
Proof.
  intros Hwf. unfold edit_expense, login_required.
  destruct (s_user_id (session ctx)); simpl; [|exact Hwf].
  unfold edit_expense_view.
  destruct (select_expense expense_id st) as [[e|]|x]; simpl;
    try exact Hwf.
  destruct (not_permitted ctx (e_user_id e)); simpl; [exact Hwf|].
  destruct (method (request ctx)); simpl; [exact Hwf|].
  destruct (validate _ _ _ _); simpl; [|exact Hwf].
  destruct (int_param _) as [cid|x]; simpl; [|exact Hwf].
  destruct (float_param _) as [amt|x]; simpl; [|exact Hwf].
  destruct (update_expense _ _ _ _ _ _ _) as [st'|x] eqn:Hup; simpl;
    [|exact Hwf].
  eapply update_expense_wf; eassumption.
Qed.

Lemma edit_expense_keeps_schema_witness :
  wf_store
    (out_store (edit_expense 1
                  (Sample.post Sample.student "/expenses/1/edit" Sample.bus)
                  Sample.one_expense)).
Proof.
  apply (edit_expense_keeps_schema 1
           (Sample.post Sample.student "/expenses/1/edit" Sample.bus)
           Sample.one_expense).
  apply wf_storeb_sound. vm_compute. reflexivity.
Defined.

(** X4.  Whatever the request and the id, Delete Expense leaves a store
    that satisfies the constraints of the schema, if it found one. *)
Theorem delete_expense_keeps_schema
    (expense_id : Z) (ctx : Ctx) (st : Store) :
  wf_store st -> wf_store (out_store (delete_expense expense_id ctx st)).
Proof.
  intros Hwf. unfold delete_expense, login_required.
  destruct (s_user_id (session ctx)); simpl; [|exact Hwf].
  unfold delete_expense_view.
  destruct (select_expense expense_id st) as [[e|]|x]; simpl;
    try exact Hwf.
  destruct (not_permitted ctx (e_user_id e)); simpl; [exact Hwf|].
  destruct (delete_expense_row expense_id st) as [st'|x] eqn:Hdel; simpl;
    [|exact Hwf].
  eapply delete_expense_row_wf; eassumption.
Qed.

Lemma delete_expense_keeps_schema_witness :
  wf_store
    (out_store (delete_expense 1
                  (Sample.post Sample.student "/expenses/1/delete" [])
                  Sample.one_expense)).
Proof.
  apply (delete_expense_keeps_schema 1
           (Sample.post Sample.student "/expenses/1/delete" [])
           Sample.one_expense).
  apply wf_storeb_sound. vm_compute. reflexivity.
Defined.

(* ================================================================== *)
(** * Categories *)
(* ================================================================== *)

Lemma insert_category_ok (name : string) (st st' : Store) :
  insert_category name st = Ok st' ->
  existsb (fun c => c_name c =? name)%string (tbl_categories st) = false
  /\ tbl_categories st'
     = tbl_categories st ++
         [ {| c_id := new_rowid (map c_id (tbl_categories st))
                        (seq_categories st);
              c_name := name |} ]
  /\ tbl_users st' = tbl_users st
  /\ tbl_expenses st' = tbl_expenses st.
Proof.
  unfold insert_category.
  destruct (existsb _ (tbl_categories st)) eqn:E; [discriminate|].
  intros [= <-]. unfold insert_or_ignore_category. simpl.
  rewrite E. auto.
Qed.

(** X5.  Whatever the request, the categories view leaves a store that
    satisfies the constraints of the schema, if it found one; it never
    touches the users or the expenses. *)
Theorem categories_keeps_schema (ctx : Ctx) (st : Store) :
  wf_store st ->
  wf_store (out_store (categories ctx st))
  /\ tbl_users (out_store (categories ctx st)) = tbl_users st
  /\ tbl_expenses (out_store (categories ctx st)) = tbl_expenses st.
Proof.
  intros Hwf. unfold categories, login_required, admin_required.
  destruct (s_user_id (session ctx)); simpl; [|auto].
  destruct (role_is_admin _); simpl; [|auto].
  unfold categories_view.
  destruct (method (request ctx)); simpl; [auto|].
  destruct (Py.truthy _); simpl; [|auto].
  destruct (insert_category _ st) as [st'|x] eqn:Hins; simpl; [|auto].
  pose proof Hins as Hok. apply insert_category_ok in Hok as (_ & _ & Hu & He).
  split; [|auto].
  unfold insert_category in Hins.
  destruct (existsb _ (tbl_categories st)); [discriminate|].
  injection Hins as <-. now apply insert_or_ignore_category_wf.
Qed.

Lemma categories_keeps_schema_witness :
  wf_store
    (out_store (categories
                  (Sample.post Sample.admin "/categories" [("name", "Travel")])
                  Sample.fresh))
  /\ tbl_users
       (out_store (categories
                     (Sample.post Sample.admin "/categories"
                        [("name", "Travel")])
                     Sample.fresh))
     = tbl_users Sample.fresh
  /\ tbl_expenses
       (out_store (categories
                     (Sample.post Sample.admin "/categories"
                        [("name", "Travel")])
                     Sample.fresh))
     = tbl_expenses Sample.fresh.
Proof.
  apply (categories_keeps_schema
           (Sample.post Sample.admin "/categories" [("name", "Travel")])
           Sample.fresh).
  apply wf_storeb_sound. vm_compute. reflexivity.
Defined.

(** X6.  A POST to the categories view from a logged-in administrator
    with a name that is not blank and not yet in the table appends one
    category: its name is the trimmed name, its id is larger than every
    id in the table and than the counter; the answer is the redirect to
    the categories page with "Category added.". *)
Theorem category_added (ctx : Ctx) (st : Store) (uid : Z) :
  current_user_id ctx = Some uid ->
  is_admin ctx = true ->
  method (request ctx) = POST ->
  let name := Py.strip (get_or (form (request ctx)) "name" "") in
  name <> "" ->
  ~ In name (map c_name (tbl_categories st)) ->
  exists c,
    categories ctx st
    = {| out_store := out_store (categories ctx st);
         out_flashes := [("Category added.", "success")];
         out_result := Redirect ep_categories |}
    /\ tbl_categories (out_store (categories ctx st))
       = tbl_categories st ++ [c]
    /\ c_name c = name
    /\ Forall (fun c' => c_id c' < c_id c) (tbl_categories st)
    /\ seq_categories st < c_id c.
Proof.
  intros Hu Ha Hm name Hne Hnew.
  unfold categories, login_required, admin_required.
  unfold current_user_id in Hu. unfold is_admin in Ha. rewrite Hu, Ha. simpl.
  unfold categories_view. rewrite Hm. fold name.
  assert (Ht : Py.truthy name = true).
  { destruct name; [congruence|reflexivity]. }
  rewrite Ht. simpl.
  assert (Hex : existsb (fun c => c_name c =? name)%string (tbl_categories st)
                = false).
  { destruct (existsb _ (tbl_categories st)) eqn:E; [|reflexivity].
    exfalso. apply Hnew. apply existsb_exists in E as (c & Hc & E).
    apply String.eqb_eq in E. rewrite <- E. now apply in_map. }
  unfold insert_category. rewrite Hex. simpl. rewrite Hex.
  eexists. split; [reflexivity|]. split; [reflexivity|]. simpl.
  split; [reflexivity|]. split; [|apply new_rowid_above_seq].
  apply Forall_forall. intros c Hc. apply new_rowid_above.
  now apply in_map.
Qed.

Lemma category_added_witness :
  exists c,
    categories (Sample.post Sample.admin "/categories" [("name", " Travel ")])
      Sample.fresh
    = {| out_store :=
           out_store (categories
                        (Sample.post Sample.admin "/categories"
                           [("name", " Travel ")])
                        Sample.fresh);
         out_flashes := [("Category added.", "success")];
         out_result := Redirect ep_categories |}
    /\ tbl_categories
         (out_store (categories
                       (Sample.post Sample.admin "/categories"
                          [("name", " Travel ")])
                       Sample.fresh))
       = tbl_categories Sample.fresh ++ [c]
    /\ c_name c = "Travel"
    /\ Forall (fun c' => c_id c' < c_id c) (tbl_categories Sample.fresh)
    /\ seq_categories Sample.fresh < c_id c.
Proof.
  apply (category_added
           (Sample.post Sample.admin "/categories" [("name", " Travel ")])
           Sample.fresh 2).
  - reflexivity.
  - reflexivity.
  - reflexivity.
  - vm_compute. discriminate.
  - vm_compute. intuition discriminate.
Defined.

(** X7.  A POST to the categories view from a logged-in administrator
    with a name that is already in the table changes nothing in the
    store and answers "That category already exists."; the conflict does
    not escape the view as an error. *)
Theorem category_duplicate_reported (ctx : Ctx) (st : Store) (uid : Z) :
  current_user_id ctx = Some uid ->
  is_admin ctx = true ->
  method (request ctx) = POST ->
  In (Py.strip (get_or (form (request ctx)) "name" ""))
     (map c_name (tbl_categories st)) ->
  Py.strip (get_or (form (request ctx)) "name" "") <> "" ->
  categories ctx st
  = {| out_store := st;
       out_flashes := [("That category already exists.", "warning")];
       out_result := Redirect ep_categories |}.
Proof.
  intros Hu Ha Hm Hin Hne.
  unfold categories, login_required, admin_required.
  unfold current_user_id in Hu. unfold is_admin in Ha. rewrite Hu, Ha. simpl.
  unfold categories_view. rewrite Hm.
  set (name := Py.strip (get_or (form (request ctx)) "name" "")) in *.
  assert (Ht : Py.truthy name = true).
  { destruct name; [congruence|reflexivity]. }
  rewrite Ht. simpl.
  unfold insert_category.
  apply existsb_eqb_In in Hin.
  assert (Hex : existsb (fun c => c_name c =? name)%string (tbl_categories st)
                = true).
  { clear - Hin. induction (tbl_categories st) as [|c l IH]; simpl in *;
      [discriminate|].
    destruct (c_name c =? name)%string; [reflexivity|]. now apply IH. }
  now rewrite Hex.
Qed.

Lemma category_duplicate_reported_witness :
  categories (Sample.post Sample.admin "/categories" [("name", "Food")])
    Sample.fresh
  = {| out_store := Sample.fresh;
       out_flashes := [("That category already exists.", "warning")];
       out_result := Redirect ep_categories |}.
Proof.
  apply (category_duplicate_reported
           (Sample.post Sample.admin "/categories" [("name", "Food")])
           Sample.fresh 2).
  - reflexivity.
  - reflexivity.
  - reflexivity.
  - vm_compute. auto.
  - vm_compute. discriminate.
Defined.

(* ================================================================== *)
(** * Accounts *)
(* ================================================================== *)

Lemma truthy_true (s : string) : s <> "" -> Py.truthy s = true.
Proof. destruct s; [congruence|reflexivity]. Qed.

Lemma username_absent (n : string) (st : Store) :
  ~ In n (map u_username (tbl_users st)) ->
  existsb (fun u => u_username u =? n)%string (tbl_users st) = false.
Proof.
  intros Hn. destruct (existsb _ (tbl_users st)) eqn:E; [|reflexivity].
  exfalso. apply Hn. apply existsb_exists in E as (u & Hu & E).
  apply String.eqb_eq in E. rewrite <- E. now apply in_map.
Qed.

Lemma username_present (n : string) (st : Store) :
  In n (map u_username (tbl_users st)) ->
  existsb (fun u => u_username u =? n)%string (tbl_users st) = true.
Proof.
  intros Hn. apply in_map_iff in Hn as (u & <- & Hu).
  apply existsb_exists. exists u. now rewrite String.eqb_refl.
Qed.

Lemma insert_user_wf (n p r : string) (st st' : Store) :
  wf_store st -> insert_user n p r st = Ok st' -> wf_store st'.
Proof.
  intros Hwf. unfold insert_user.
  destruct (existsb _ (tbl_users st)); [discriminate|].
  destruct (String.eqb_spec r "user") as [->|H1]; simpl.
  - intros [= <-]. apply insert_or_ignore_user_wf; auto.
  - destruct (String.eqb_spec r "admin") as [->|H2]; simpl; [|discriminate].
    intros [= <-]. apply insert_or_ignore_user_wf; auto.
Qed.

(** A successful login, as a fact about the table: with user names
    unique, the row found is the account of that name. *)
Lemma select_user_found (u : User) (st : Store) :
  NoDup (map u_username (tbl_users st)) ->
  In u (tbl_users st) ->
  select_user (u_username u) (u_password u) st = Some u.
Proof.
  unfold select_user. induction (tbl_users st) as [|v l IH]; simpl;
    [tauto|].
  intros Hnd [->|Hin].
  - now rewrite !String.eqb_refl.
  - inversion Hnd as [|? ? Hv Hl]; subst.
    destruct (String.eqb_spec (u_username v) (u_username u)) as [E|_]; simpl.
    + exfalso. apply Hv. rewrite E. now apply in_map.
    + now apply IH.
Qed.

Lemma select_user_none (n p : string) (st : Store) :
  (forall u, In u (tbl_users st) -> u_username u = n -> u_password u <> p) ->
  select_user n p st = None.
Proof.
  intros H. unfold select_user.
  destruct (find _ (tbl_users st)) as [u|] eqn:F; [|reflexivity].
  apply find_some in F as [Hu E]. apply andb_true_iff in E as [E1 E2].
  apply String.eqb_eq in E1, E2. exfalso. exact (H u Hu E1 E2).
Qed.

(** X8.  Register keeps the constraints of the schema, never touches the
    categories, the expenses or the session, and never alters or removes
    an account: the table of users afterwards starts with the table as it
    was, and any row added has the role "user". *)
Theorem register_keeps_accounts (ctx : Ctx) (st : Store) :
  wf_store st ->
  wf_store (auth_store (register ctx st))
  /\ auth_session (register ctx st) = session ctx
  /\ tbl_categories (auth_store (register ctx st)) = tbl_categories st
  /\ tbl_expenses (auth_store (register ctx st)) = tbl_expenses st
  /\ exists new,
       tbl_users (auth_store (register ctx st)) = tbl_users st ++ new
       /\ Forall (fun u => u_role u = "user") new.
Proof.
  intros Hwf. unfold register.
  assert (Hsame : forall (s : Store), s = st ->
            exists new, tbl_users s = tbl_users st ++ new
                        /\ Forall (fun u => u_role u = "user") new).
  { intros s ->. exists []. now rewrite app_nil_r. }
  destruct (method (request ctx)); simpl; [auto 6|].
  destruct (_ || _); simpl; [auto 6|].
  destruct (insert_user _ _ "user" st) as [st'|x] eqn:Hins; simpl;
    [|auto 6].
  split; [eapply insert_user_wf; eassumption|].
  unfold insert_user in Hins.
  destruct (existsb _ (tbl_users st)) eqn:E; [discriminate|].
  simpl in Hins. injection Hins as <-.
  unfold insert_or_ignore_user. simpl. rewrite E.
  repeat split. eexists. split; [reflexivity|]. now repeat constructor.
Qed.

Lemma register_keeps_accounts_witness :
  wf_store
    (auth_store (register
                   (Sample.post cleared "/register"
                      [("username", "ann"); ("password", "secret")])
                   Sample.fresh))
  /\ auth_session (register
                     (Sample.post cleared "/register"
                        [("username", "ann"); ("password", "secret")])
                     Sample.fresh)
     = cleared.
Proof.
  destruct (register_keeps_accounts
              (Sample.post cleared "/register"
                 [("username", "ann"); ("password", "secret")])
              Sample.fresh)
    as (H1 & H2 & _).
  - apply wf_storeb_sound. vm_compute. reflexivity.
  - split; [exact H1 | exact H2].
Defined.

(** X9.  A registration under a user name that is already taken changes
    nothing: the store is returned as it was, so the account of that name
    keeps its password and its role, and "Username already exists." is
    flashed on the registration page. *)
Theorem register_taken_name (ctx : Ctx) (st : Store) :
  method (request ctx) = POST ->
  In (Py.strip (get_or (form (request ctx)) "username" ""))
     (map u_username (tbl_users st)) ->
  Py.strip (get_or (form (request ctx)) "username" "") <> "" ->
  Py.strip (get_or (form (request ctx)) "password" "") <> "" ->
  register ctx st
  = {| auth_store := st; auth_session := session ctx;
       auth_flashes := [("Username already exists.", "danger")];
       auth_result := AuthRender register_html |}.
Proof.
  intros Hm Hin Hn Hp. unfold register. rewrite Hm.
  rewrite (truthy_true _ Hn), (truthy_true _ Hp). simpl.
  unfold insert_user. now rewrite (username_present _ _ Hin).
Qed.

Lemma register_taken_name_witness :
  register
    (Sample.post cleared "/register"
       [("username", "admin"); ("password", "mine")])
    Sample.fresh
  = {| auth_store := Sample.fresh; auth_session := cleared;
       auth_flashes := [("Username already exists.", "danger")];
       auth_result := AuthRender register_html |}.
Proof.
  apply (register_taken_name
           (Sample.post cleared "/register"
              [("username", "admin"); ("password", "mine")])
           Sample.fresh).
  - reflexivity.
  - vm_compute. auto.
  - vm_compute. discriminate.
  - vm_compute. discriminate.
Defined.

(** What a registration with a free name and a password stores. *)
Lemma register_created (ctx : Ctx) (st : Store) :
  method (request ctx) = POST ->
  let n := Py.strip (get_or (form (request ctx)) "username" "") in
  let p := Py.strip (get_or (form (request ctx)) "password" "") in
  n <> "" -> p <> "" -> ~ In n (map u_username (tbl_users st)) ->
  register ctx st
  = {| auth_store := insert_or_ignore_user n p "user" st;
       auth_session := session ctx;
       auth_flashes :=
         [("Account created successfully. Please log in.", "success")];
       auth_result := AuthRedirect to_login |}
  /\ tbl_users (insert_or_ignore_user n p "user" st)
     = tbl_users st ++
         [ {| u_id := new_rowid (map u_id (tbl_users st)) (seq_users st);
              u_username := n; u_password := p; u_role := "user" |} ].
Proof.
  intros Hm n p Hn Hp Hfree. unfold register. rewrite Hm. fold n p.
  rewrite (truthy_true _ Hn), (truthy_true _ Hp). simpl.
  unfold insert_user. rewrite (username_absent _ _ Hfree). simpl.
  split; reflexivity.
Qed.

Lemma login_as (u : User) (ctx : Ctx) (st : Store) :
  NoDup (map u_username (tbl_users st)) ->
  In u (tbl_users st) ->
  method (request ctx) = POST ->
  Py.strip (get_or (form (request ctx)) "username" "") = u_username u ->
  get_or (form (request ctx)) "password" "" = u_password u ->
  u_username u <> "" -> u_password u <> "" ->
  auth_store (login ctx st) = st
  /\ auth_session (login ctx st)
     = {| s_user_id := Some (u_id u); s_username := Some (u_username u);
          s_role := Some (u_role u) |}
  /\ auth_result (login ctx st)
     = AuthRedirect (after_login (multi_get (args (request ctx)) "next")).
Proof.
  intros Hnd Hin Hm Hn Hp Hne Hpe. unfold login. rewrite Hm, Hn, Hp.
  rewrite (truthy_true _ Hne), (truthy_true _ Hpe). simpl.
  rewrite (select_user_found u st Hnd Hin). simpl. auto.
Qed.

Lemma login_refused (ctx : Ctx) (st : Store) :
  method (request ctx) = POST ->
  (forall u, In u (tbl_users st) ->
     u_username u = Py.strip (get_or (form (request ctx)) "username" "") ->
     u_password u <> get_or (form (request ctx)) "password" "") ->
  auth_store (login ctx st) = st
  /\ auth_session (login ctx st) = session ctx
  /\ auth_result (login ctx st)
     = AuthRender
         (login_html
            (Some (Py.strip (get_or (form (request ctx)) "username" "")))).
Proof.
  intros Hm Hno. unfold login. rewrite Hm.
  destruct (_ || _); simpl; [auto|].
  rewrite (select_user_none _ _ st Hno). simpl. auto.
Qed.

(** X10.  With user names unique, a login POST whose trimmed user name
    and whose password, as sent, are those of an account, neither empty,
    puts that account's id, name and stored role in the session, leaves
    the store alone, and redirects to the [next] address of the query
    string when there is a non-empty one, else to the listing. *)
Theorem login_opens_session (u : User) (ctx : Ctx) (st : Store) :
  wf_store st ->
  In u (tbl_users st) ->
  method (request ctx) = POST ->
  Py.strip (get_or (form (request ctx)) "username" "") = u_username u ->
  get_or (form (request ctx)) "password" "" = u_password u ->
  u_username u <> "" -> u_password u <> "" ->
  auth_store (login ctx st) = st
  /\ auth_session (login ctx st)
     = {| s_user_id := Some (u_id u); s_username := Some (u_username u);
          s_role := Some (u_role u) |}
  /\ auth_result (login ctx st)
     = AuthRedirect (after_login (multi_get (args (request ctx)) "next"))
  /\ (is_admin (with_session (auth_session (login ctx st)) ctx) = true
      <-> u_role u = "admin").
Proof.
  intros Hwf Hin Hm Hn Hp Hne Hpe.
  destruct (login_as u ctx st (wf_usernames st Hwf) Hin Hm Hn Hp Hne Hpe)
    as (H1 & H2 & H3).
  repeat split; try assumption; rewrite H2; unfold is_admin; simpl.
  - apply String.eqb_eq.
  - intros ->. reflexivity.
Qed.

Lemma login_opens_session_witness :
  auth_session
    (login (Sample.post cleared "/login"
              [("username", " admin "); ("password", "admin123")])
       Sample.fresh)
  = Sample.admin.
Proof.
  destruct (login_opens_session
              {| u_id := 2; u_username := "admin"; u_password := "admin123";
                 u_role := "admin" |}
              (Sample.post cleared "/login"
                 [("username", " admin "); ("password", "admin123")])
              Sample.fresh)
    as (_ & H & _).
  - apply wf_storeb_sound. vm_compute. reflexivity.
  - vm_compute. auto.
  - reflexivity.
  - vm_compute. reflexivity.
  - reflexivity.
  - simpl. discriminate.
  - simpl. discriminate.
  - exact H.
Defined.

(** X11.  A login POST for which no account has both the trimmed user
    name and the password as sent -- a wrong password, an unknown name, a
    blank field -- leaves the session and the store as they were and
    shows the login page again with the name that was typed. *)
Theorem login_refused_keeps_session (ctx : Ctx) (st : Store) :
  method (request ctx) = POST ->
  (forall u, In u (tbl_users st) ->
     u_username u = Py.strip (get_or (form (request ctx)) "username" "") ->
     u_password u <> get_or (form (request ctx)) "password" "") ->
  auth_store (login ctx st) = st
  /\ auth_session (login ctx st) = session ctx
  /\ auth_result (login ctx st)
     = AuthRender
         (login_html
            (Some (Py.strip (get_or (form (request ctx)) "username" "")))).
Proof.
  intros Hm Hno. unfold login. rewrite Hm.
  destruct (_ || _); simpl; [auto|].
  rewrite (select_user_none _ _ st Hno). simpl. auto.
Qed.

Lemma login_refused_keeps_session_witness :
  auth_session
    (login (Sample.post Sample.student "/login"
              [("username", "admin"); ("password", "guess")])
       Sample.fresh)
  = Sample.student.
Proof.
  destruct (login_refused_keeps_session
              (Sample.post Sample.student "/login"
                 [("username", "admin"); ("password", "guess")])
              Sample.fresh)
    as (_ & H & _).
  - reflexivity.
  - vm_compute. intros u [<-|[<-|[]]]; simpl; intros; discriminate.
  - exact H.
Defined.

(** X12.  Register, then log in.  After a registration with a free user
    name, a login with a name that trims to the registered one and with
    the trimmed password opens a session for the new account: its id is
    the one of the row just stored, its role is "user", and the session
    is not an administrator's. *)
Theorem register_then_login
    (rctx : Ctx) (st : Store) (s : Session) (uname : string) (a : MultiDict) :
  wf_store st ->
  method (request rctx) = POST ->
  let n := Py.strip (get_or (form (request rctx)) "username" "") in
  let p := Py.strip (get_or (form (request rctx)) "password" "") in
  n <> "" -> p <> "" -> ~ In n (map u_username (tbl_users st)) ->
  Py.strip uname = n ->
  let st' := auth_store (register rctx st) in
  let lctx := login_request s uname p a in
  tbl_users st'
  = tbl_users st ++
      [ {| u_id := new_rowid (map u_id (tbl_users st)) (seq_users st);
           u_username := n; u_password := p; u_role := "user" |} ]
  /\ auth_session (login lctx st')
     = {| s_user_id := Some (new_rowid (map u_id (tbl_users st))
                               (seq_users st));
          s_username := Some n; s_role := Some "user" |}
  /\ is_admin (with_session (auth_session (login lctx st')) lctx) = false.
Proof.
  intros Hwf Hm n p Hn Hp Hfree Hun st' lctx.
  destruct (register_created rctx st Hm Hn Hp Hfree) as [Hreg Husers].
  fold n p in Hreg, Husers.
  assert (Hst' : st' = insert_or_ignore_user n p "user" st)
    by (unfold st'; now rewrite Hreg).
  rewrite Hst'. split; [exact Husers|].
  set (u := {| u_id := new_rowid (map u_id (tbl_users st)) (seq_users st);
               u_username := n; u_password := p; u_role := "user" |}) in *.
  assert (Hwf' : wf_store (insert_or_ignore_user n p "user" st))
    by (apply insert_or_ignore_user_wf; auto).
  destruct (login_as u lctx (insert_or_ignore_user n p "user" st))
    as (_ & Hs & _); try reflexivity; try assumption.
  - apply Hwf'.
  - rewrite Husers. apply in_app_iff. right. now left.
  - split; [exact Hs|]. now rewrite Hs.
Qed.

Lemma register_then_login_witness :
  auth_session
    (login (login_request cleared "ann " "secret" [])
       (auth_store (register
                      (Sample.post cleared "/register"
                         [("username", " ann"); ("password", " secret ")])
                      Sample.fresh)))
  = {| s_user_id := Some 3; s_username := Some "ann";
       s_role := Some "user" |}.
Proof.
  destruct (register_then_login
              (Sample.post cleared "/register"
                 [("username", " ann"); ("password", " secret ")])
              Sample.fresh cleared "ann " [])
    as (_ & H & _).
  - apply wf_storeb_sound. vm_compute. reflexivity.
  - reflexivity.
  - vm_compute. discriminate.
  - vm_compute. discriminate.
  - vm_compute. intuition discriminate.
  - vm_compute. reflexivity.
  - exact H.
Defined.

(** X13.  Register trims the password, login does not.  After a
    registration whose password field has white space at an end, a login
    that sends that very field again is refused: the session is left as
    it was and the login page is shown again. *)
Theorem password_spaces_are_lost
    (rctx : Ctx) (st : Store) (s : Session) (uname : string) (a : MultiDict) :
  wf_store st ->
  method (request rctx) = POST ->
  let n := Py.strip (get_or (form (request rctx)) "username" "") in
  let raw := get_or (form (request rctx)) "password" "" in
  n <> "" -> Py.strip raw <> "" -> ~ In n (map u_username (tbl_users st)) ->
  Py.strip uname = n ->
  Py.strip raw <> raw ->
  let st' := auth_store (register rctx st) in
  let lctx := login_request s uname raw a in
  auth_session (login lctx st') = s
  /\ auth_result (login lctx st') = AuthRender (login_html (Some n)).
Proof.
  intros Hwf Hm n raw Hn Hp Hfree Hun Hraw st' lctx.
  destruct (register_created rctx st Hm Hn Hp Hfree) as [Hreg Husers].
  fold n raw in Hreg, Husers.
  assert (Hst' : st' = insert_or_ignore_user n (Py.strip raw) "user" st)
    by (unfold st'; now rewrite Hreg).
  rewrite Hst'.
  assert (Hgu : get_or (form (request lctx)) "username" "" = uname)
    by reflexivity.
  assert (Hgp : get_or (form (request lctx)) "password" "" = raw)
    by reflexivity.
  destruct (login_refused lctx (insert_or_ignore_user n (Py.strip raw) "user" st))
    as (_ & Hs & Hr).
  - reflexivity.
  - intros u Hu Hname. rewrite Hgu, Hun in Hname. rewrite Hgp.
    rewrite Husers in Hu. apply in_app_iff in Hu as [Hu|[<-|[]]].
    + exfalso. apply Hfree. rewrite <- Hname. now apply in_map.
    + exact Hraw.
  - split; [exact Hs|]. rewrite Hr, Hgu, Hun. reflexivity.
Qed.

Lemma password_spaces_are_lost_witness :
  auth_session
    (login (login_request cleared "ann" " secret " [])
       (auth_store (register
                      (Sample.post cleared "/register"
                         [("username", "ann"); ("password", " secret ")])
                      Sample.fresh)))
  = cleared
  /\ auth_result
       (login (login_request cleared "ann" " secret " [])
          (auth_store (register
                         (Sample.post cleared "/register"
                            [("username", "ann"); ("password", " secret ")])
                         Sample.fresh)))
     = AuthRender (login_html (Some "ann")).
Proof.
  apply (password_spaces_are_lost
           (Sample.post cleared "/register"
              [("username", "ann"); ("password", " secret ")])
           Sample.fresh cleared "ann" []).
  - apply wf_storeb_sound. vm_compute. reflexivity.
  - reflexivity.
  - vm_compute. discriminate.
  - vm_compute. discriminate.
  - vm_compute. intuition discriminate.
  - vm_compute. reflexivity.
  - vm_compute. discriminate.
Defined.

(** X14.  Logout clears the session whatever it held: the session it
    leaves has no user id, no user name and no role.  The store is left
    alone and the answer is the redirect to the index page with
    "You have been logged out.".  The same client's next request to the
    listing, to add, edit, delete or to the categories is answered by the
    redirect to the login page carrying the path asked for, and changes
    nothing. *)
Theorem logout_closes_the_views
    (ctx ctx' : Ctx) (st : Store) (expense_id : Z) :
  session ctx' = auth_session (logout ctx st) ->
  let closed :=
    {| out_store := st;
       out_flashes := [("Please log in to continue.", "warning")];
       out_result := Redirect (ep_login (path (request ctx'))) |} in
  logout ctx st
  = {| auth_store := st;
       auth_session :=
         {| s_user_id := None; s_username := None; s_role := None |};
       auth_flashes := [("You have been logged out.", "info")];
       auth_result := AuthRedirect (to_endpoint ep_index) |}
  /\ session ctx'
     = {| s_user_id := None; s_username := None; s_role := None |}
  /\ is_admin ctx' = false
  /\ expenses ctx' st = closed
  /\ add_expense ctx' st = closed
  /\ edit_expense expense_id ctx' st = closed
  /\ delete_expense expense_id ctx' st = closed
  /\ categories ctx' st = closed.
Proof.
  intros Hs closed. simpl in Hs.
  split; [reflexivity|]. split; [exact Hs|].
  unfold is_admin, expenses, add_expense, edit_expense, delete_expense,
    categories, login_required.
  rewrite Hs. simpl. repeat split; reflexivity.
Qed.

Lemma logout_closes_the_views_witness :
  auth_session (logout (Sample.post Sample.admin "/logout" [])
                  Sample.one_expense)
  = {| s_user_id := None; s_username := None; s_role := None |}
  /\ delete_expense 1
       (with_session
          (auth_session (logout (Sample.post Sample.admin "/logout" [])
                           Sample.one_expense))
          (Sample.post Sample.admin "/expenses/1/delete" []))
       Sample.one_expense
     = {| out_store := Sample.one_expense;
          out_flashes := [("Please log in to continue.", "warning")];
          out_result := Redirect (ep_login "/expenses/1/delete") |}.
Proof.
  destruct (logout_closes_the_views
              (Sample.post Sample.admin "/logout" [])
              (with_session
                 (auth_session (logout (Sample.post Sample.admin "/logout" [])
                                  Sample.one_expense))
                 (Sample.post Sample.admin "/expenses/1/delete" []))
              Sample.one_expense 1)
    as (H0 & _ & _ & _ & _ & _ & H & _).
  - reflexivity.
  - split; [now rewrite H0 | exact H].
Defined.

(* ================================================================== *)
(** * More on delete, edit and add *)
(* ================================================================== *)

Lemma select_expense_in_range (eid : Z) (st : Store) (r : option Expense) :
  select_expense eid st = Ok r ->
  in_int64 eid = true /\ r = find (fun e => e_id e =? eid) (tbl_expenses st).
Proof.
  unfold select_expense, bind_int.
  destruct (in_int64 eid); simpl; [|discriminate].
  intros [= <-]. auto.
Qed.

Lemma find_after_delete (eid : Z) (l : list Expense) :
  find (fun e => e_id e =? eid) (filter (fun e => negb (e_id e =? eid)) l)
  = None.
Proof.
  induction l as [|e l IH]; simpl; [reflexivity|].
  destruct (e_id e =? eid) eqn:E; simpl; [exact IH|].
  now rewrite E.
Qed.

(** X15.  Delete by the owner or by an administrator removes the rows
    with that id and nothing else: the other expenses stay, in their
    order, and so do the users and categories.  Looking the id up
    afterwards finds nothing, and deleting it once more answers
    "Expense not found." without touching the store. *)
Theorem delete_removes_the_row
    (expense_id uid : Z) (e : Expense) (ctx : Ctx) (st : Store) :
  current_user_id ctx = Some uid ->
  select_expense expense_id st = Ok (Some e) ->
  is_admin ctx = true \/ e_user_id e = uid ->
  let st' := out_store (delete_expense expense_id ctx st) in
  delete_expense expense_id ctx st
  = {| out_store := st';
       out_flashes := [("Expense deleted.", "info")];
       out_result := Redirect ep_expenses |}
  /\ tbl_expenses st'
     = filter (fun x => negb (e_id x =? expense_id)) (tbl_expenses st)
  /\ tbl_users st' = tbl_users st
  /\ tbl_categories st' = tbl_categories st
  /\ select_expense expense_id st' = Ok None
  /\ delete_expense expense_id ctx st'
     = {| out_store := st';
          out_flashes := [("Expense not found.", "danger")];
          out_result := Redirect ep_expenses |}.
Proof.
  intros Hu Hsel Hperm st'.
  destruct (select_expense_in_range _ _ _ Hsel) as [Hrange _].
  assert (Hnp : not_permitted ctx (e_user_id e) = false).
  { unfold not_permitted. rewrite Hu.
    destruct Hperm as [->| ->]; simpl; [reflexivity|].
    rewrite Z.eqb_refl. apply andb_false_r. }
  assert (Hdel : delete_expense expense_id ctx st
                 = {| out_store :=
                        {| tbl_users := tbl_users st;
                           tbl_categories := tbl_categories st;
                           tbl_expenses :=
                             filter (fun x => negb (e_id x =? expense_id))
                                    (tbl_expenses st);
                           seq_users := seq_users st;
                           seq_categories := seq_categories st;
                           seq_expenses := seq_expenses st |};
                      out_flashes := [("Expense deleted.", "info")];
                      out_result := Redirect ep_expenses |}).
  { unfold delete_expense, login_required.
    unfold current_user_id in Hu. rewrite Hu.
    unfold delete_expense_view. rewrite Hsel, Hnp.
    unfold delete_expense_row, bind_int. now rewrite Hrange. }
  assert (Hsel' : select_expense expense_id st' = Ok None).
  { unfold st'. rewrite Hdel. unfold select_expense, bind_int.
    rewrite Hrange. simpl. now rewrite find_after_delete. }
  split; [unfold st'; now rewrite Hdel|].
  split; [unfold st'; now rewrite Hdel|].
  split; [unfold st'; now rewrite Hdel|].
  split; [unfold st'; now rewrite Hdel|].
  split; [exact Hsel'|].
  unfold delete_expense, login_required.
  unfold current_user_id in Hu. rewrite Hu.
  unfold delete_expense_view. now rewrite Hsel'.
Qed.

Lemma delete_removes_the_row_witness :
  tbl_expenses
    (out_store (delete_expense 2
                  (Sample.post Sample.admin "/expenses/2/delete" [])
                  Sample.two_expenses))
  = filter (fun x => negb (e_id x =? 2)) (tbl_expenses Sample.two_expenses)
  /\ select_expense 2
       (out_store (delete_expense 2
                     (Sample.post Sample.admin "/expenses/2/delete" [])
                     Sample.two_expenses))
     = Ok None.
Proof.
  destruct (delete_removes_the_row 2 2
              {| e_id := 2; e_user_id := 2; e_category_id := 2;
                 e_amount := S754_finite false 6755399441055744 (-51);
                 e_description := "Bus"; e_expense_date := "2024-01-02";
                 e_is_essential := 1 |}
              (Sample.post Sample.admin "/expenses/2/delete" [])
              Sample.two_expenses)
    as (_ & H1 & _ & _ & H2 & _).
  - reflexivity.
  - vm_compute. reflexivity.
  - left. reflexivity.
  - split; [exact H1 | exact H2].
Defined.

(** X16.  For a logged-in session of any role, edit (GET or POST) and
    delete on an id that SQLite can hold and that no expense has answer
    "Expense not found." with the redirect to the listing and leave the
    store alone; the permission test is not reached. *)
Theorem missing_expense_not_found
    (expense_id uid : Z) (ctx : Ctx) (st : Store) :
  current_user_id ctx = Some uid ->
  in_int64 expense_id = true ->
  ~ In expense_id (map e_id (tbl_expenses st)) ->
  edit_expense expense_id ctx st
  = {| out_store := st;
       out_flashes := [("Expense not found.", "danger")];
       out_result := Redirect ep_expenses |}
  /\ delete_expense expense_id ctx st
     = {| out_store := st;
          out_flashes := [("Expense not found.", "danger")];
          out_result := Redirect ep_expenses |}.
Proof.
  intros Hu Hrange Hmiss.
  assert (Hsel : select_expense expense_id st = Ok None).
  { unfold select_expense, bind_int. rewrite Hrange. simpl.
    destruct (find _ (tbl_expenses st)) as [e|] eqn:F; [|reflexivity].
    apply find_some in F as [He E]. apply Z.eqb_eq in E.
    exfalso. apply Hmiss. rewrite <- E. now apply in_map. }
  unfold edit_expense, delete_expense, login_required.
  unfold current_user_id in Hu. rewrite Hu.
  unfold edit_expense_view, delete_expense_view. now rewrite Hsel.
Qed.

Lemma missing_expense_not_found_witness :
  edit_expense 7 (Sample.get Sample.student "/expenses/7/edit" [])
    Sample.two_expenses
  = {| out_store := Sample.two_expenses;
       out_flashes := [("Expense not found.", "danger")];
       out_result := Redirect ep_expenses |}
  /\ delete_expense 7 (Sample.get Sample.student "/expenses/7/edit" [])
       Sample.two_expenses
     = {| out_store := Sample.two_expenses;
          out_flashes := [("Expense not found.", "danger")];
          out_result := Redirect ep_expenses |}.
Proof.
  apply (missing_expense_not_found 7 1
           (Sample.get Sample.student "/expenses/7/edit" [])
           Sample.two_expenses).
  - reflexivity.
  - reflexivity.
  - vm_compute. intuition discriminate.
Defined.

(** X17.  An id in the address that is beyond SQLite's 64-bit integers
    makes edit and delete end in an OverflowError for a logged-in
    session: no notice is flashed and the store is left alone. *)
Theorem huge_expense_id_overflows
    (expense_id uid : Z) (ctx : Ctx) (st : Store) :
  current_user_id ctx = Some uid ->
  2 ^ 63 <= expense_id ->
  edit_expense expense_id ctx st = crash st OverflowError
  /\ delete_expense expense_id ctx st = crash st OverflowError.
Proof.
  intros Hu Hbig.
  assert (Hsel : select_expense expense_id st = Raise OverflowError).
  { unfold select_expense, bind_int, in_int64.
    destruct (Z.ltb_spec expense_id (2 ^ 63)); [lia|].
    now rewrite andb_false_r. }
  unfold edit_expense, delete_expense, login_required.
  unfold current_user_id in Hu. rewrite Hu.
  unfold edit_expense_view, delete_expense_view. now rewrite Hsel.
Qed.

Lemma huge_expense_id_overflows_witness :
  edit_expense 9223372036854775808
    (Sample.get Sample.student "/expenses/9223372036854775808/edit" [])
    Sample.fresh
  = crash Sample.fresh OverflowError
  /\ delete_expense 9223372036854775808
       (Sample.get Sample.student "/expenses/9223372036854775808/edit" [])
       Sample.fresh
     = crash Sample.fresh OverflowError.
Proof.
  apply (huge_expense_id_overflows 9223372036854775808 1
           (Sample.get Sample.student "/expenses/9223372036854775808/edit" [])
           Sample.fresh).
  - reflexivity.
  - vm_compute. discriminate.
Defined.

Lemma fle_zero_total (x : Py.float) :
  Py.fle x Py.fzero = false -> Py.is_nan x = false ->
  Py.fle Py.fzero x = true /\ positive_amount x.
Proof.
  unfold positive_amount.
  destruct x as [s|s| |s m e]; try destruct s; simpl; intros H1 H2;
    try discriminate; split; eauto.
Qed.

Lemma validate_passed (c a d e : string) :
  validate c a d e = [] ->
  Py.isdigit c = true
  /\ (exists x, Py.float_of_str a = Some x /\ Py.fle x Py.fzero = false)
  /\ d <> "" /\ e <> "".
Proof. apply validate_rules. Qed.

(** X18.  Add Expense ends in its success redirect exactly when the
    request is a POST from a logged-in session that passes the
    validation, [int] accepts the category id (digits it knows, at most
    4300 of them) with a value SQLite can hold that is the id of a
    category, the session's user id is the id of a user, and the amount
    is not a NaN.  (A NaN passes the validation
    and fails the NOT NULL constraint; an infinite amount is stored.) *)
Theorem add_expense_succeeds_iff (ctx : Ctx) (st : Store) :
  let f := form (request ctx) in
  let category_id := Py.strip (get_or f "category_id" "") in
  let amount := Py.strip (get_or f "amount" "") in
  let description := Py.strip (get_or f "description" "") in
  let expense_date := Py.strip (get_or f "expense_date" "") in
  out_result (add_expense ctx st) = Redirect ep_expenses <->
  method (request ctx) = POST
  /\ validate category_id amount description expense_date = []
  /\ exists uid cid amt,
       current_user_id ctx = Some uid
       /\ Py.int category_id = Some cid
       /\ Py.float_of_str amount = Some amt
       /\ in_int64 uid = true /\ user_exists uid st = true
       /\ in_int64 cid = true /\ category_exists cid st = true
       /\ Py.is_nan amt = false.
Proof.
  intros f category_id amount description expense_date. split.
  - intros Hok.
    destruct (add_expense_added ctx st Hok)
      as (cid & amt & Hm & Hv & Hc & Ha & Hins).
    fold f category_id amount description expense_date in Hv, Hc, Ha, Hins.
    split; [exact Hm|]. split; [exact Hv|].
    unfold insert_expense, bind_int in Hins.
    destruct (in_int64 cid) eqn:Rc; simpl in Hins; [|discriminate].
    destruct (current_user_id ctx) as [uid|]; [|discriminate].
    destruct (in_int64 uid) eqn:Ru; simpl in Hins; [|discriminate].
    destruct (expense_row_ok uid cid amt st) eqn:Hrow; [|discriminate].
    unfold expense_row_ok in Hrow. rewrite !andb_true_iff in Hrow.
    destruct Hrow as [[[Hn _] Hue] Hce]. apply negb_true_iff in Hn.
    exists uid, cid, amt. auto 10.
  - intros (Hm & Hv & uid & cid & amt & Hu & Hc & Ha & Ru & Hue & Rc & Hce & Hn).
    destruct (validate_passed _ _ _ _ Hv) as (_ & (x & Hx & Hle) & _).
    rewrite Ha in Hx. injection Hx as <-.
    destruct (fle_zero_total amt Hle Hn) as [Hge _].
    unfold add_expense, login_required.
    unfold current_user_id in Hu. rewrite Hu.
    unfold add_expense_view. rewrite Hm.
    fold f category_id amount description expense_date. rewrite Hv.
    unfold int_param, float_param. rewrite Hc, Ha. simpl.
    unfold insert_expense, bind_int, current_user_id.
    rewrite Rc, Hu. simpl. rewrite Ru. simpl.
    unfold expense_row_ok. rewrite Hn, Hge, Hue, Hce. reflexivity.
Qed.

Lemma listing_request_where (s : Session) :
  build_where (listing_request s)
  = Ok (if negb (role_is_admin (s_role s)) then [UserIdEq (s_user_id s)]
        else []).
Proof.
  unfold build_where, is_admin, current_user_id. simpl.
  now destruct (role_is_admin (s_role s)).
Qed.

(** X19.  After a successful add the store has one more expense.  It is
    owned by the session's user, its id is larger than every id in the
    table and than the counter, its amount is a positive number or the
    positive infinity, and its description and date are the trimmed
    fields.  Users and categories are unchanged.  The owner's next
    listing without filters shows it. *)
Theorem added_expense_is_listed (ctx : Ctx) (st : Store) :
  out_result (add_expense ctx st) = Redirect ep_expenses ->
  let f := form (request ctx) in
  let st' := out_store (add_expense ctx st) in
  exists e uid rows,
    current_user_id ctx = Some uid
    /\ tbl_expenses st' = tbl_expenses st ++ [e]
    /\ tbl_users st' = tbl_users st
    /\ tbl_categories st' = tbl_categories st
    /\ e_user_id e = uid
    /\ Forall (fun e' => e_id e' < e_id e) (tbl_expenses st)
    /\ seq_expenses st < e_id e
    /\ positive_amount (e_amount e)
    /\ e_description e = Py.strip (get_or f "description" "")
    /\ e_expense_date e = Py.strip (get_or f "expense_date" "")
    /\ listing_rows (listing_request (session ctx)) st' = Ok rows
    /\ exists r,
         In r rows /\ r_id r = e_id e /\ r_amount r = e_amount e
         /\ r_description r = e_description e
         /\ r_expense_date r = e_expense_date e
         /\ r_is_essential r = e_is_essential e.
Proof.
  intros Hok f st'.
  destruct (add_expense_added ctx st Hok)
    as (cid & amt & Hm & Hv & Hc & Ha & Hins).
  fold f st' in Hv, Hc, Ha, Hins.
  destruct (validate_passed _ _ _ _ Hv) as (_ & (x & Hx & Hle) & _).
  rewrite Ha in Hx. injection Hx as <-.
  unfold insert_expense, bind_int in Hins.
  destruct (in_int64 cid) eqn:Rc; simpl in Hins; [|discriminate].
  destruct (current_user_id ctx) as [uid|] eqn:Hu; [|discriminate].
  destruct (in_int64 uid) eqn:Ru; simpl in Hins; [|discriminate].
  destruct (expense_row_ok uid cid amt st) eqn:Hrow; [|discriminate].
  injection Hins as Hst'.
  unfold expense_row_ok in Hrow. rewrite !andb_true_iff in Hrow.
  destruct Hrow as [[[Hn _] Hue] Hce]. apply negb_true_iff in Hn.
  destruct (fle_zero_total amt Hle Hn) as [_ Hpos].
  set (e := {| e_id := new_rowid (map e_id (tbl_expenses st))
                         (seq_expenses st);
               e_user_id := uid; e_category_id := cid; e_amount := amt;
               e_description := Py.strip (get_or f "description" "");
               e_expense_date := Py.strip (get_or f "expense_date" "");
               e_is_essential := essential_flag f |}) in *.
  apply existsb_exists in Hue as (u & Hu_in & Hu_id).
  apply existsb_exists in Hce as (c & Hc_in & Hc_id).
  apply Z.eqb_eq in Hu_id, Hc_id.
  exists e, uid, (map select_columns
                    (listing_joined
                       (if negb (role_is_admin (s_role (session ctx)))
                        then [UserIdEq (Some uid)] else []) st')).
  rewrite <- Hst'. simpl.
  repeat (split; [reflexivity|]).
  split.
  { apply Forall_forall. intros e' He'. apply new_rowid_above.
    now apply in_map. }
  split; [apply new_rowid_above_seq|].
  split; [exact Hpos|].
  repeat (split; [reflexivity|]).
  split.
  - unfold listing_rows. rewrite listing_request_where.
    unfold current_user_id in Hu. rewrite Hu. simpl.
    unfold select_listing, select_listing_joined.
    destruct (negb (role_is_admin (s_role (session ctx)))); simpl;
      rewrite ?Ru; simpl; now rewrite Hst'.
  - exists (select_columns (e, c, u)). split; [|simpl; auto].
    apply in_map. apply listing_joined_In. split.
    + apply joined_In. simpl. repeat split; try assumption.
      apply in_app_iff. right. now left.
    + simpl. destruct (negb (role_is_admin (s_role (session ctx)))); simpl;
        [|reflexivity].
      now rewrite Z.eqb_refl.
Qed.

Lemma added_expense_is_listed_witness :
  exists e uid rows,
    current_user_id (Sample.post Sample.admin "/expenses/add" Sample.bus)
    = Some uid
    /\ tbl_expenses Sample.two_expenses = tbl_expenses Sample.one_expense ++ [e]
    /\ e_user_id e = uid
    /\ positive_amount (e_amount e)
    /\ listing_rows (listing_request Sample.admin) Sample.two_expenses
       = Ok rows
    /\ exists r, In r rows /\ r_id r = e_id e.
Proof.
  destruct (added_expense_is_listed
              (Sample.post Sample.admin "/expenses/add" Sample.bus)
              Sample.one_expense)
    as (e & uid & rows & H1 & H2 & _ & _ & H5 & _ & _ & H8 & _ & _ & H11
        & r & Hr & Hid & _).
  - vm_compute. reflexivity.
  - exists e, uid, rows. repeat split; try assumption.
    exists r. split; assumption.
Defined.

Lemma update_rows_positive cid amt desc date ess eid (l : list Expense) :
  positive_amount amt ->
  Forall (fun e => positive_amount (e_amount e)) l ->
  Forall (fun e => positive_amount (e_amount e))
    (map (fun e => if e_id e =? eid
                   then set_expense_fields cid amt desc date ess e else e) l).
Proof.
  intros Ha. induction 1 as [|e l He Hl IH]; simpl; constructor; auto.
  now destruct (e_id e =? eid).
Qed.

(** X20.  No view stores an amount that is zero, negative or a NaN: if
    every amount in the table is a positive number or the positive
    infinity, the same holds after Add Expense and after Edit Expense,
    whatever the request. *)
Theorem amounts_stay_positive (expense_id : Z) (ctx : Ctx) (st : Store) :
  Forall (fun e => positive_amount (e_amount e)) (tbl_expenses st) ->
  Forall (fun e => positive_amount (e_amount e))
         (tbl_expenses (out_store (add_expense ctx st)))
  /\ Forall (fun e => positive_amount (e_amount e))
            (tbl_expenses (out_store (edit_expense expense_id ctx st))).
Proof.
  intros Hall. split.
  - unfold add_expense, login_required.
    destruct (s_user_id (session ctx)) as [uid|] eqn:Hu; simpl; [|exact Hall].
    unfold add_expense_view.
    destruct (method (request ctx)); simpl; [exact Hall|].
    destruct (validate _ _ _ _) eqn:Hv; simpl; [|exact Hall].
    apply validate_passed in Hv as (_ & (x & Hx & Hle) & _).
    unfold int_param, float_param. rewrite Hx.
    destruct (Py.int _) as [cid|]; simpl; [|exact Hall].
    destruct (insert_expense _ _ _ _ _ _ _) as [st'|ex] eqn:Hins; simpl;
      [|exact Hall].
    unfold insert_expense, bind_int in Hins.
    destruct (in_int64 cid); simpl in Hins; [|discriminate].
    unfold current_user_id in Hins. rewrite Hu in Hins.
    destruct (in_int64 uid); simpl in Hins; [|discriminate].
    destruct (expense_row_ok uid cid x st) eqn:Hrow; [|discriminate].
    injection Hins as <-. simpl.
    apply Forall_app. split; [exact Hall|].
    constructor; [|constructor]. simpl.
    unfold expense_row_ok in Hrow. rewrite !andb_true_iff in Hrow.
    destruct Hrow as [[[Hn _] _] _]. apply negb_true_iff in Hn.
    now apply fle_zero_total.
  - unfold edit_expense, login_required.
    destruct (s_user_id (session ctx)); simpl; [|exact Hall].
    unfold edit_expense_view.
    destruct (select_expense expense_id st) as [[e|]|ex] eqn:Hsel; simpl;
      try exact Hall.
    destruct (not_permitted ctx (e_user_id e)); simpl; [exact Hall|].
    destruct (method (request ctx)); simpl; [exact Hall|].
    destruct (validate _ _ _ _) eqn:Hv; simpl; [|exact Hall].
    apply validate_passed in Hv as (_ & (x & Hx & Hle) & _).
    unfold int_param, float_param. rewrite Hx.
    destruct (Py.int _) as [cid|]; simpl; [|exact Hall].
    destruct (update_expense _ _ _ _ _ _ _) as [st'|ex] eqn:Hup; simpl;
      [|exact Hall].
    pose proof Hup as Hup'.
    apply update_expense_ok in Hup' as (_ & _ & ->).
    apply update_rows_positive; [|exact Hall].
    unfold update_expense, bind_int in Hup.
    destruct (in_int64 cid); simpl in Hup; [|discriminate].
    destruct (in_int64 expense_id) eqn:Hr; simpl in Hup; [|discriminate].
    destruct (existsb _ (tbl_expenses st)) eqn:Hex; [discriminate|].
    apply select_expense_in_range in Hsel as [_ Hfind].
    symmetry in Hfind. apply find_some in Hfind as [He Hid].
    pose proof (existsb_false_all _ _ Hex e He) as Hf. simpl in Hf.
    rewrite Hid in Hf. simpl in Hf. apply negb_false_iff in Hf.
    unfold expense_row_ok in Hf. rewrite !andb_true_iff in Hf.
    destruct Hf as [[[Hn _] _] _]. apply negb_true_iff in Hn.
    now apply fle_zero_total.
Qed.

Lemma amounts_stay_positive_witness :
  Forall (fun e => positive_amount (e_amount e))
         (tbl_expenses
            (out_store (add_expense
                          (Sample.post Sample.admin "/expenses/add" Sample.bus)
                          Sample.one_expense)))
  /\ Forall (fun e => positive_amount (e_amount e))
            (tbl_expenses
               (out_store (edit_expense 1
                             (Sample.post Sample.admin "/expenses/add"
                                Sample.bus)
                             Sample.one_expense))).
Proof.
  apply (amounts_stay_positive 1
           (Sample.post Sample.admin "/expenses/add" Sample.bus)
           Sample.one_expense).
  vm_compute. constructor; [|constructor].
  right. eexists. eexists. reflexivity.
Defined.

(* ================================================================== *)
(** * More on the listing *)
(* ================================================================== *)

Lemma flat_map_no_match {A B : Type} (key : A -> Z) (g : A -> list B)
    (l : list A) (k : Z) :
  ~ In k (map key l) ->
  flat_map (fun y => if key y =? k then g y else []) l = [].
Proof.
  induction l as [|y l IH]; simpl; [reflexivity|].
  intros Hk. destruct (Z.eqb_spec (key y) k) as [E|_]; [tauto|].
  apply IH. tauto.
Qed.

Lemma flat_map_one_match {A B : Type} (key : A -> Z) (g : A -> list B)
    (l : list A) (x : A) :
  NoDup (map key l) -> In x l ->
  flat_map (fun y => if key y =? key x then g y else []) l = g x.
Proof.
  induction l as [|y l IH]; simpl; [tauto|].
  intros Hnd Hin. inversion Hnd as [|? ? Hy Hl]; subst.
  destruct Hin as [->|Hin].
  - rewrite Z.eqb_refl, flat_map_no_match by assumption.
    apply app_nil_r.
  - destruct (Z.eqb_spec (key y) (key x)) as [E|_].
    + exfalso. apply Hy. rewrite E. now apply in_map.
    + now apply IH.
Qed.

(** With the constraints of the schema every expense joins with exactly
    one category and one user. *)
Lemma joined_expenses (st : Store) :
  wf_store st ->
  map (fun j : Joined => fst (fst j)) (joined st) = tbl_expenses st.
Proof.
  intros Hwf. unfold joined.
  generalize (wf_expense_rows st Hwf). generalize (tbl_expenses st) as l.
  induction 1 as [|e l He Hl IH]; simpl; [reflexivity|].
  change (e :: l) with ([e] ++ l). rewrite map_app.
  f_equal; [clear IH|exact IH].
  unfold expense_row_ok in He. rewrite !andb_true_iff in He.
  destruct He as [[_ Hu] Hc].
  apply existsb_exists in Hu as (u & Hu & Eu).
  apply existsb_exists in Hc as (c & Hc & Ec).
  apply Z.eqb_eq in Eu, Ec. rewrite <- Eu, <- Ec.
  rewrite (flat_map_one_match c_id
             (fun c0 => flat_map (fun u0 => if u_id u0 =? u_id u
                                            then [(e, c0, u0)] else [])
                          (tbl_users st)))
    by (try apply Hwf; assumption).
  rewrite (flat_map_one_match u_id (fun u0 => [(e, c, u0)]))
    by (try apply Hwf; assumption).
  reflexivity.
Qed.

(** X21.  In a store that satisfies the constraints of the schema the
    listing shows every expense that satisfies all the clauses of the
    request exactly once, and nothing else: the ids of its rows are a
    rearrangement of the ids of those expenses. *)
Theorem listing_shows_each_match_once
    (ctx : Ctx) (st : Store) (rows : list Row) :
  wf_store st ->
  listing_rows ctx st = Ok rows ->
  exists w,
    build_where ctx = Ok w
    /\ Permutation (map r_id rows)
         (map e_id (filter (fun e => forallb (clause_holds e) w)
                           (tbl_expenses st)))
    /\ NoDup (map r_id rows).
Proof.
  intros Hwf Hrows. unfold listing_rows in Hrows.
  destruct (build_where ctx) as [w|x]; simpl in Hrows; [|discriminate].
  unfold select_listing, select_listing_joined in Hrows.
  destruct (forallb clause_bindable w); simpl in Hrows; [|discriminate].
  injection Hrows as <-.
  exists w. split; [reflexivity|].
  assert (Hperm : Permutation
            (map r_id (map select_columns (listing_joined w st)))
            (map e_id (filter (fun e => forallb (clause_holds e) w)
                              (tbl_expenses st)))).
  { rewrite map_map.
    rewrite (map_ext (fun j => r_id (select_columns j))
                     (fun j : Joined => e_id (fst (fst j))))
      by (now intros [[e c] u]).
    rewrite <- (map_map (fun j : Joined => fst (fst j)) e_id).
    apply Permutation_map.
    rewrite <- (joined_expenses st Hwf), filter_map_swap.
    apply Permutation_map. unfold listing_joined. apply order_by_perm. }
  split; [exact Hperm|].
  apply (Permutation_NoDup (Permutation_sym Hperm)).
  pose proof (wf_expense_ids st Hwf) as Hnd.
  clear - Hnd. induction (tbl_expenses st) as [|e l IH]; simpl;
    [constructor|].
  inversion Hnd as [|? ? Hn Hl]; subst.
  destruct (forallb (clause_holds e) w); simpl; [|now apply IH].
  constructor; [|now apply IH].
  intros Hin. apply Hn. apply in_map_iff in Hin as (e0 & E0 & Hin).
  apply filter_In in Hin as [Hin _]. rewrite <- E0. now apply in_map.
Qed.

Lemma listing_shows_each_match_once_witness :
  exists w,
    build_where (listing_request Sample.admin) = Ok w
    /\ Permutation [2; 1]
         (map e_id (filter (fun e => forallb (clause_holds e) w)
                           (tbl_expenses Sample.two_expenses)))
    /\ NoDup [2; 1].
Proof.
  apply (listing_shows_each_match_once (listing_request Sample.admin)
           Sample.two_expenses
           [ {| r_id := 2;
                r_amount := S754_finite false 6755399441055744 (-51);
                r_description := "Bus"; r_expense_date := "2024-01-02";
                r_is_essential := 1; r_category_name := "Transport";
                r_owner := "admin" |};
             {| r_id := 1;
                r_amount := S754_finite false 7036874417766400 (-49);
                r_description := "Lunch"; r_expense_date := "2024-01-01";
                r_is_essential := 0; r_category_name := "Food";
                r_owner := "student" |} ]).
  - apply wf_storeb_sound. vm_compute. reflexivity.
  - vm_compute. reflexivity.
Defined.

Lemma listing_rows_satisfy (ctx : Ctx) (st : Store) (rows : list Row) :
  listing_rows ctx st = Ok rows ->
  exists w,
    build_where ctx = Ok w
    /\ forall r, In r rows ->
         exists e c u,
           r = select_columns (e, c, u)
           /\ forallb (clause_holds e) w = true.
Proof.
  intros Hrows. unfold listing_rows in Hrows.
  destruct (build_where ctx) as [w|x]; simpl in Hrows; [|discriminate].
  unfold select_listing, select_listing_joined in Hrows.
  destruct (forallb clause_bindable w); simpl in Hrows; [|discriminate].
  injection Hrows as <-.
  exists w. split; [reflexivity|].
  intros r Hr. apply in_map_iff in Hr as ([[e c] u] & <- & Hj).
  apply listing_joined_In in Hj as [_ Hcl]. exists e, c, u. auto.
Qed.

(** X22.  Every row of a listing satisfies the filters that were asked
    for: with a non-blank [from] its date is not before it, with a
    non-blank [to] its date is not after it (dates compared as strings),
    and with [essential] "0" or "1" its flag is 0 or 1. *)
Theorem listing_rows_pass_the_filters
    (ctx : Ctx) (st : Store) (rows : list Row) (r : Row) :
  listing_rows ctx st = Ok rows ->
  In r rows ->
  let date_from := Py.strip (get_or (args (request ctx)) "from" "") in
  let date_to := Py.strip (get_or (args (request ctx)) "to" "") in
  let essential := Py.strip (get_or (args (request ctx)) "essential" "") in
  (date_from <> "" -> (date_from <=? r_expense_date r)%string = true)
  /\ (date_to <> "" -> (r_expense_date r <=? date_to)%string = true)
  /\ (essential = "0" -> r_is_essential r = 0)
  /\ (essential = "1" -> r_is_essential r = 1).
Proof.
  intros Hrows Hr date_from date_to essential.
  destruct (listing_rows_satisfy ctx st rows Hrows) as (w & Hw & Hall).
  destruct (Hall r Hr) as (e & c & u & -> & Hcl). simpl.
  rewrite forallb_forall in Hcl.
  assert (Hother : forall cl, In cl (other_clauses ctx) ->
                              clause_holds e cl = true).
  { intros cl Hin. apply Hcl.
    rewrite build_where_parts in Hw. cbv zeta in Hw.
    destruct (Py.isdigit _); [destruct (int_param _); simpl in Hw|];
      try discriminate; injection Hw as <-;
      rewrite in_app_iff; right; simpl; auto. }
  unfold other_clauses in Hother. cbv zeta in Hother.
  fold date_from date_to essential in Hother.
  repeat split.
  - intros Hne. apply (Hother (DateGe date_from)).
    rewrite (truthy_true _ Hne). now left.
  - intros Hne. apply (Hother (DateLe date_to)).
    rewrite (truthy_true _ Hne), !in_app_iff. right. left. now left.
  - intros Hes. apply Z.eqb_eq, (Hother (EssentialEq 0)).
    rewrite Hes, !in_app_iff. right. right. now left.
  - intros Hes. apply Z.eqb_eq, (Hother (EssentialEq 1)).
    rewrite Hes, !in_app_iff. right. right. now left.
Qed.

Lemma listing_rows_pass_the_filters_witness :
  ("2024-01-02" <=? "2024-01-02")%string = true /\ 1 = 1.
Proof.
  destruct (listing_rows_pass_the_filters
              (Sample.get Sample.admin "/expenses"
                 [("from", "2024-01-02"); ("essential", " 1 ")])
              Sample.two_expenses
              [ {| r_id := 2;
                   r_amount := S754_finite false 6755399441055744 (-51);
                   r_description := "Bus"; r_expense_date := "2024-01-02";
                   r_is_essential := 1; r_category_name := "Transport";
                   r_owner := "admin" |} ]
              {| r_id := 2;
                 r_amount := S754_finite false 6755399441055744 (-51);
                 r_description := "Bus"; r_expense_date := "2024-01-02";
                 r_is_essential := 1; r_category_name := "Transport";
                 r_owner := "admin" |})
    as (H1 & _ & _ & H4).
  - vm_compute. reflexivity.
  - now left.
  - split.
    + apply H1. vm_compute. discriminate.
    + apply H4. vm_compute. reflexivity.
Defined.

Lemma omit_arg_get_other (ctx : Ctx) (k k' : string) :
  k' <> k ->
  get_or (args (request (omit_arg k ctx))) k' ""
  = get_or (args (request ctx)) k' "".
Proof.
  intros Hne. unfold get_or, omit_arg. simpl.
  now rewrite multi_get_omit_other.
Qed.

Lemma omit_arg_get_same (ctx : Ctx) (k : string) :
  get_or (args (request (omit_arg k ctx))) k "" = "".
Proof.
  unfold get_or, omit_arg. simpl. now rewrite multi_get_omit_same.
Qed.

Lemma strip_empty : Py.strip "" = "".
Proof. reflexivity. Qed.

(** X23.  A [from] or a [to] that is blank after trimming, and an
    [essential] that is neither "0" nor "1" after trimming, are ignored:
    the clauses built, and so the listing, are those of the same request
    without the parameter, and nothing is raised on their account. *)
Theorem unusable_filters_are_ignored (ctx : Ctx) (st : Store) :
  (Py.strip (get_or (args (request ctx)) "from" "") = "" ->
   build_where (omit_arg "from" ctx) = build_where ctx
   /\ listing_rows (omit_arg "from" ctx) st = listing_rows ctx st)
  /\ (Py.strip (get_or (args (request ctx)) "to" "") = "" ->
      build_where (omit_arg "to" ctx) = build_where ctx
      /\ listing_rows (omit_arg "to" ctx) st = listing_rows ctx st)
  /\ (Py.strip (get_or (args (request ctx)) "essential" "") <> "0" ->
      Py.strip (get_or (args (request ctx)) "essential" "") <> "1" ->
      build_where (omit_arg "essential" ctx) = build_where ctx
      /\ listing_rows (omit_arg "essential" ctx) st = listing_rows ctx st).
Proof.
  assert (Hlist : forall c', build_where c' = build_where ctx ->
            build_where c' = build_where ctx
            /\ listing_rows c' st = listing_rows ctx st).
  { intros c' H. split; [exact H|]. unfold listing_rows. now rewrite H. }
  split; [|split].
  - intros Hb. apply Hlist. rewrite !build_where_parts.
    unfold other_clauses, owner_clauses. cbv zeta.
    rewrite omit_arg_get_same, strip_empty, Hb.
    rewrite !omit_arg_get_other by discriminate. reflexivity.
  - intros Hb. apply Hlist. rewrite !build_where_parts.
    unfold other_clauses, owner_clauses. cbv zeta.
    rewrite omit_arg_get_same, strip_empty, Hb.
    rewrite !omit_arg_get_other by discriminate. reflexivity.
  - intros H0 H1. apply Hlist. rewrite !build_where_parts.
    unfold other_clauses, owner_clauses. cbv zeta.
    rewrite omit_arg_get_same, strip_empty.
    rewrite !omit_arg_get_other by discriminate.
    apply String.eqb_neq in H0, H1. rewrite H0, H1. reflexivity.
Qed.

(** ** The list of categories on the pages *)

Lemma string_leb_trans (a b c : string) :
  (a <=? b)%string = true -> (b <=? c)%string = true ->
  (a <=? c)%string = true.
Proof.
  unfold String.leb.
  destruct (a ?= b)%string eqn:Hab; try discriminate;
    destruct (b ?= c)%string eqn:Hbc; try discriminate; intros _ _.
  - apply string_compare_eq in Hab, Hbc. subst.
    now rewrite string_compare_refl.
  - apply string_compare_eq in Hab. subst. now rewrite Hbc.
  - apply string_compare_eq in Hbc. subst. now rewrite Hab.
  - now rewrite (string_compare_lt_trans a b c Hab Hbc).
Qed.

Lemma select_categories_by_name (st : Store) :
  Permutation (select_categories st) (tbl_categories st)
  /\ StronglySorted (fun a b => (c_name a <=? c_name b)%string = true)
       (select_categories st).
Proof.
  unfold select_categories. split.
  - apply order_by_perm.
  - apply (order_by_sorted (fun a b => (c_name a <=? c_name b)%string)).
    + intros a b. apply String.leb_total.
    + intros a b c. apply string_leb_trans.
Qed.

Lemma expenses_page_categories (ctx : Ctx) (st : Store) (p : Page) :
  out_result (expenses ctx st) = Render p ->
  page_categories p = select_categories st.
Proof.
  unfold expenses, login_required, expenses_view.
  destruct (s_user_id (session ctx)); simpl; [|discriminate].
  destruct (listing_rows ctx st) as [rows|x]; simpl; [|discriminate].
  destruct (compute_totals rows). simpl. now intros [= <-].
Qed.

Lemma add_expense_page_categories (ctx : Ctx) (st : Store) (p : Page) :
  out_result (add_expense ctx st) = Render p ->
  page_categories p = select_categories st.
Proof.
  unfold add_expense, login_required, add_expense_view.
  destruct (s_user_id (session ctx)); simpl; [|discriminate].
  destruct (method (request ctx)); simpl; [now intros [= <-]|].
  destruct (validate _ _ _ _); simpl; [|now intros [= <-]].
  destruct (int_param _); simpl; [|discriminate].
  destruct (float_param _); simpl; [|discriminate].
  destruct (insert_expense _ _ _ _ _ _ _); simpl; discriminate.
Qed.

Lemma edit_expense_page_categories
    (expense_id : Z) (ctx : Ctx) (st : Store) (p : Page) :
  out_result (edit_expense expense_id ctx st) = Render p ->
  page_categories p = select_categories st.
Proof.
  unfold edit_expense, login_required, edit_expense_view.
  destruct (s_user_id (session ctx)); simpl; [|discriminate].
  destruct (select_expense expense_id st) as [[e|]|x]; simpl;
    try discriminate.
  destruct (not_permitted ctx (e_user_id e)); simpl; [discriminate|].
  destruct (method (request ctx)); simpl; [now intros [= <-]|].
  destruct (validate _ _ _ _); simpl; [|now intros [= <-]].
  destruct (int_param _); simpl; [|discriminate].
  destruct (float_param _); simpl; [|discriminate].
  destruct (update_expense _ _ _ _ _ _ _); simpl; discriminate.
Qed.

Lemma categories_page_categories (ctx : Ctx) (st : Store) (p : Page) :
  out_result (categories ctx st) = Render p ->
  page_categories p = select_categories st.
Proof.
  unfold categories, login_required, admin_required, categories_view.
  destruct (s_user_id (session ctx)); simpl; [|discriminate].
  destruct (role_is_admin (s_role (session ctx))); simpl; [|discriminate].
  destruct (method (request ctx)); simpl; [now intros [= <-]|].
  destruct (Py.truthy _); simpl; [|discriminate].
  destruct (insert_category _ st); simpl; discriminate.
Qed.

(** X24.  Whenever the listing, the add view, the edit view or the
    categories view renders a page, the categories handed to that page
    are the rows of the categories table, each once, in ascending order
    of name (names compared as strings). *)
Theorem categories_come_by_name
    (expense_id : Z) (ctx : Ctx) (st : Store) (p : Page) :
  out_result (expenses ctx st) = Render p
  \/ out_result (add_expense ctx st) = Render p
  \/ out_result (edit_expense expense_id ctx st) = Render p
  \/ out_result (categories ctx st) = Render p ->
  Permutation (page_categories p) (tbl_categories st)
  /\ StronglySorted (fun a b => (c_name a <=? c_name b)%string = true)
       (page_categories p).
Proof.
  intros H.
  assert (Hp : page_categories p = select_categories st).
  { destruct H as [H|[H|[H|H]]].
    - now apply (expenses_page_categories ctx).
    - now apply (add_expense_page_categories ctx).
    - now apply (edit_expense_page_categories expense_id ctx).
    - now apply (categories_page_categories ctx). }
  rewrite Hp. apply select_categories_by_name.
Qed.

Lemma categories_come_by_name_witness :
  Permutation
    [ {| c_id := 5; c_name := "Bills" |}; {| c_id := 1; c_name := "Food" |};
      {| c_id := 6; c_name := "Other" |}; {| c_id := 3; c_name := "Rent" |};
      {| c_id := 4; c_name := "Shopping" |};
      {| c_id := 2; c_name := "Transport" |} ]
    (tbl_categories Sample.fresh)
  /\ StronglySorted (fun a b => (c_name a <=? c_name b)%string = true)
       [ {| c_id := 5; c_name := "Bills" |}; {| c_id := 1; c_name := "Food" |};
         {| c_id := 6; c_name := "Other" |}; {| c_id := 3; c_name := "Rent" |};
         {| c_id := 4; c_name := "Shopping" |};
         {| c_id := 2; c_name := "Transport" |} ].
Proof.
  apply (categories_come_by_name 0
           (Sample.get Sample.student "/expenses/add" []) Sample.fresh
           (add_expense_html
              [ {| c_id := 5; c_name := "Bills" |};
                {| c_id := 1; c_name := "Food" |};
                {| c_id := 6; c_name := "Other" |};
                {| c_id := 3; c_name := "Rent" |};
                {| c_id := 4; c_name := "Shopping" |};
                {| c_id := 2; c_name := "Transport" |} ] [])).
  right. left. vm_compute. reflexivity.
Defined.

(** ** Reading does not write *)

(** X25.  A GET changes nothing: the add form, the edit form, the
    categories page, the login page and the registration page return the
    store as it was, and the last two the session as it was.  The listing
    returns the store as it was for any method. *)
Theorem get_changes_nothing (expense_id : Z) (ctx : Ctx) (st : Store) :
  out_store (expenses ctx st) = st
  /\ (method (request ctx) = GET ->
      out_store (add_expense ctx st) = st
      /\ out_store (edit_expense expense_id ctx st) = st
      /\ out_store (categories ctx st) = st
      /\ auth_store (login ctx st) = st
      /\ auth_session (login ctx st) = session ctx
      /\ auth_store (register ctx st) = st
      /\ auth_session (register ctx st) = session ctx).
Proof.
  split.
  - unfold expenses, login_required, expenses_view.
    destruct (s_user_id (session ctx)); simpl; [|reflexivity].
    destruct (listing_rows ctx st); simpl; [|reflexivity].
    now destruct (compute_totals a).
  - intros Hm.
    unfold add_expense, edit_expense, categories, login_required,
      admin_required, add_expense_view, edit_expense_view, categories_view,
      login, register.
    rewrite Hm.
    destruct (s_user_id (session ctx)); simpl;
      destruct (role_is_admin (s_role (session ctx))); simpl;
      destruct (select_expense expense_id st) as [[e|]|x]; simpl;
      try destruct (not_permitted ctx (e_user_id e)); simpl;
      repeat split; reflexivity.
Qed.

(** ** When an edit goes through *)

(** X26.  In a store that satisfies the constraints of the schema, Edit
    Expense answers "Expense updated." exactly when the session is
    logged in, the expense exists, the session is its owner's or an
    administrator's, the request is a POST that passes the validation,
    [int] accepts the category id (digits it knows, at most 4300 of
    them) with a value SQLite can hold that is the id of a category, and
    the amount is not a NaN. *)
Theorem edit_expense_succeeds_iff
    (expense_id : Z) (ctx : Ctx) (st : Store) :
  wf_store st ->
  let f := form (request ctx) in
  let category_id := Py.strip (get_or f "category_id" "") in
  let amount := Py.strip (get_or f "amount" "") in
  let description := Py.strip (get_or f "description" "") in
  let expense_date := Py.strip (get_or f "expense_date" "") in
  out_flashes (edit_expense expense_id ctx st)
    = [("Expense updated.", "success")] <->
  method (request ctx) = POST
  /\ validate category_id amount description expense_date = []
  /\ exists uid e cid amt,
       current_user_id ctx = Some uid
       /\ select_expense expense_id st = Ok (Some e)
       /\ (is_admin ctx = true \/ e_user_id e = uid)
       /\ Py.int category_id = Some cid
       /\ Py.float_of_str amount = Some amt
       /\ in_int64 cid = true /\ category_exists cid st = true
       /\ Py.is_nan amt = false.
Proof.
  intros Hwf f category_id amount description expense_date. split.
  - unfold edit_expense, login_required.
    destruct (s_user_id (session ctx)) as [uid|] eqn:Hu; simpl;
      [|discriminate].
    unfold edit_expense_view.
    destruct (select_expense expense_id st) as [[e|]|x] eqn:Hsel; simpl;
      try discriminate.
    destruct (not_permitted ctx (e_user_id e)) eqn:Hnp; simpl;
      [discriminate|].
    destruct (method (request ctx)); simpl; [discriminate|].
    fold f category_id amount description expense_date.
    destruct (validate _ _ _ _) eqn:Hv; simpl; [|discriminate].
    unfold int_param, float_param.
    destruct (Py.int category_id) as [cid|] eqn:Hc; simpl; [|discriminate].
    destruct (Py.float_of_str amount) as [amt|] eqn:Ha; simpl;
      [|discriminate].
    destruct (update_expense _ _ _ _ _ _ _) as [st'|x] eqn:Hup; simpl;
      [|discriminate].
    intros _. split; [reflexivity|]. split; [reflexivity|].
    exists uid, e, cid, amt.
    unfold update_expense, bind_int in Hup.
    destruct (in_int64 cid) eqn:Rc; simpl in Hup; [|discriminate].
    destruct (in_int64 expense_id); simpl in Hup; [|discriminate].
    destruct (existsb _ (tbl_expenses st)) eqn:Hex; [discriminate|].
    pose proof Hsel as Hfind.
    apply select_expense_in_range in Hfind as [_ Hfind].
    symmetry in Hfind. apply find_some in Hfind as [He Hid].
    pose proof (existsb_false_all _ _ Hex e He) as Hf. simpl in Hf.
    rewrite Hid in Hf. simpl in Hf. apply negb_false_iff in Hf.
    unfold expense_row_ok in Hf. rewrite !andb_true_iff in Hf.
    destruct Hf as [[[Hn _] _] Hce]. apply negb_true_iff in Hn.
    unfold current_user_id. rewrite Hu.
    repeat split; try assumption; try reflexivity.
    unfold not_permitted, current_user_id in Hnp. rewrite Hu in Hnp.
    destruct (is_admin ctx); simpl in Hnp; [now left|right].
    apply negb_false_iff in Hnp. now apply Z.eqb_eq in Hnp.
  - intros (Hm & Hv & uid & e & cid & amt & Hu & Hsel & Hperm & Hc & Ha
            & Rc & Hce & Hn).
    destruct (validate_passed _ _ _ _ Hv) as (_ & (x & Hx & Hle) & _).
    rewrite Ha in Hx. injection Hx as <-.
    destruct (fle_zero_total amt Hle Hn) as [Hge _].
    destruct (select_expense_in_range _ _ _ Hsel) as [Hrange _].
    assert (Hnp : not_permitted ctx (e_user_id e) = false).
    { unfold not_permitted. rewrite Hu.
      destruct Hperm as [->| ->]; simpl; [reflexivity|].
      rewrite Z.eqb_refl. apply andb_false_r. }
    unfold edit_expense, login_required.
    unfold current_user_id in Hu. rewrite Hu.
    unfold edit_expense_view. rewrite Hsel, Hnp, Hm.
    fold f category_id amount description expense_date. rewrite Hv.
    unfold int_param, float_param. rewrite Hc, Ha. simpl.
    unfold update_expense, bind_int. rewrite Rc, Hrange. simpl.
    assert (Hex : existsb
              (fun e0 => (e_id e0 =? expense_id)
                         && negb (expense_row_ok (e_user_id e0) cid amt st))
              (tbl_expenses st) = false).
    { destruct (existsb _ (tbl_expenses st)) eqn:E; [|reflexivity].
      apply existsb_exists in E as (e0 & He0 & E).
      apply andb_true_iff in E as [_ E]. apply negb_true_iff in E.
      pose proof (wf_expense_rows st Hwf) as Hrows.
      rewrite Forall_forall in Hrows. specialize (Hrows e0 He0).
      unfold expense_row_ok in Hrows, E.
      rewrite !andb_true_iff in Hrows. destruct Hrows as [[_ Hue] _].
      rewrite Hn, Hge, Hue, Hce in E. discriminate. }
    now rewrite Hex.
Qed.

Lemma edit_expense_succeeds_iff_witness :
  out_flashes
    (edit_expense 1 (Sample.post Sample.admin "/expenses/1/edit" Sample.bus)
       Sample.two_expenses)
  = [("Expense updated.", "success")] <->
  method (request (Sample.post Sample.admin "/expenses/1/edit" Sample.bus))
  = POST
  /\ validate "2" "3" "Bus" "2024-01-02" = []
  /\ exists uid e cid amt,
       current_user_id
         (Sample.post Sample.admin "/expenses/1/edit" Sample.bus) = Some uid
       /\ select_expense 1 Sample.two_expenses = Ok (Some e)
       /\ (is_admin (Sample.post Sample.admin "/expenses/1/edit" Sample.bus)
           = true \/ e_user_id e = uid)
       /\ Py.int "2" = Some cid
       /\ Py.float_of_str "3" = Some amt
       /\ in_int64 cid = true
       /\ category_exists cid Sample.two_expenses = true
       /\ Py.is_nan amt = false.
Proof.
  apply (edit_expense_succeeds_iff 1
           (Sample.post Sample.admin "/expenses/1/edit" Sample.bus)
           Sample.two_expenses).
  apply wf_storeb_sound. vm_compute. reflexivity.
Defined.

(** ** Who sees what *)

Lemma listing_joined_ids (w : list Clause) (st : Store) :
  wf_store st ->
  Permutation
    (map r_id (map select_columns (listing_joined w st)))
    (map e_id (filter (fun e => forallb (clause_holds e) w)
                      (tbl_expenses st))).
Proof.
  intros Hwf. rewrite map_map.
  rewrite (map_ext (fun j => r_id (select_columns j))
                   (fun j : Joined => e_id (fst (fst j))))
    by (now intros [[e c] u]).
  rewrite <- (map_map (fun j : Joined => fst (fst j)) e_id).
  apply Permutation_map.
  rewrite <- (joined_expenses st Hwf), filter_map_swap.
  apply Permutation_map. unfold listing_joined. apply order_by_perm.
Qed.

(** X27.  In a store that satisfies the constraints of the schema, the
    listing without filters shows an administrator every expense of the
    table, and a member every expense of their own and no other, each
    once. *)
Theorem unfiltered_listing_by_role (s : Session) (uid : Z) (st : Store) :
  wf_store st ->
  s_user_id s = Some uid ->
  in_int64 uid = true ->
  exists rows,
    listing_rows (listing_request s) st = Ok rows
    /\ Permutation (map r_id rows)
         (map e_id
            (if role_is_admin (s_role s) then tbl_expenses st
             else filter (fun e => e_user_id e =? uid) (tbl_expenses st))).
Proof.
  intros Hwf Hu Hr.
  unfold listing_rows. rewrite listing_request_where, Hu. simpl.
  unfold select_listing, select_listing_joined.
  destruct (role_is_admin (s_role s)); simpl.
  - eexists. split; [reflexivity|].
    rewrite (listing_joined_ids [] st Hwf). simpl.
    now rewrite filter_true.
  - rewrite Hr. simpl. eexists. split; [reflexivity|].
    rewrite (listing_joined_ids [UserIdEq (Some uid)] st Hwf). simpl.
    rewrite (filter_ext (fun e => (e_user_id e =? uid) && true)
                        (fun e => e_user_id e =? uid))
      by (intros e; apply andb_true_r).
    reflexivity.
Qed.

Lemma unfiltered_listing_by_role_witness :
  exists rows,
    listing_rows (listing_request Sample.student) Sample.two_expenses
    = Ok rows
    /\ Permutation (map r_id rows) [1].
Proof.
  apply (unfiltered_listing_by_role Sample.student 1 Sample.two_expenses).
  - apply wf_storeb_sound. vm_compute. reflexivity.
  - reflexivity.
  - reflexivity.
Defined.

(** ** Validation on edit *)

(** X28.  Edit runs the validation of Add.  For a logged-in session
    allowed to edit an existing expense, a POST that breaks a rule
    flashes exactly the warnings Add flashes for the same form, shows the
    edit form again with the expense as stored and the fields as sent,
    and leaves the store alone. *)
Theorem edit_expense_validation
    (expense_id uid : Z) (e : Expense) (ctx : Ctx) (st : Store) :
  current_user_id ctx = Some uid ->
  select_expense expense_id st = Ok (Some e) ->
  is_admin ctx = true \/ e_user_id e = uid ->
  method (request ctx) = POST ->
  let f := form (request ctx) in
  let errors :=
    validate (Py.strip (get_or f "category_id" ""))
      (Py.strip (get_or f "amount" ""))
      (Py.strip (get_or f "description" ""))
      (Py.strip (get_or f "expense_date" "")) in
  errors <> [] ->
  edit_expense expense_id ctx st
  = {| out_store := st;
       out_flashes := map (fun m => (m, "warning")) errors;
       out_result :=
         Render (edit_expense_html (select_categories st) e (inr f)) |}
  /\ out_flashes (edit_expense expense_id ctx st)
     = out_flashes (add_expense ctx st).
Proof.
  intros Hu Hsel Hperm Hm f errors Hne.
  assert (Hnp : not_permitted ctx (e_user_id e) = false).
  { unfold not_permitted. rewrite Hu.
    destruct Hperm as [->| ->]; simpl; [reflexivity|].
    rewrite Z.eqb_refl. apply andb_false_r. }
  unfold edit_expense, add_expense, login_required.
  unfold current_user_id in Hu. rewrite Hu.
  unfold edit_expense_view, add_expense_view. rewrite Hsel, Hnp, Hm.
  fold f errors. destruct errors; [congruence|]. split; reflexivity.
Qed.

Lemma edit_expense_validation_witness :
  out_flashes
    (edit_expense 1
       (Sample.post Sample.student "/expenses/1/edit"
          [("category_id", "1"); ("amount", "nothing")])
       Sample.two_expenses)
  = [("Please enter a valid number for amount.", "warning");
     ("Description is required.", "warning");
     ("Date is required (YYYY-MM-DD).", "warning")].
Proof.
  destruct (edit_expense_validation 1 1
              {| e_id := 1; e_user_id := 1; e_category_id := 1;
                 e_amount := S754_finite false 7036874417766400 (-49);
                 e_description := "Lunch"; e_expense_date := "2024-01-01";
                 e_is_essential := 0 |}
              (Sample.post Sample.student "/expenses/1/edit"
                 [("category_id", "1"); ("amount", "nothing")])
              Sample.two_expenses)
    as (H & _).
  - reflexivity.
  - vm_compute. reflexivity.
  - right. reflexivity.
  - reflexivity.
  - vm_compute. discriminate.
  - rewrite H. vm_compute. reflexivity.
Defined.

(* ================================================================== *)
(** * Digit strings the number conversions refuse *)
(* ================================================================== *)

(** [str.isdigit] lets through three kinds of category id that the
    conversion to a SQLite integer then refuses: a superscript digit,
    which [int] does not know; more than 4300 digits, leading zeros
    counted, which [int] does not convert; and a value beyond 64 bits,
    which cannot be bound.  The listing ends in the exception. *)
Example category_digits_refused :
  Py.isdigit (String "178"%char EmptyString) = true
  /\ out_result
       (expenses
          (Sample.get Sample.student "/expenses"
             [("category_id", String "178"%char EmptyString)])
          Sample.one_expense)
     = Raised ValueError
  /\ Py.int (String.append (repeat_char "0" (Z.to_nat 4299)) "1") = Some 1
  /\ Py.isdigit (String.append (repeat_char "0" (Z.to_nat 4300)) "1") = true
  /\ Py.int (String.append (repeat_char "0" (Z.to_nat 4300)) "1") = None
  /\ out_result
       (expenses
          (Sample.get Sample.student "/expenses"
             [("category_id",
               String.append (repeat_char "0" (Z.to_nat 4300)) "1")])
          Sample.one_expense)
     = Raised ValueError
  /\ out_result
       (expenses
          (Sample.get Sample.student "/expenses"
             [("category_id", "9223372036854775808")])
          Sample.one_expense)
     = Raised OverflowError.
Proof. repeat split; vm_compute; reflexivity. Qed.

(** The same digit strings on Add Expense: the validation passes and the
    view ends in the exception, with no row inserted. *)
Example add_expense_digits_refused :
  add_expense
    (Sample.post Sample.student "/expenses/add"
       [("category_id", String.append (repeat_char "0" (Z.to_nat 4300)) "1");
        ("amount", "12.50"); ("description", "Lunch");
        ("expense_date", "2024-01-01")])
    Sample.fresh
  = crash Sample.fresh ValueError
  /\ add_expense
       (Sample.post Sample.student "/expenses/add"
          [("category_id", "9223372036854775808");
           ("amount", "12.50"); ("description", "Lunch");
           ("expense_date", "2024-01-01")])
       Sample.fresh
     = crash Sample.fresh OverflowError.
Proof. split; vm_compute; reflexivity. Qed.
